(** * ERP demo: movement journal, monthly Excel export and DC reconciliation

    A shallow embedding of [erp_app.py] (the Flask application) and of the
    export helpers of [streamlit_erp.py].

    - Python [float] is IEEE binary64: it is Rocq's primitive [float], with
      the same rounding.  Python [int] is [Z].
    - A Python [str] is a [string]; every character is a code point below
      256 (Latin-1), which is where all of Python's one-byte white space
      lives.
    - [None] is [None]: nullable columns and absent form fields are options.
    - SQL tables are lists of rows in scan order (rowid order); a dict used
      as a map is a [gmap].
    - Python built-ins that parse text ([int], [float], [strptime]), the
      engine's ORDER BY, what SQLite keeps of a float and what pandas reads
      back of a sheet it wrote are interfaces (type classes): the theorems
      hold for every implementation, and small instances run the examples.
    - A handler that raises answers HTTP 400 or 500; the exception is the
      error value of its result. *)

From Stdlib Require Import ZArith List String Ascii Floats Uint63 Lia Permutation Sorted Bool.
From stdpp Require Import gmap strings pretty.

Local Open Scope Z_scope.

(* ================================================================== *)
(** * Python values *)

Module Py.

(** [str.isspace] on one character, for code points below 256. *)
Definition is_space (c : ascii) : bool :=
  let n := nat_of_ascii c in
  ((9 <=? n) && (n <=? 13) || (28 <=? n) && (n <=? 32)
   || (n =? 133) || (n =? 160))%nat.

(** [str.lstrip()], [str.rstrip()] and [str.strip()] with no argument. *)
Fixpoint lstrip_chars (l : list ascii) : list ascii :=
  match l with
  | [] => []
  | c :: l' => if is_space c then lstrip_chars l' else l
  end.

Definition rstrip_chars (l : list ascii) : list ascii :=
  rev (lstrip_chars (rev l)).

Definition strip_chars (l : list ascii) : list ascii :=
  rstrip_chars (lstrip_chars l).

Definition strip (s : string) : string :=
  string_of_list_ascii (strip_chars (list_ascii_of_string s)).

(** Truth value of a [str]: every string but the empty one is true. *)
Definition str_truthy (s : string) : bool :=
  match s with EmptyString => false | _ => true end.

(** Truth value of a [float]: false exactly on [0.0] and [-0.0]
    (a NaN is true). *)
Definition float_truthy (x : float) : bool := negb (PrimFloat.is_zero x).

(** Truth value of an [int]. *)
Definition int_truthy (n : Z) : bool := negb (n =? 0).

(** [s or ""] for a nullable string. *)
Definition str_or_empty (o : option string) : string :=
  match o with
  | Some s => if str_truthy s then s else EmptyString
  | None => EmptyString
  end.

(** [x or 0.0] for a nullable float. *)
Definition float_or_zero (o : option float) : float :=
  match o with
  | Some x => if float_truthy x then x else 0%float
  | None => 0%float
  end.

(** ASCII [str.lower], used to say that two strings differ in letter case. *)
Definition lower_char (c : ascii) : ascii :=
  let n := nat_of_ascii c in
  if ((65 <=? n) && (n <=? 90))%nat then ascii_of_nat (n + 32) else c.

Definition lower (s : string) : string :=
  string_of_list_ascii (map lower_char (list_ascii_of_string s)).

End Py.

(** A [datetime.date]. *)
Record date := Date { year : Z; month : Z; day : Z }.

(** The text parsers of the Python runtime.  [None] stands for the
    [ValueError] the built-in raises. *)
Class PyBuiltins := {
  py_int : string -> option Z;          (* int(s) *)
  py_float : string -> option float;    (* float(s) *)
  strptime_ymd : string -> option date; (* strptime(s, "%Y-%m-%d").date() *)
}.

(* ================================================================== *)
(** * Exceptions and the handlers' result type *)

Inductive exn :=
  | BadRequestKeyError      (* request.form[k] on a missing key: HTTP 400 *)
  | ValueError              (* int/float/strptime on unparseable text; sheet not found *)
  | KeyError                (* the file is a zip archive but no workbook *)
  | FileNotFoundError
  | BadZipFile              (* the file is there but is no zip archive *)
  | OverflowError           (* an int outside SQLite's 64 bits, bound to a statement *)
  | IllegalCharacterError   (* openpyxl: a control character in a cell *)
  | UndefinedError.         (* jinja2: a call of a name the template lacks *)

Inductive result (A : Type) :=
  | Ok (a : A)
  | Raise (e : exn).
Arguments Ok {A} a.
Arguments Raise {A} e.

#[export] Instance result_ret : MRet result := fun A a => Ok a.
#[export] Instance result_bind : MBind result := fun A B f r =>
  match r with
  | Ok a => f a
  | Raise e => Raise e
  end.

(* ================================================================== *)
(** * Data model (the SQLAlchemy models) *)

(** [a >= b] on calendar dates. *)
Definition date_geb (a b : date) : bool :=
  (year b <? year a)
  || ((year a =? year b)
      && ((month b <? month a)
          || ((month a =? month b) && (day b <=? day a)))).

Module Customer.
Record t := Build {
  id : Z;
  name : string;
  gst_no : option string;
  address : option string;
  mobile : option string;
  email : option string;
}.
End Customer.

Module Item.
Record t := Build {
  id : Z;
  name : string;
  hsn_code : option string;
  material : option string;
}.
End Item.

Module Inward.
Record t := Build {
  id : Z;
  entry_date : date;
  customer_id : Z;
  item_id : Z;
  dc_no_cust : option string;
  qty : option float;
  rate : option float;
  amt : option float;
}.
End Inward.

Module Outward.
Record t := Build {
  id : Z;
  entry_date : date;
  customer_id : Z;
  item_id : Z;
  dc_no_cust : option string;
  dc_unique_no_noncust : option string;
  qty : option float;
}.
End Outward.

(** The SQLite database: four tables, each in scan order. *)
Record database := Db {
  customers : list Customer.t;
  items : list Item.t;
  inwards : list Inward.t;
  outwards : list Outward.t;
}.

(** The key SQLite gives a new row of an [INTEGER PRIMARY KEY] table:
    1 in an empty table, else one more than the largest key in use. *)
Definition next_id (ids : list Z) : Z :=
  match ids with
  | [] => 1
  | x :: l => fold_left Z.max l x + 1
  end.

(** An INTEGER of SQLite is a signed 64-bit value: binding a Python [int]
    outside that range to a statement raises [OverflowError]. *)
Definition sqlite_int_ok (n : Z) : bool := (- 2 ^ 63 <=? n) && (n <? 2 ^ 63).

(** What a REAL column keeps of a Python [float]: a NaN is stored as NULL
    and reads back as [None]; any other number reads back as itself, a zero
    as a zero (of the sign the engine keeps). *)
Class SqliteReal := {
  store_real : float -> option float;
  store_real_nan :
    forall x, PrimFloat.is_nan x = true -> store_real x = None;
  store_real_number :
    forall x, PrimFloat.is_nan x = false -> PrimFloat.is_zero x = false ->
              store_real x = Some x;
  store_real_zero :
    forall x, PrimFloat.is_zero x = true ->
              exists z, store_real x = Some z /\ PrimFloat.is_zero z = true;
}.

(** [Customer.query.get(id)] and [Item.query.get(id)]. *)
Definition get_customer (d : database) (i : Z) : option Customer.t :=
  find (fun c => Customer.id c =? i) (customers d).

Definition get_item (d : database) (i : Z) : option Item.t :=
  find (fun c => Item.id c =? i) (items d).

(** A submitted form or query string: [MultiDict.get] sees the first value
    of a key. *)
Abbreviation form := (gmap string string).

(** [request.form[k]] *)
Definition form_index (f : form) (k : string) : result string :=
  match f !! k with
  | Some v => Ok v
  | None => Raise BadRequestKeyError
  end.

(** [request.args.get(k, type=int)]: a value that does not parse gives the
    default, [None]. *)
Definition args_get_int `{B : PyBuiltins} (args : form) (k : string) : option Z :=
  match args !! k with
  | Some v => py_int v
  | None => None
  end.

(** [int(request.form[k])] *)
Definition int_field `{B : PyBuiltins} (f : form) (k : string) : result Z :=
  v ← form_index f k;
  match py_int v with
  | Some n => Ok n
  | None => Raise ValueError
  end.

(** [float(request.form.get(k) or 0)] *)
Definition float_field `{B : PyBuiltins} (f : form) (k : string) : result float :=
  match f !! k with
  | Some v =>
      if Py.str_truthy v then
        match py_float v with
        | Some x => Ok x
        | None => Raise ValueError
        end
      else Ok 0%float
  | None => Ok 0%float
  end.

(** [date_str = request.form.get("entry_date") or utcnow().strftime(fmt)]
    followed by [strptime(date_str, fmt).date()]; [today] is the date of
    [utcnow()], which the format and parse round trip gives back. *)
Definition date_field `{B : PyBuiltins} (today : date) (f : form) : result date :=
  match f !! "entry_date"%string with
  | Some v =>
      if Py.str_truthy v then
        match strptime_ymd v with
        | Some d => Ok d
        | None => Raise ValueError
        end
      else Ok today
  | None => Ok today
  end.

(* ================================================================== *)
(** * Monthly Excel archives *)

(** A cell of a row dict: text, a number, or [None]. *)
Inductive cell :=
  | CStr (s : string)
  | CNum (x : float)
  | CNone.

Definition cell_of_opt (o : option string) : cell :=
  match o with
  | Some s => CStr s
  | None => CNone
  end.

(** A row dict, in insertion order. *)
Abbreviation row_dict := (list (string * cell)).

(** Lookup and assignment in an insertion-ordered dict with string keys. *)
Fixpoint dict_get {V} (d : list (string * V)) (k : string) : option V :=
  match d with
  | [] => None
  | (k', v) :: d' => if String.eqb k' k then Some v else dict_get d' k
  end.

Fixpoint dict_set {V} (d : list (string * V)) (k : string) (v : V)
  : list (string * V) :=
  match d with
  | [] => [(k, v)]
  | (k', v') :: d' =>
      if String.eqb k' k then (k, v) :: d' else (k', v') :: dict_set d' k v
  end.

(** openpyxl refuses a text cell that holds a control character of its
    [ILLEGAL_CHARACTERS_RE] (code points 0 to 8, 11, 12 and 14 to 31)
    within the 32767 characters it keeps of a text. *)
Definition illegal_char (c : ascii) : bool :=
  let n := nat_of_ascii c in
  ((n <=? 8) || (n =? 11) || (n =? 12) || (14 <=? n) && (n <=? 31))%nat.

Definition legal_string (s : string) : bool :=
  negb (existsb illegal_char
          (firstn (Z.to_nat 32767) (list_ascii_of_string s))).

Definition legal_cell (c : cell) : bool :=
  match c with
  | CStr s => legal_string s
  | CNum _ | CNone => true
  end.

Module DataFrame.

(** A frame is its column header and its records; a column a record lacks
    reads as NaN. *)
Record t := Build {
  columns : list string;
  rows : list row_dict;
}.

(** [pd.DataFrame([row])] *)
Definition of_row (r : row_dict) : t := Build (map fst r) [r].

(** [pd.DataFrame()] and [pd.DataFrame(columns=[])] *)
Definition empty_frame : t := Build [] [].

(** [pd.concat([a, b], ignore_index=True)]: the union of the columns, the
    rows of [a] followed by those of [b]. *)
Definition concat (a b : t) : t :=
  Build
    (columns a
     ++ List.filter (fun c => negb (existsb (String.eqb c) (columns a))) (columns b))
    (rows a ++ rows b).

(** [df.empty]: some axis has length 0. *)
Definition empty (df : t) : bool :=
  match columns df, rows df with
  | _ :: _, _ :: _ => false
  | _, _ => true
  end.

(** The value of a record in a column. *)
Definition at_column (r : row_dict) (c : string) : cell :=
  default CNone (dict_get r c).

(** Can openpyxl write the frame?  The header and every cell are legal. *)
Definition legal (df : t) : bool :=
  forallb legal_string (columns df)
  && forallb (fun r => forallb (fun c => legal_cell (at_column r c)) (columns df))
       (rows df).

End DataFrame.

(** The sheets of a workbook, in sheet order. *)
Abbreviation workbook := (list (string * DataFrame.t)).

(** A file of the export folder: a workbook, whose sheets are given as the
    frames [read_excel] reads from them; a zip archive that holds no
    workbook; or bytes that are no zip archive (a file just truncated, for
    one).  Files of any other kind, a workbook with damaged parts for one,
    are outside the model. *)
Inductive file :=
  | Xlsx (wb : workbook)
  | ZipNoWorkbook
  | NotZip.

Abbreviation filesystem := (gmap string file).

(** [os.path.exists] *)
Definition path_exists (fs : filesystem) (p : string) : bool :=
  match fs !! p with
  | Some _ => true
  | None => false
  end.

(** [pd.read_excel(path, sheet_name=sheet, engine="openpyxl")] *)
Definition read_excel (fs : filesystem) (p sheet : string)
  : result DataFrame.t :=
  match fs !! p with
  | None => Raise FileNotFoundError
  | Some NotZip => Raise BadZipFile
  | Some ZipNoWorkbook => Raise KeyError
  | Some (Xlsx wb) =>
      match dict_get wb sheet with
      | Some df => Ok df
      | None => Raise ValueError
      end
  end.

(** The pandas release in use.
    - Since pandas 1.2 the constructor [ExcelWriter(path, mode="w")] opens
      [path] for writing, which truncates the file at once ([true]); older
      releases touch the file only in [close()] ([false]).
    - [read_back df] is the frame [read_excel] reads from a sheet written
      from [df] (an empty text and [None] come back as NaN, for one).
    - [partial_sheet df] is the frame read from a sheet whose write raised
      midway, on the first illegal cell of [df]. *)
Class Pandas := {
  writer_truncates : bool;
  read_back : DataFrame.t -> DataFrame.t;
  partial_sheet : DataFrame.t -> DataFrame.t;
}.

Module ExcelWriter.

Record t := Build {
  path : string;
  book : workbook;
}.

(** [pd.ExcelWriter(path, engine="openpyxl", mode="w")] *)
Definition open `{P : Pandas} (fs : filesystem) (p : string) : filesystem * t :=
  ((if writer_truncates then <[p := NotZip]> fs else fs), Build p []).

(** [df.to_excel(writer, sheet_name=sheet, index=False)] for a sheet name
    openpyxl accepts and the book does not hold yet (the program writes
    [Inward], [Outward] and the sheets it has read): the sheet is added to
    the book, and a frame with an illegal cell raises with the sheet
    written in part. *)
Definition to_excel `{P : Pandas} (w : t) (sheet : string) (df : DataFrame.t)
  : t * result unit :=
  if DataFrame.legal df
  then (Build (path w) (book w ++ [(sheet, read_back df)]), Ok tt)
  else (Build (path w) (book w ++ [(sheet, partial_sheet df)]),
        Raise IllegalCharacterError).

(** [writer.close()] *)
Definition close (fs : filesystem) (w : t) : filesystem :=
  <[path w := Xlsx (book w)]> fs.

End ExcelWriter.

(** ["Inward" if sheet_name == "Outward" else "Outward"] *)
Definition other_sheet_of (sheet_name : string) : string :=
  if String.eqb sheet_name "Outward" then "Inward"%string else "Outward"%string.

(** The frame [append_row_to_sheet] is going to write: the sheet as it is
    with the row added, or the row alone when the file or the sheet is
    missing ([ValueError]) or the file is a zip archive without a workbook
    ([KeyError]); any other failure of the read is raised. *)
Definition sheet_with_row (fs : filesystem) (month_file sheet_name : string)
    (row : row_dict) : result DataFrame.t :=
  if path_exists fs month_file then
    match read_excel fs month_file sheet_name with
    | Ok existing => Ok (DataFrame.concat existing (DataFrame.of_row row))
    | Raise ValueError | Raise KeyError => Ok (DataFrame.of_row row)
    | Raise e => Raise e
    end
  else Ok (DataFrame.of_row row).

(** [append_row_to_sheet] of erp_app.py: the file system it leaves, and
    whether it returned or raised.  The writer is closed only when the last
    write returns, so a write that raises leaves the file as the
    constructor left it. *)
Definition append_row_to_sheet `{P : Pandas} (fs : filesystem)
    (month_file sheet_name : string) (row : row_dict)
  : filesystem * result unit :=
  match sheet_with_row fs month_file sheet_name row with
  | Raise e => (fs, Raise e)
  | Ok df =>
      let '(fs1, writer) := ExcelWriter.open fs month_file in
      let other_sheet := other_sheet_of sheet_name in
      let writer1 :=
        if path_exists fs1 month_file then
          match read_excel fs1 month_file other_sheet with
          | Ok other_df => fst (ExcelWriter.to_excel writer other_sheet other_df)
          | Raise _ => writer
          end
        else writer in
      match ExcelWriter.to_excel writer1 sheet_name df with
      | (writer2, Ok _) => (ExcelWriter.close fs1 writer2, Ok tt)
      | (_, Raise e) => (fs1, Raise e)
      end
  end.

(** [f"{n:02d}"] for a month or a day. *)
Definition fmt02 (n : Z) : string :=
  if (0 <=? n) && (n <? 10) then ("0" +:+ pretty n) else pretty n.

(** POSIX [os.path.join] of two components. *)
Definition path_join (a b : string) : string :=
  match b with
  | String "/" _ => b
  | _ =>
      match String.rev a with
      | EmptyString => b
      | String "/" _ => a +:+ b
      | _ => a +:+ "/" +:+ b
      end
  end.

(** [month_filename_for]: the export folder is an argument in
    streamlit_erp.py and the global [EXPORT_DIR] in erp_app.py. *)
Definition month_filename_for (d : date) (export_dir : string) : string :=
  path_join export_dir (pretty (year d) +:+ "-" +:+ fmt02 (month d) +:+ ".xlsx").

(** [d.strftime("%Y-%m-%d")], for the years 1000 to 9999. *)
Definition strftime_ymd (d : date) : string :=
  pretty (year d) +:+ "-" +:+ fmt02 (month d) +:+ "-" +:+ fmt02 (day d).

(** The sheets [append_row_to_month_file] loads: all of them, or none when
    the file is missing or cannot be read. *)
Definition load_sheets (fs : filesystem) (filepath : string) : workbook :=
  match fs !! filepath with
  | Some (Xlsx wb) => wb
  | _ => []
  end.

(** The loop of [write_workbook_sheets]: the sheets are written in order,
    and the first write that raises ends the loop. *)
Fixpoint write_sheets `{P : Pandas} (w : ExcelWriter.t) (sheets_dict : workbook)
  : ExcelWriter.t * result unit :=
  match sheets_dict with
  | [] => (w, Ok tt)
  | (name, df) :: rest =>
      match ExcelWriter.to_excel w name df with
      | (w1, Ok _) => write_sheets w1 rest
      | (w1, Raise e) => (w1, Raise e)
      end
  end.

(** [write_workbook_sheets] of streamlit_erp.py, for a dict of one sheet or
    more: leaving the [with] block closes the writer, also when a write
    raised, so the file then holds the sheets written so far. *)
Definition write_workbook_sheets `{P : Pandas} (fs : filesystem)
    (filepath : string) (sheets_dict : workbook) : filesystem * result unit :=
  let '(fs1, writer) := ExcelWriter.open fs filepath in
  let '(writer1, r) := write_sheets writer sheets_dict in
  (ExcelWriter.close fs1 writer1, r).

(** The sheets [append_row_to_month_file] is going to write. *)
Definition sheets_with_row (fs : filesystem) (filepath sheet_name : string)
    (row : row_dict) : workbook :=
  let sheets := load_sheets fs filepath in
  let sheets1 :=
    match dict_get sheets sheet_name with
    | Some df =>
        if negb (DataFrame.empty df)
        then dict_set sheets sheet_name (DataFrame.concat df (DataFrame.of_row row))
        else dict_set sheets sheet_name (DataFrame.of_row row)
    | None => dict_set sheets sheet_name (DataFrame.of_row row)
    end in
  let other := other_sheet_of sheet_name in
  match dict_get sheets1 other with
  | Some _ => sheets1
  | None => dict_set sheets1 other DataFrame.empty_frame
  end.

(** [append_row_to_month_file] of streamlit_erp.py: the file system it
    leaves, and the path it returns or the exception it raises. *)
Definition append_row_to_month_file `{P : Pandas} (fs : filesystem)
    (export_dir : string) (date_obj : date) (sheet_name : string)
    (row : row_dict) : filesystem * result string :=
  let filepath := month_filename_for date_obj export_dir in
  match write_workbook_sheets fs filepath
          (sheets_with_row fs filepath sheet_name row) with
  | (fs', Ok _) => (fs', Ok filepath)
  | (fs', Raise e) => (fs', Raise e)
  end.

(* ================================================================== *)
(** * The Flask application: state and write handlers *)

Record state := State {
  db : database;
  files : filesystem;
  EXPORT_DIR : string;
}.

Definition set_db (s : state) (d : database) : state :=
  State d (files s) (EXPORT_DIR s).

Definition set_files (s : state) (fs : filesystem) : state :=
  State (db s) fs (EXPORT_DIR s).

(** The fields read from the Inward form, in the order the handler reads
    them; the first failure is the exception raised. *)
Record inward_input := InwardInput {
  in_entry_date : date;
  in_customer_id : Z;
  in_item_id : Z;
  in_dc_no_cust : option string;
  in_qty : float;
  in_rate : float;
}.

Definition read_inward_form `{B : PyBuiltins} (today : date) (f : form)
  : result inward_input :=
  entry_date ← date_field today f;
  customer_id ← int_field f "customer_id";
  item_id ← int_field f "item_id";
  let dc_no_cust := f !! "dc_no_cust"%string in
  qty ← float_field f "qty";
  rate ← float_field f "rate";
  Ok (InwardInput entry_date customer_id item_id dc_no_cust qty rate).

(** The record [inward()] adds, as the table holds it after the commit:
    [amt = qty * rate], each float as the REAL column keeps it, and the key
    comes from the table. *)
Definition new_inward `{R : SqliteReal} (d : database) (i : inward_input)
  : Inward.t :=
  let amt := (in_qty i * in_rate i)%float in
  Inward.Build (next_id (map Inward.id (inwards d)))
    (in_entry_date i) (in_customer_id i) (in_item_id i) (in_dc_no_cust i)
    (store_real (in_qty i)) (store_real (in_rate i)) (store_real amt).

Definition add_inward (d : database) (r : Inward.t) : database :=
  Db (customers d) (items d) (inwards d ++ [r]) (outwards d).

(** The row written to the month's Inward sheet. *)
Definition inward_row (d : database) (i : inward_input) : row_dict :=
  let cust := get_customer d (in_customer_id i) in
  let it := get_item d (in_item_id i) in
  [ ("entry_date", CStr (strftime_ymd (in_entry_date i)));
    ("customer_name", match cust with Some c => CStr (Customer.name c) | None => CStr "" end);
    ("customer_gst", match cust with Some c => cell_of_opt (Customer.gst_no c) | None => CStr "" end);
    ("item_name", match it with Some x => CStr (Item.name x) | None => CStr "" end);
    ("hsn_code", match it with Some x => cell_of_opt (Item.hsn_code x) | None => CStr "" end);
    ("dc_no_cust", cell_of_opt (in_dc_no_cust i));
    ("qty", CNum (in_qty i));
    ("rate", CNum (in_rate i));
    ("amt", CNum (in_qty i * in_rate i)%float) ]%string.

(** [db.session.add(rec); db.session.commit()] for an Inward record: the
    INSERT binds [customer_id] and [item_id] as integers, and stores
    nothing when it raises. *)
Definition commit_inward `{R : SqliteReal} (d : database) (i : inward_input)
  : result (database * Inward.t) :=
  if sqlite_int_ok (in_customer_id i) && sqlite_int_ok (in_item_id i)
  then let record := new_inward d i in Ok (add_inward d record, record)
  else Raise OverflowError.

(** [inward()] on a POST: the new state, and the record stored or the
    exception raised.  The commit comes before the export, so an export
    that fails leaves the record in the journal. *)
Definition inward_post `{B : PyBuiltins} `{R : SqliteReal} `{P : Pandas}
    (today : date) (f : form) (s : state) : state * result Inward.t :=
  match read_inward_form today f with
  | Raise e => (s, Raise e)
  | Ok i =>
      match commit_inward (db s) i with
      | Raise e => (s, Raise e)
      | Ok (d1, record) =>
          let s1 := set_db s d1 in
          let month_file := month_filename_for (in_entry_date i) (EXPORT_DIR s1) in
          match append_row_to_sheet (files s1) month_file "Inward"
                  (inward_row (db s1) i) with
          | (fs, Ok _) => (set_files s1 fs, Ok record)
          | (fs, Raise e) => (set_files s1 fs, Raise e)
          end
      end
  end.

Record outward_input := OutwardInput {
  out_entry_date : date;
  out_customer_id : Z;
  out_item_id : Z;
  out_dc_no_cust : option string;
  out_dc_unique : option string;
  out_qty : float;
}.

Definition read_outward_form `{B : PyBuiltins} (today : date) (f : form)
  : result outward_input :=
  entry_date ← date_field today f;
  customer_id ← int_field f "customer_id";
  item_id ← int_field f "item_id";
  let dc_no_cust := f !! "dc_no_cust"%string in
  let dc_unique := f !! "dc_unique"%string in
  qty ← float_field f "qty";
  Ok (OutwardInput entry_date customer_id item_id dc_no_cust dc_unique qty).

Definition new_outward `{R : SqliteReal} (d : database) (i : outward_input)
  : Outward.t :=
  Outward.Build (next_id (map Outward.id (outwards d)))
    (out_entry_date i) (out_customer_id i) (out_item_id i) (out_dc_no_cust i)
    (out_dc_unique i) (store_real (out_qty i)).

Definition add_outward (d : database) (r : Outward.t) : database :=
  Db (customers d) (items d) (inwards d) (outwards d ++ [r]).

Definition outward_row (d : database) (i : outward_input) : row_dict :=
  let cust := get_customer d (out_customer_id i) in
  let it := get_item d (out_item_id i) in
  [ ("entry_date", CStr (strftime_ymd (out_entry_date i)));
    ("customer_name", match cust with Some c => CStr (Customer.name c) | None => CStr "" end);
    ("customer_gst", match cust with Some c => cell_of_opt (Customer.gst_no c) | None => CStr "" end);
    ("item_name", match it with Some x => CStr (Item.name x) | None => CStr "" end);
    ("hsn_code", match it with Some x => cell_of_opt (Item.hsn_code x) | None => CStr "" end);
    ("dc_no_cust", cell_of_opt (out_dc_no_cust i));
    ("dc_unique_no_noncust", cell_of_opt (out_dc_unique i));
    ("qty", CNum (out_qty i)) ]%string.

Definition commit_outward `{R : SqliteReal} (d : database) (i : outward_input)
  : result (database * Outward.t) :=
  if sqlite_int_ok (out_customer_id i) && sqlite_int_ok (out_item_id i)
  then let record := new_outward d i in Ok (add_outward d record, record)
  else Raise OverflowError.

(** [outward()] on a POST. *)
Definition outward_post `{B : PyBuiltins} `{R : SqliteReal} `{P : Pandas}
    (today : date) (f : form) (s : state) : state * result Outward.t :=
  match read_outward_form today f with
  | Raise e => (s, Raise e)
  | Ok i =>
      match commit_outward (db s) i with
      | Raise e => (s, Raise e)
      | Ok (d1, record) =>
          let s1 := set_db s d1 in
          let month_file := month_filename_for (out_entry_date i) (EXPORT_DIR s1) in
          match append_row_to_sheet (files s1) month_file "Outward"
                  (outward_row (db s1) i) with
          | (fs, Ok _) => (set_files s1 fs, Ok record)
          | (fs, Raise e) => (set_files s1 fs, Raise e)
          end
      end
  end.

(** [o == s] for a value that may be [None]. *)
Definition opt_eqb (o : option string) (s : string) : bool :=
  match o with
  | Some v => String.eqb v s
  | None => false
  end.

(** [master()] on a POST: add a customer or an item. *)
Definition master_post (f : form) (s : state) : state * result unit :=
  let d := db s in
  let mode := f !! "mode"%string in
  if opt_eqb mode "add_customer" then
    match form_index f "name" with
    | Raise e => (s, Raise e)
    | Ok n =>
        let c := Customer.Build (next_id (map Customer.id (customers d))) n
                   (f !! "gst_no"%string) (f !! "address"%string)
                   (f !! "mobile"%string) (f !! "email"%string) in
        (set_db s (Db (customers d ++ [c]) (items d) (inwards d) (outwards d)),
         Ok tt)
    end
  else if opt_eqb mode "add_item" then
    match form_index f "item_name" with
    | Raise e => (s, Raise e)
    | Ok n =>
        let it := Item.Build (next_id (map Item.id (items d))) n
                    (f !! "hsn"%string) (f !! "material"%string) in
        (set_db s (Db (customers d) (items d ++ [it]) (inwards d) (outwards d)),
         Ok tt)
    end
  else (s, Ok tt).

(** [Model.query.filter_by(id=int(text)).delete()], run when [text] is
    given and not empty; [otherwise] is what the handler goes on to. *)
Definition delete_by_id `{B : PyBuiltins} (text : option string)
    (delete : Z -> database) (s : state) (otherwise : state * result unit)
  : state * result unit :=
  match text with
  | Some t =>
      if Py.str_truthy t then
        match py_int t with
        | Some n => (set_db s (delete n), Ok tt)
        | None => (s, Raise ValueError)
        end
      else otherwise
  | None => otherwise
  end.

(** The delete actions of [master()] on a GET ([?del=cust&id=..] and
    [?del=item&id=..]); no foreign key is enforced, so the movement tables
    are not touched. *)
Definition master_delete `{B : PyBuiltins} (args : form) (s : state)
  : state * result unit :=
  let d := db s in
  let del_type := args !! "del"%string in
  let del_item :=
    if opt_eqb del_type "item" then
      delete_by_id (args !! "id"%string)
        (fun n => Db (customers d)
                    (List.filter (fun x => negb (Item.id x =? n)) (items d))
                    (inwards d) (outwards d))
        s (s, Ok tt)
    else (s, Ok tt) in
  if opt_eqb del_type "cust" then
    delete_by_id (args !! "id"%string)
      (fun n => Db (List.filter (fun x => negb (Customer.id x =? n)) (customers d))
                  (items d) (inwards d) (outwards d))
      s del_item
  else del_item.

(** [settings()] on a POST: the export folder is a global the form
    overwrites. *)
Definition settings_post (f : form) (s : state) : state :=
  let new_path := Py.strip (default EmptyString (f !! "export_dir"%string)) in
  if Py.str_truthy new_path then State (db s) (files s) new_path else s.

(** The requests that can change the state, and the server handling a
    sequence of them. *)
Inductive request :=
  | MasterPost (f : form)
  | MasterDelete (args : form)
  | InwardPost (today : date) (f : form)
  | OutwardPost (today : date) (f : form)
  | SettingsPost (f : form).

Definition handle `{B : PyBuiltins} `{R : SqliteReal} `{P : Pandas}
    (r : request) (s : state) : state :=
  match r with
  | MasterPost f => fst (master_post f s)
  | MasterDelete args => fst (master_delete args s)
  | InwardPost today f => fst (inward_post today f s)
  | OutwardPost today f => fst (outward_post today f s)
  | SettingsPost f => settings_post f s
  end.

Definition serve `{B : PyBuiltins} `{R : SqliteReal} `{P : Pandas}
    (rs : list request) (s : state) : state :=
  fold_left (fun s r => handle r s) rs s.

(* ================================================================== *)
(** * The Overall view: filtered query and DC reconciliation *)

(** What the SQL engine promises for [ORDER BY entry_date DESC]: the same
    rows, latest date first.  The order of rows with equal dates is the
    engine's choice; [stable_engine] below is the choice of SQLite. *)
Class SqlEngine := {
  order_by_desc : forall {A : Type}, (A -> date) -> list A -> list A;
  order_by_desc_perm :
    forall (A : Type) (key : A -> date) (l : list A),
      Permutation (order_by_desc key l) l;
  order_by_desc_sorted :
    forall (A : Type) (key : A -> date) (l : list A),
      StronglySorted (fun a b => date_geb (key a) (key b) = true)
        (order_by_desc key l);
}.

(** [if flt: q = q.filter_by(col=flt)] *)
Definition filter_by {A : Type} (col : A -> Z) (flt : option Z) (l : list A)
  : list A :=
  match flt with
  | Some v => if Py.int_truthy v then List.filter (fun r => col r =? v) l else l
  | None => l
  end.

(** The two filtered, ordered queries of [overall()]. *)
Definition query_inwards `{E : SqlEngine} (cust_filter item_filter : option Z)
    (d : database) : list Inward.t :=
  order_by_desc Inward.entry_date
    (filter_by Inward.item_id item_filter
       (filter_by Inward.customer_id cust_filter (inwards d))).

Definition query_outwards `{E : SqlEngine} (cust_filter item_filter : option Z)
    (d : database) : list Outward.t :=
  order_by_desc Outward.entry_date
    (filter_by Outward.item_id item_filter
       (filter_by Outward.customer_id cust_filter (outwards d))).

(** An entry of [dc_map]: [{"inward": .., "outward": ..}]. *)
Record dc_entry := DcEntry {
  inward : float;
  outward : float;
}.

(** [(r.dc_no_cust or "").strip()] *)
Definition dc_key (dc_no_cust : option string) : string :=
  Py.strip (Py.str_or_empty dc_no_cust).

(** [m = dc_map.setdefault(key, {"inward": 0.0, "outward": 0.0})] *)
Definition setdefault (m : gmap string dc_entry) (key : string) : dc_entry :=
  default (DcEntry 0 0) (m !! key).

(** One turn of the first loop: [m["inward"] += float(inv.qty or 0.0)]. *)
Definition dc_add_inward (m : gmap string dc_entry) (inv : Inward.t)
  : gmap string dc_entry :=
  let key := dc_key (Inward.dc_no_cust inv) in
  if Py.str_truthy key then
    let e := setdefault m key in
    <[key := DcEntry (inward e + Py.float_or_zero (Inward.qty inv)) (outward e)]> m
  else m.

(** One turn of the second loop: [m["outward"] += float(out.qty or 0.0)]. *)
Definition dc_add_outward (m : gmap string dc_entry) (out : Outward.t)
  : gmap string dc_entry :=
  let key := dc_key (Outward.dc_no_cust out) in
  if Py.str_truthy key then
    let e := setdefault m key in
    <[key := DcEntry (inward e) (outward e + Py.float_or_zero (Outward.qty out))]> m
  else m.

(** [dc_map], built from the whole of both tables. *)
Definition build_dc_map (d : database) : gmap string dc_entry :=
  fold_left dc_add_outward (outwards d)
    (fold_left dc_add_inward (inwards d) ∅).

(** A row of the Overall table. *)
Record overall_row := OverallRow {
  row_date : string;
  row_desc : string;
  row_customer : string;
  row_item : string;
  row_hsn : option string;
  row_dc_no_cust : string;
  qty_dispatch : float;
  pending_qty : float;
}.

(** The body of the loop over the displayed Inward records. *)
Definition make_row (d : database) (dc_map : gmap string dc_entry)
    (inv : Inward.t) : overall_row :=
  let cust := get_customer d (Inward.customer_id inv) in
  let it := get_item d (Inward.item_id inv) in
  let key := dc_key (Inward.dc_no_cust inv) in
  let dispatched :=
    match dc_map !! key with
    | Some e => outward e
    | None => 0%float
    end in
  let inward_total :=
    match dc_map !! key with
    | Some e => inward e
    | None => Py.float_or_zero (Inward.qty inv)
    end in
  let pending := (inward_total - dispatched)%float in
  OverallRow
    (strftime_ymd (Inward.entry_date inv))
    ""
    (match cust with Some c => Customer.name c | None => "" end)
    (match it with Some x => Item.name x | None => "" end)
    (match it with Some x => Item.hsn_code x | None => Some "" end)
    key dispatched pending.

(** The [rows] list [overall()] builds for the parsed query arguments
    [customer_id] and [item_id], before it renders the page. *)
Definition overall_rows `{E : SqlEngine} (cust_filter item_filter : option Z)
    (d : database) : list overall_row :=
  let inwards := query_inwards cust_filter item_filter d in
  let dc_map := build_dc_map d in
  map (make_row d dc_map) inwards.

(** A filter that is applied binds its value to the statement, which
    raises when the value is outside SQLite's 64 bits. *)
Definition filter_overflows (flt : option Z) : bool :=
  match flt with
  | Some v => Py.int_truthy v && negb (sqlite_int_ok v)
  | None => false
  end.

(** Is [k] a key of the query string? *)
Definition has_arg (args : form) (k : string) : bool :=
  match args !! k with
  | Some _ => true
  | None => false
  end.

(** The template of [overall()] marks the selected option with
    [request.args.get('customer_id', type=int) == c.id], once for every
    customer, and the same for [item_id] and every item.  A template has no
    name [int]: [MultiDict.get] calls the undefined value on the text of
    the key when the key is there, which raises [UndefinedError]. *)
Definition template_fails (args : form) (d : database) : bool :=
  (has_arg args "customer_id"
   && match customers d with [] => false | _ :: _ => true end)
  || (has_arg args "item_id"
      && match items d with [] => false | _ :: _ => true end).

(** [overall()] for a query string: the rows of the page, or the exception
    raised (HTTP 500) by a query or by the template. *)
Definition overall `{B : PyBuiltins} `{E : SqlEngine} (args : form)
    (d : database) : result (list overall_row) :=
  let cust_filter := args_get_int args "customer_id" in
  let item_filter := args_get_int args "item_id" in
  if filter_overflows cust_filter || filter_overflows item_filter
  then Raise OverflowError
  else
    let rows := overall_rows cust_filter item_filter d in
    if template_fails args d then Raise UndefinedError else Ok rows.

(* ------------------------------------------------------------------ *)
(** ** Reference definitions for the reconciliation totals *)

(** The float sum of a list, accumulated left to right from [0.0]. *)
Definition fsum (l : list float) : float := fold_left PrimFloat.add l 0%float.

(** The totals of the spec: the sum of [qty] over all records of a
    direction whose trimmed DC reference is [k]. *)
Definition inward_total (d : database) (k : string) : float :=
  fsum (map (fun r => Py.float_or_zero (Inward.qty r))
          (List.filter (fun r => String.eqb (dc_key (Inward.dc_no_cust r)) k)
             (inwards d))).

Definition outward_total (d : database) (k : string) : float :=
  fsum (map (fun r => Py.float_or_zero (Outward.qty r))
          (List.filter (fun r => String.eqb (dc_key (Outward.dc_no_cust r)) k)
             (outwards d))).

(* ================================================================== *)
(** * The read handlers of the Flask application *)

(** What the SQL engine promises for [ORDER BY id DESC]: the same rows,
    largest key first. *)
Class SqlOrderById := {
  order_by_id_desc : forall {A : Type}, (A -> Z) -> list A -> list A;
  order_by_id_desc_perm :
    forall (A : Type) (key : A -> Z) (l : list A),
      Permutation (order_by_id_desc key l) l;
  order_by_id_desc_sorted :
    forall (A : Type) (key : A -> Z) (l : list A),
      StronglySorted (fun a b => key b <= key a) (order_by_id_desc key l);
}.

(** A row of the "Recent (last 10)" tables. *)
Record recent_row := RecentRow {
  recent_date : string;
  recent_customer : string;
  recent_item : string;
  recent_qty : option float;
}.

Definition recent_inward_row (d : database) (inv : Inward.t) : recent_row :=
  RecentRow
    (strftime_ymd (Inward.entry_date inv))
    (match get_customer d (Inward.customer_id inv) with
     | Some c => Customer.name c
     | None => ""
     end)
    (match get_item d (Inward.item_id inv) with
     | Some x => Item.name x
     | None => ""
     end)
    (Inward.qty inv).

Definition recent_outward_row (d : database) (out : Outward.t) : recent_row :=
  RecentRow
    (strftime_ymd (Outward.entry_date out))
    (match get_customer d (Outward.customer_id out) with
     | Some c => Customer.name c
     | None => ""
     end)
    (match get_item d (Outward.item_id out) with
     | Some x => Item.name x
     | None => ""
     end)
    (Outward.qty out).

(** [Inward.query.order_by(Inward.id.desc()).limit(10).all()] *)
Definition last_inwards `{O : SqlOrderById} (d : database) : list Inward.t :=
  firstn 10 (order_by_id_desc Inward.id (inwards d)).

Definition last_outwards `{O : SqlOrderById} (d : database) : list Outward.t :=
  firstn 10 (order_by_id_desc Outward.id (outwards d)).

(** The [recent] list of [inward()] and of [outward()] on a GET. *)
Definition recent_inward `{O : SqlOrderById} (d : database) : list recent_row :=
  map (recent_inward_row d) (last_inwards d).

Definition recent_outward `{O : SqlOrderById} (d : database) : list recent_row :=
  map (recent_outward_row d) (last_outwards d).

(** The answer of a download route: the file sent, or 404. *)
Inductive download :=
  | SendFile (f : file)
  | NotFound.

(** [download_current_month()]; [now] is the date of [utcnow()]. *)
Definition download_current_month (now : date) (s : state) : download :=
  let f := month_filename_for now (EXPORT_DIR s) in
  match files s !! f with
  | Some x => SendFile x
  | None => NotFound
  end.

(** [download_file(filename)] *)
Definition download_file (filename : string) (s : state) : download :=
  let filepath := path_join (EXPORT_DIR s) filename in
  match files s !! filepath with
  | Some x => SendFile x
  | None => NotFound
  end.

(* ================================================================== *)
(** * Instances of the runtime interfaces, to run the model *)

Module Runtime.

(** The value of a string of ASCII digits; [None] if empty or not all
    digits. *)
Definition digit_of (c : ascii) : option Z :=
  let n := nat_of_ascii c in
  if ((48 <=? n) && (n <=? 57))%nat then Some (Z.of_nat n - 48) else None.

Fixpoint digits_value (acc : Z) (l : list ascii) : option Z :=
  match l with
  | [] => Some acc
  | c :: l' =>
      match digit_of c with
      | Some v => digits_value (10 * acc + v) l'
      | None => None
      end
  end.

Definition decimal (l : list ascii) : option Z :=
  match l with
  | [] => None
  | _ => digits_value 0 l
  end.

(** Splits off a leading sign: [true] for minus. *)
Definition split_sign (l : list ascii) : bool * list ascii :=
  match l with
  | "-"%char :: l' => (true, l')
  | "+"%char :: l' => (false, l')
  | _ => (false, l)
  end.

(** [int(s)] on the decimal literals without underscores: white space
    around, a sign, ASCII digits. *)
Definition int_of_str (s : string) : option Z :=
  let '(neg, l) := split_sign (Py.strip_chars (list_ascii_of_string s)) in
  match decimal l with
  | Some n => Some (if neg then - n else n)
  | None => None
  end.

(** [float(s)] on the literals the examples use: white space around, a
    sign, then [inf], [infinity] or [nan] in any letter case, or a whole
    number below 2^53 (which binary64 holds exactly). *)
Definition float_of_str (s : string) : option float :=
  let '(neg, l) := split_sign (Py.strip_chars (list_ascii_of_string s)) in
  let sign (x : float) := if neg then (- x)%float else x in
  let word := string_of_list_ascii (map Py.lower_char l) in
  if String.eqb word "inf" || String.eqb word "infinity" then
    Some (sign PrimFloat.infinity)
  else if String.eqb word "nan" then Some PrimFloat.nan
  else
    match decimal l with
    | Some n =>
        if n <? 2 ^ 53 then Some (sign (PrimFloat.of_uint63 (Uint63.of_Z n)))
        else None
    | None => None
    end.

Definition is_leap (y : Z) : bool :=
  ((y mod 4 =? 0) && negb (y mod 100 =? 0)) || (y mod 400 =? 0).

Definition days_in_month (y m : Z) : Z :=
  if m =? 2 then (if is_leap y then 29 else 28)
  else if (m =? 4) || (m =? 6) || (m =? 9) || (m =? 11) then 30
  else 31.

(** Cuts a list at the first occurrence of a character. *)
Fixpoint split_at (sep : ascii) (l : list ascii) : list ascii * option (list ascii) :=
  match l with
  | [] => ([], None)
  | c :: l' =>
      if Ascii.eqb c sep then ([], Some l')
      else let '(a, b) := split_at sep l' in (c :: a, b)
  end.

(** [strptime(s, "%Y-%m-%d").date()] on [YYYY-MM-DD] with a four digit
    year and one or two digits for month and day, of a real calendar day. *)
Definition date_of_str (s : string) : option date :=
  match split_at "-" (list_ascii_of_string s) with
  | (ys, Some rest) =>
      match split_at "-" rest with
      | (ms, Some ds) =>
          match decimal ys, decimal ms, decimal ds with
          | Some y, Some m, Some d =>
              if (length ys =? 4)%nat && (length ms <=? 2)%nat
                 && (length ds <=? 2)%nat
                 && (1 <=? y) && (1 <=? m) && (m <=? 12)
                 && (1 <=? d) && (d <=? days_in_month y m)
              then Some (Date y m d) else None
          | _, _, _ => None
          end
      | _ => None
      end
  | _ => None
  end.

#[export] Instance builtins : PyBuiltins := {|
  py_int := int_of_str;
  py_float := float_of_str;
  strptime_ymd := date_of_str;
|}.

(** A REAL column that stores a NaN as NULL and every number as it is. *)
Definition keep_real (x : float) : option float :=
  if PrimFloat.is_nan x then None else Some x.

(** What [to_excel] puts in a cell and [read_excel] reads from it: an empty
    text, [None] and a NaN come back as NaN, an infinity as the text
    [inf]. *)
Definition read_back_cell (c : cell) : cell :=
  match c with
  | CStr s => if Py.str_truthy s then CStr s else CNone
  | CNum x =>
      if PrimFloat.is_nan x then CNone
      else if PrimFloat.is_infinity x
           then (if PrimFloat.ltb x 0 then CStr "-inf" else CStr "inf")
           else CNum x
  | CNone => CNone
  end.

(** Every record has every column when it is read back. *)
Definition read_back_frame (df : DataFrame.t) : DataFrame.t :=
  DataFrame.Build (DataFrame.columns df)
    (map (fun r => map (fun c => (c, read_back_cell (DataFrame.at_column r c)))
                     (DataFrame.columns df))
       (DataFrame.rows df)).

(** The length of the longest prefix whose elements all pass [ok]. *)
Fixpoint count_while {A : Type} (ok : A -> bool) (l : list A) : nat :=
  match l with
  | [] => O
  | x :: l' => if ok x then S (count_while ok l') else O
  end.

Definition column_legal (df : DataFrame.t) (c : string) : bool :=
  forallb (fun r => legal_cell (DataFrame.at_column r c)) (DataFrame.rows df).

(** [to_excel] writes the header, then the cells column by column, and
    stops at the first illegal one: the sheet has the header cells before
    an illegal column name and nothing else, or the whole header, the
    columns before the first illegal cell and the cells above it in its
    column. *)
Definition partial_frame (df : DataFrame.t) : DataFrame.t :=
  let cols := DataFrame.columns df in
  if negb (forallb legal_string cols) then
    DataFrame.Build (firstn (count_while legal_string cols) cols) []
  else
    let full := firstn (count_while (column_legal df) cols) cols in
    match skipn (count_while (column_legal df) cols) cols with
    | [] => read_back_frame df
    | bad :: _ =>
        let above :=
          count_while (fun r => legal_cell (DataFrame.at_column r bad))
            (DataFrame.rows df) in
        let kept := match full with
                    | [] => firstn above (DataFrame.rows df)
                    | _ :: _ => DataFrame.rows df
                    end in
        DataFrame.Build cols
          (imap (fun n r =>
                   map (fun c =>
                          (c, if existsb (String.eqb c) full
                                 || (String.eqb c bad && Nat.ltb n above)
                              then read_back_cell (DataFrame.at_column r c)
                              else CNone))
                     cols)
             kept)
    end.

(** pandas from release 1.2 on. *)
Definition pandas_eager : Pandas := {|
  writer_truncates := true;
  read_back := read_back_frame;
  partial_sheet := partial_frame;
|}.

(** pandas before release 1.2. *)
Definition pandas_lazy : Pandas := {|
  writer_truncates := false;
  read_back := read_back_frame;
  partial_sheet := partial_frame;
|}.

(** Insertion of [x] into a list ordered latest first; [stays y x] tells
    whether [y] keeps its place before [x]. *)
Fixpoint insert_desc {A : Type} (stays : date -> date -> bool)
    (key : A -> date) (x : A) (l : list A) : list A :=
  match l with
  | [] => [x]
  | y :: l' =>
      if stays (key y) (key x) then y :: insert_desc stays key x l'
      else x :: l
  end.

Definition sort_desc {A : Type} (stays : date -> date -> bool)
    (key : A -> date) (l : list A) : list A :=
  fold_right (insert_desc stays key) [] l.

(** Rows of one date keep their scan order (a stable sort). *)
Definition stays_stable (y x : date) : bool := negb (date_geb x y).

End Runtime.

(* ================================================================== *)
(** * Vocabulary of the statements *)

(** A string made of white space only (the empty string included). *)
Definition all_space (s : string) : bool :=
  forallb Py.is_space (list_ascii_of_string s).

(** Two characters are akin when they are equal or both are no white
    space; [strip] tells apart two different strings that are akin
    character by character. *)
Definition akin (a b : ascii) : Prop :=
  a = b \/ (Py.is_space a = false /\ Py.is_space b = false).

(** All 256 characters. *)
Definition all_ascii : list ascii := map ascii_of_nat (seq 0 256).

(** The table entry checked for each pair of characters: equal in lower
    case means akin. *)
Definition lower_akin_check (a b : ascii) : bool :=
  implb (Ascii.eqb (Py.lower_char a) (Py.lower_char b))
    (Ascii.eqb a b || (negb (Py.is_space a) && negb (Py.is_space b))).

(** A missing or blank DC reference: [None], empty, or white space only. *)
Definition blank_dc (o : option string) : bool :=
  match o with
  | Some s => all_space s
  | None => true
  end.

(** The entry of a key after some more quantities came in for it. *)
Definition bump_inward (e : option dc_entry) (qs : list float)
  : option dc_entry :=
  match qs with
  | [] => e
  | _ =>
      let e0 := default (DcEntry 0 0) e in
      Some (DcEntry (fold_left PrimFloat.add qs (inward e0)) (outward e0))
  end.

Definition bump_outward (e : option dc_entry) (qs : list float)
  : option dc_entry :=
  match qs with
  | [] => e
  | _ =>
      let e0 := default (DcEntry 0 0) e in
      Some (DcEntry (inward e0) (fold_left PrimFloat.add qs (outward e0)))
  end.

Definition inward_qtys (k : string) (l : list Inward.t) : list float :=
  map (fun r => Py.float_or_zero (Inward.qty r))
    (List.filter (fun r => String.eqb (dc_key (Inward.dc_no_cust r)) k) l).

Definition outward_qtys (k : string) (l : list Outward.t) : list float :=
  map (fun r => Py.float_or_zero (Outward.qty r))
    (List.filter (fun r => String.eqb (dc_key (Outward.dc_no_cust r)) k) l).

(** Does some record of the journal carry the key? *)
Definition key_in_journal (d : database) (k : string) : bool :=
  existsb (fun r => String.eqb (dc_key (Inward.dc_no_cust r)) k) (inwards d)
  || existsb (fun r => String.eqb (dc_key (Outward.dc_no_cust r)) k) (outwards d).

(** Does a value pass a filter?  A filter that is absent or 0 lets every
    value pass. *)
Definition passes (flt : option Z) (v : Z) : bool :=
  match flt with
  | Some x => if Py.int_truthy x then v =? x else true
  | None => true
  end.

(** A field that is absent from the form, or empty. *)
Definition missing (o : option string) : Prop := o = None \/ o = Some EmptyString.

(** The order the claim asks for: latest date first, and the records of
    one date by id (ascending or descending). *)
Definition ordered_by_date_then_id (ascending : bool) (l : list Inward.t) : Prop :=
  StronglySorted
    (fun a b =>
       date_geb (Inward.entry_date a) (Inward.entry_date b) = true
       /\ (Inward.entry_date a = Inward.entry_date b ->
           if ascending then Inward.id a <= Inward.id b
           else Inward.id b <= Inward.id a))
    l.

(* ================================================================== *)
(** * Sample journals *)

Module Sample.

Definition march_1 : date := Date 2024 3 1.
Definition march_2 : date := Date 2024 3 2.

Definition acme : Customer.t :=
  Customer.Build 1 "Acme" (Some "29ABCDE1234F1Z5"%string) None None None.

Definition bolt : Item.t := Item.Build 1 "Bolt" (Some "7318"%string) None.

(** Two receipts of 10 and 5 and a dispatch of 6 on one challan, written
    with different white space around it, and one receipt without a
    challan. *)
Definition in1 : Inward.t :=
  Inward.Build 1 march_1 1 1 (Some " DC1 "%string) (Some 10%float)
    (Some 5%float) (Some 50%float).
Definition in2 : Inward.t :=
  Inward.Build 2 march_1 1 1 (Some "DC1"%string) (Some 5%float)
    (Some 2%float) (Some 10%float).
Definition in3 : Inward.t :=
  Inward.Build 3 march_2 1 1 (Some "   "%string) (Some 7%float)
    (Some 1%float) (Some 7%float).
Definition out1 : Outward.t :=
  Outward.Build 1 march_2 1 1 (Some "DC1  "%string) (Some "OUT-1"%string)
    (Some 6%float).

Definition journal : database := Db [acme] [bolt] [in1; in2; in3] [out1].

(** The two receipts of March 1 alone. *)
Definition same_day_journal : database := Db [acme] [bolt] [in1; in2] [].

(** Two receipts for item 5, one of them under customer id 0. *)
Definition zero_cust : Inward.t :=
  Inward.Build 1 march_1 0 5 None (Some 1%float) (Some 1%float) (Some 1%float).
Definition one_cust : Inward.t :=
  Inward.Build 2 march_1 1 5 None (Some 1%float) (Some 1%float) (Some 1%float).

Definition zero_id_journal : database := Db [] [] [zero_cust; one_cust] [].

(** The movements of [journal] with no customer and no item in the master
    tables. *)
Definition unmastered_journal : database := Db [] [] [in1; in2; in3] [out1].

End Sample.

(** Sample requests. *)
Module SampleRequests.

Definition empty_state : state := State (Db [] [] [] []) ∅ "./exports".

(** An Inward form for customer 99 and item 98, neither of which exists,
    with a negative quantity. *)
Definition unchecked_form : form :=
  list_to_map [("entry_date", "2024-03-01"); ("customer_id", "99");
               ("item_id", "98"); ("dc_no_cust", "DC1"); ("qty", "-5");
               ("rate", "2")]%string.

Definition unchecked_input : inward_input :=
  InwardInput Sample.march_1 99 98 (Some "DC1"%string) (-5)%float 2%float.

(** Quantity 10 at rate 5. *)
Definition ten_by_five_form : form :=
  list_to_map [("entry_date", "2024-03-01"); ("customer_id", "1");
               ("item_id", "1"); ("dc_no_cust", "DC1"); ("qty", "10");
               ("rate", "5")]%string.

Definition ten_by_five_input : inward_input :=
  InwardInput Sample.march_1 1 1 (Some "DC1"%string) 10%float 5%float.

(** No rate given. *)
Definition no_rate_form : form :=
  list_to_map [("entry_date", "2024-03-01"); ("customer_id", "1");
               ("item_id", "1"); ("qty", "10"); ("rate", "")]%string.

(** No rate given, and an infinite quantity. *)
Definition inf_qty_form : form :=
  list_to_map [("entry_date", "2024-03-01"); ("customer_id", "1");
               ("item_id", "1"); ("qty", "inf")]%string.

(** An infinite quantity at rate 0. *)
Definition inf_by_zero_form : form :=
  list_to_map [("entry_date", "2024-03-01"); ("customer_id", "1");
               ("item_id", "1"); ("qty", "inf"); ("rate", "0")]%string.

(** No rate and no customer given. *)
Definition no_customer_form : form :=
  list_to_map [("entry_date", "2024-03-01"); ("item_id", "1");
               ("qty", "10")]%string.

(** A customer id of twenty digits. *)
Definition huge_id_form : form :=
  list_to_map [("entry_date", "2024-03-01");
               ("customer_id", "99999999999999999999");
               ("item_id", "1"); ("qty", "10"); ("rate", "5")]%string.

(** A challan number with the control character of code 28 in it. *)
Definition control_char_form : form :=
  list_to_map [("entry_date", "2024-03-01"); ("customer_id", "1");
               ("item_id", "1");
               ("dc_no_cust", String (ascii_of_nat 28) "DC1");
               ("qty", "10"); ("rate", "5")]%string.

(** An Outward form for the same month. *)
Definition dispatch_form : form :=
  list_to_map [("entry_date", "2024-03-02"); ("customer_id", "1");
               ("item_id", "1"); ("dc_no_cust", "DC1");
               ("dc_unique", "OUT-1"); ("qty", "6")]%string.

End SampleRequests.

(** An ASCII digit, and a string of digits. *)
Definition is_digit (c : ascii) : bool :=
  let n := nat_of_ascii c in ((48 <=? n) && (n <=? 57))%nat.

Fixpoint digits_only (s : string) : bool :=
  match s with
  | EmptyString => true
  | String c s' => is_digit c && digits_only s'
  end.

(** [os.path.join] once the second component is known not to be
    absolute. *)
Definition path_join_relative (a b : string) : string :=
  match String.rev a with
  | EmptyString => b
  | String "/" _ => a +:+ b
  | _ => a +:+ "/" +:+ b
  end.

(** A date of the calendar as far as the file name goes: a year that is
    not negative and a month from 1 to 12. *)
Definition month_in_range (d : date) : Prop :=
  0 <= year d /\ 1 <= month d <= 12.

(** Rows in strictly increasing order of their keys. *)
Definition increasing_by {A : Type} (key : A -> Z) (l : list A) : Prop :=
  StronglySorted (fun a b => key a < key b) l.

(** Every table is in increasing order of its primary key. *)
Definition ids_increasing (d : database) : Prop :=
  increasing_by Customer.id (customers d)
  /\ increasing_by Item.id (items d)
  /\ increasing_by Inward.id (inwards d)
  /\ increasing_by Outward.id (outwards d).

(** A list of characters with no white space at its head. *)
Definition starts_clean (l : list ascii) : bool :=
  match l with
  | [] => true
  | c :: _ => negb (Py.is_space c)
  end.

(** What the Overall table shows of the reconciliation: key, dispatched
    and pending of each row. *)
Definition row_figures (r : overall_row) : string * float * float :=
  (row_dc_no_cust r, qty_dispatch r, pending_qty r).

(** Two journals show the same reconciliation: a request that renders on
    both shows the same keys, dispatched and pending quantities, row by
    row; and the request without a query string renders on both. *)
Definition same_figures `{B : PyBuiltins} `{E : SqlEngine} (d d' : database)
  : Prop :=
  (forall args rows rows',
      overall args d = Ok rows -> overall args d' = Ok rows' ->
      map row_figures rows' = map row_figures rows)
  /\ exists rows rows',
       overall ∅ d = Ok rows /\ overall ∅ d' = Ok rows'
       /\ map row_figures rows' = map row_figures rows.

(** An insertion sort by key, largest first, to run [ORDER BY id DESC]. *)
Fixpoint insert_by_id {A : Type} (key : A -> Z) (x : A) (l : list A) : list A :=
  match l with
  | [] => [x]
  | y :: l' => if key x <=? key y then y :: insert_by_id key x l' else x :: l
  end.

Definition sort_by_id_desc {A : Type} (key : A -> Z) (l : list A) : list A :=
  fold_right (insert_by_id key) [] l.

(** The sheet names the program appends to. *)
Definition movement_sheet (sheet_name : string) : Prop :=
  sheet_name = "Inward"%string \/ sheet_name = "Outward"%string.

(** The sibling sheet [append_row_to_sheet] has in its book when it comes
    to write the target sheet: none under a writer that truncates the file
    before the sibling is read; else the sibling read from the file, written
    whole or, when it has an illegal cell, in part. *)
Definition sibling_written `{P : Pandas} (fs : filesystem)
    (month_file sheet_name : string) : workbook :=
  if writer_truncates then []
  else
    match read_excel fs month_file (other_sheet_of sheet_name) with
    | Ok other_df =>
        [(other_sheet_of sheet_name,
          if DataFrame.legal other_df then read_back other_df
          else partial_sheet other_df)]
    | Raise _ => []
    end.

(** The sheets a loop of writes leaves in the book, and how the loop
    ends. *)
Fixpoint written `{P : Pandas} (sheets_dict : workbook) : workbook * result unit :=
  match sheets_dict with
  | [] => ([], Ok tt)
  | (name, df) :: rest =>
      if DataFrame.legal df
      then ((name, read_back df) :: fst (written rest), snd (written rest))
      else ([(name, partial_sheet df)], Raise IllegalCharacterError)
  end.

(** Sample archives and tables for the export and the read handlers. *)
Module SampleArchive.

Definition march_file : string := "./exports/2024-03.xlsx".

Definition receipt_row : row_dict :=
  [("entry_date", CStr "2024-03-01"); ("customer_name", CStr "Acme");
   ("qty", CNum 10)]%string.

Definition dispatch_row : row_dict :=
  [("entry_date", CStr "2024-03-02"); ("customer_name", CStr "Acme");
   ("qty", CNum 6)]%string.

(** An archive with one receipt and no Outward sheet. *)
Definition inward_only : filesystem :=
  {[ march_file := Xlsx [("Inward"%string, DataFrame.of_row receipt_row)] ]}.

(** A file at the archive's path that is no zip archive. *)
Definition broken : filesystem := {[ march_file := NotZip ]}.

(** A zip archive at the archive's path that holds no workbook. *)
Definition other_zip : filesystem := {[ march_file := ZipNoWorkbook ]}.

(** A row with the control character of code 28 in a text cell. *)
Definition control_char_row : row_dict :=
  [("entry_date", CStr "2024-03-02");
   ("dc_no_cust", CStr (String (ascii_of_nat 28) "DC1"));
   ("qty", CNum 6)]%string.

(** An archive with both sheets and a sheet of notes. *)
Definition three_sheets : filesystem :=
  {[ march_file :=
       Xlsx [("Inward"%string, DataFrame.of_row receipt_row);
             ("Notes"%string, DataFrame.of_row [("text", CStr "checked")]%string);
             ("Outward"%string, DataFrame.Build ["qty"%string] [])] ]}.

End SampleArchive.

(** Sample states and forms for the master tables and the read handlers. *)
Module SampleStates.

(** The sample journal, nothing exported yet. *)
Definition with_journal : state := State Sample.journal ∅ "./exports".

(** A state whose March archive is no zip archive. *)
Definition with_broken_archive : state :=
  State (Db [] [] [] []) SampleArchive.broken "./exports".

Definition add_acme_form : form :=
  list_to_map [("mode", "add_customer"); ("name", "Acme");
               ("gst_no", "29ABCDE1234F1Z5")]%string.

Definition add_bolt_form : form :=
  list_to_map [("mode", "add_item"); ("item_name", "Bolt"); ("hsn", "7318")]%string.

Definition delete_acme_args : form :=
  list_to_map [("del", "cust"); ("id", "1")]%string.

End SampleStates.

(* ================================================================== *)
(** * Facts about Python values *)

Section StripFacts.

Import Py.

Lemma list_ascii_of_string_append (a b : string) :
  list_ascii_of_string (a +:+ b)
  = list_ascii_of_string a ++ list_ascii_of_string b.
Proof.
  induction a as [|c a IH]; simpl; [reflexivity|].
  now rewrite <- IH.
Qed.

Lemma lstrip_chars_spaces (ws l : list ascii) :
  forallb is_space ws = true -> lstrip_chars (ws ++ l) = lstrip_chars l.
Proof.
  induction ws as [|c ws IH]; simpl; [reflexivity|].
  intros [Hc Hws]%andb_prop. rewrite Hc. auto.
Qed.

Lemma lstrip_chars_all_space (ws : list ascii) :
  forallb is_space ws = true -> lstrip_chars ws = [].
Proof.
  intros H. rewrite <- (app_nil_r ws). now rewrite lstrip_chars_spaces.
Qed.

(** Trailing white space is out of reach of [lstrip], unless everything
    before it is white space too. *)
Lemma lstrip_chars_app_spaces (l ws : list ascii) :
  forallb is_space ws = true ->
  lstrip_chars (l ++ ws) = lstrip_chars l ++ ws
  \/ (lstrip_chars l = [] /\ lstrip_chars (l ++ ws) = []).
Proof.
  intros Hws. induction l as [|c l IH]; simpl.
  - right. split; [reflexivity|]. now apply lstrip_chars_all_space.
  - destruct (is_space c); [exact IH|]. now left.
Qed.

Lemma rstrip_chars_spaces (l ws : list ascii) :
  forallb is_space ws = true -> rstrip_chars (l ++ ws) = rstrip_chars l.
Proof.
  intros Hws. unfold rstrip_chars. rewrite rev_app_distr.
  rewrite lstrip_chars_spaces; [reflexivity|].
  rewrite forallb_forall in *. intros x Hx. apply Hws. now apply in_rev.
Qed.

Lemma strip_chars_spaces (ws1 l ws2 : list ascii) :
  forallb is_space ws1 = true -> forallb is_space ws2 = true ->
  strip_chars (ws1 ++ l ++ ws2) = strip_chars l.
Proof.
  intros H1 H2. unfold strip_chars. rewrite lstrip_chars_spaces by exact H1.
  destruct (lstrip_chars_app_spaces l ws2 H2) as [-> | [-> ->]].
  - now apply rstrip_chars_spaces.
  - reflexivity.
Qed.

Lemma strip_spaces (ws1 s ws2 : string) :
  all_space ws1 = true -> all_space ws2 = true ->
  strip (ws1 +:+ s +:+ ws2) = strip s.
Proof.
  intros H1 H2. unfold strip.
  rewrite !list_ascii_of_string_append.
  now rewrite strip_chars_spaces.
Qed.

Lemma lstrip_chars_akin (l1 l2 : list ascii) :
  Forall2 akin l1 l2 ->
  exists p m1 m2,
    l1 = p ++ m1 /\ l2 = p ++ m2
    /\ lstrip_chars l1 = m1 /\ lstrip_chars l2 = m2 /\ Forall2 akin m1 m2.
Proof.
  induction 1 as [|a b l1 l2 Hab Hl IH].
  - exists [], [], []. repeat split; constructor.
  - destruct IH as (p & m1 & m2 & E1 & E2 & S1 & S2 & Hm).
    destruct Hab as [<- | [Ha Hb]].
    + destruct (is_space a) eqn:Ha.
      * exists (a :: p), m1, m2. simpl. rewrite Ha.
        repeat split; try assumption; now f_equal.
      * exists [], (a :: l1), (a :: l2). simpl. rewrite Ha.
        repeat split. constructor; [now left | assumption].
    + exists [], (a :: l1), (b :: l2). simpl. rewrite Ha, Hb.
      repeat split. constructor; [now right | assumption].
Qed.

Lemma Forall2_akin_rev (l1 l2 : list ascii) :
  Forall2 akin l1 l2 -> Forall2 akin (rev l1) (rev l2).
Proof.
  induction 1; simpl; [constructor|].
  apply Forall2_app; [assumption|]. constructor; [assumption | constructor].
Qed.

Lemma strip_chars_akin_inj (l1 l2 : list ascii) :
  Forall2 akin l1 l2 -> strip_chars l1 = strip_chars l2 -> l1 = l2.
Proof.
  intros H Heq. unfold strip_chars, rstrip_chars in Heq.
  destruct (lstrip_chars_akin l1 l2 H) as (p & m1 & m2 & -> & -> & S1 & S2 & Hm).
  rewrite S1, S2 in Heq.
  destruct (lstrip_chars_akin _ _ (Forall2_akin_rev _ _ Hm))
    as (q & n1 & n2 & E1 & E2 & T1 & T2 & _).
  rewrite T1, T2 in Heq.
  apply (f_equal (@rev ascii)) in Heq. rewrite !rev_involutive in Heq.
  subst n2. rewrite <- E2 in E1.
  apply (f_equal (@rev ascii)) in E1. rewrite !rev_involutive in E1.
  now subst.
Qed.

Lemma in_all_ascii (a : ascii) : In a all_ascii.
Proof.
  unfold all_ascii. rewrite <- (ascii_nat_embedding a).
  apply in_map, in_seq. pose proof (nat_ascii_bounded a). lia.
Qed.

Lemma lower_akin_table :
  forallb (fun a => forallb (lower_akin_check a) all_ascii) all_ascii = true.
Proof. vm_compute. reflexivity. Qed.

Lemma lower_char_akin (a b : ascii) :
  lower_char a = lower_char b -> akin a b.
Proof.
  intros H. pose proof lower_akin_table as T.
  rewrite forallb_forall in T. specialize (T a (in_all_ascii a)).
  rewrite forallb_forall in T. specialize (T b (in_all_ascii b)).
  unfold lower_akin_check in T. rewrite H, Ascii.eqb_refl in T. simpl in T.
  apply orb_prop in T as [T | T].
  - left. now apply Ascii.eqb_eq.
  - right. apply andb_prop in T as [Ta Tb].
    split; now apply negb_true_iff.
Qed.

Lemma map_lower_akin (l1 l2 : list ascii) :
  map lower_char l1 = map lower_char l2 -> Forall2 akin l1 l2.
Proof.
  revert l2. induction l1 as [|a l1 IH]; intros [|b l2] H; simpl in H;
    try discriminate; [constructor|].
  injection H as Hab Hl. constructor; [now apply lower_char_akin | auto].
Qed.

Lemma string_of_list_ascii_inj (l1 l2 : list ascii) :
  string_of_list_ascii l1 = string_of_list_ascii l2 -> l1 = l2.
Proof.
  intros H. apply (f_equal list_ascii_of_string) in H.
  now rewrite !list_ascii_of_string_of_list_ascii in H.
Qed.

Lemma list_ascii_of_string_inj (s1 s2 : string) :
  list_ascii_of_string s1 = list_ascii_of_string s2 -> s1 = s2.
Proof.
  intros H. apply (f_equal string_of_list_ascii) in H.
  now rewrite !string_of_list_ascii_of_string in H.
Qed.

(** Strings that differ in letter case only have different trimmed forms. *)
Lemma strip_case_sensitive (s1 s2 : string) :
  s1 <> s2 -> lower s1 = lower s2 -> strip s1 <> strip s2.
Proof.
  intros Hne Hlow Hstrip. apply Hne, list_ascii_of_string_inj.
  apply strip_chars_akin_inj.
  - now apply map_lower_akin, string_of_list_ascii_inj.
  - now apply string_of_list_ascii_inj.
Qed.

Lemma str_or_empty_some (s : string) : str_or_empty (Some s) = s.
Proof. now destruct s. Qed.

End StripFacts.

(* ================================================================== *)
(** * Facts about binary64 arithmetic *)

Section FloatFacts.

Lemma Prim2SF_zero : Prim2SF 0%float = S754_zero false.
Proof. reflexivity. Qed.

Lemma Prim2SF_neg_zero : Prim2SF PrimFloat.neg_zero = S754_zero true.
Proof. reflexivity. Qed.

(** [x - 0.0] is [x], bit for bit, for every float (a NaN included). *)
Lemma float_sub_zero (x : float) : (x - 0)%float = x.
Proof.
  apply Prim2SF_inj. rewrite FloatAxioms.sub_spec, Prim2SF_zero.
  unfold SF64sub, SFsub. destruct (Prim2SF x) as [[|]|[|]| |s m e]; reflexivity.
Qed.

(** The floats Python takes for false are the two zeros. *)
Lemma is_zero_inv (x : float) :
  PrimFloat.is_zero x = true -> x = 0%float \/ x = PrimFloat.neg_zero.
Proof.
  unfold PrimFloat.is_zero. rewrite FloatAxioms.eqb_spec.
  change (Prim2SF zero) with (S754_zero false). intros H.
  destruct (Prim2SF x) as [[|]|[|]| |[|] m e] eqn:E; simpl in H;
    try discriminate.
  - right. apply Prim2SF_inj. now rewrite E.
  - left. apply Prim2SF_inj. now rewrite E.
Qed.

Lemma is_finite_inv (x : float) :
  PrimFloat.is_finite x = true ->
  (exists s, Prim2SF x = S754_zero s) \/ (exists s m e, Prim2SF x = S754_finite s m e).
Proof.
  unfold PrimFloat.is_finite, PrimFloat.is_nan, PrimFloat.is_infinity.
  rewrite !FloatAxioms.eqb_spec, FloatAxioms.abs_spec.
  destruct (Prim2SF x) as [s|s| |s m e] eqn:E; simpl.
  - intros _. left. now exists s.
  - replace (Prim2SF infinity) with (S754_infinity false) by reflexivity.
    destruct s; simpl; discriminate.
  - discriminate.
  - intros _. right. now exists s, m, e.
Qed.

(** A finite float times [0.0] is a zero. *)
Lemma float_mul_zero_r (x : float) :
  PrimFloat.is_finite x = true -> PrimFloat.is_zero (x * 0)%float = true.
Proof.
  intros H. unfold PrimFloat.is_zero.
  rewrite FloatAxioms.eqb_spec, FloatAxioms.mul_spec, Prim2SF_zero.
  change (Prim2SF zero) with (S754_zero false). unfold SF64mul, SFmul.
  destruct (is_finite_inv x H) as [[s ->] | (s & m & e & ->)];
    destruct s; reflexivity.
Qed.

Lemma float_mul_zero_l (x : float) :
  PrimFloat.is_finite x = true -> PrimFloat.is_zero (0 * x)%float = true.
Proof.
  intros H. unfold PrimFloat.is_zero.
  rewrite FloatAxioms.eqb_spec, FloatAxioms.mul_spec, Prim2SF_zero.
  change (Prim2SF zero) with (S754_zero false). unfold SF64mul, SFmul.
  destruct (is_finite_inv x H) as [[s ->] | (s & m & e & ->)];
    destruct s; reflexivity.
Qed.

(** [x or 0.0] is [x], up to the sign of a zero. *)
Lemma float_or_zero_some (q : float) :
  Py.float_or_zero (Some q) = q
  \/ (q = PrimFloat.neg_zero /\ Py.float_or_zero (Some q) = 0%float).
Proof.
  unfold Py.float_or_zero, Py.float_truthy.
  destruct (PrimFloat.is_zero q) eqn:Hz; simpl; [|now left].
  destruct (is_zero_inv q Hz) as [-> | ->]; [now left | now right].
Qed.

(** A zero is no NaN. *)
Lemma is_zero_not_nan (x : float) :
  PrimFloat.is_zero x = true -> PrimFloat.is_nan x = false.
Proof.
  intros H. destruct (is_zero_inv x H) as [-> | ->]; reflexivity.
Qed.

Lemma not_finite_inv (x : float) :
  PrimFloat.is_finite x = false ->
  (exists s, Prim2SF x = S754_infinity s) \/ Prim2SF x = S754_nan.
Proof.
  unfold PrimFloat.is_finite, PrimFloat.is_nan, PrimFloat.is_infinity.
  rewrite !FloatAxioms.eqb_spec, FloatAxioms.abs_spec.
  destruct (Prim2SF x) as [s|s| |s m e] eqn:E; simpl.
  - discriminate.
  - intros _. left. now exists s.
  - intros _. now right.
  - replace (Prim2SF infinity) with (S754_infinity false) by reflexivity.
    unfold SFeqb, SFcompare. rewrite Z.compare_refl, Pos.compare_refl.
    destruct s; discriminate.
Qed.

Lemma is_nan_spec (x : float) :
  PrimFloat.is_nan x = true <-> Prim2SF x = S754_nan.
Proof.
  unfold PrimFloat.is_nan. rewrite FloatAxioms.eqb_spec.
  destruct (Prim2SF x) as [s|s| |s m e] eqn:E; simpl.
  - destruct s; split; discriminate.
  - destruct s; split; discriminate.
  - now split.
  - unfold SFeqb, SFcompare. rewrite Z.compare_refl, Pos.compare_refl.
    destruct s; split; discriminate.
Qed.

(** An infinity or a NaN times [0.0] is a NaN. *)
Lemma float_mul_zero_r_nan (x : float) :
  PrimFloat.is_finite x = false -> PrimFloat.is_nan (x * 0)%float = true.
Proof.
  intros H. apply is_nan_spec.
  rewrite FloatAxioms.mul_spec, Prim2SF_zero. unfold SF64mul, SFmul.
  destruct (not_finite_inv x H) as [[s ->] | ->]; reflexivity.
Qed.

Lemma float_mul_zero_l_nan (x : float) :
  PrimFloat.is_finite x = false -> PrimFloat.is_nan (0 * x)%float = true.
Proof.
  intros H. apply is_nan_spec.
  rewrite FloatAxioms.mul_spec, Prim2SF_zero. unfold SF64mul, SFmul.
  destruct (not_finite_inv x H) as [[s ->] | ->]; reflexivity.
Qed.

(** What a REAL column keeps is the number, up to the sign of a zero. *)
Lemma store_real_not_nan `{R : SqliteReal} (x : float) :
  PrimFloat.is_nan x = false ->
  exists y, store_real x = Some y
            /\ (y = x \/ (PrimFloat.is_zero x = true /\ PrimFloat.is_zero y = true)).
Proof.
  intros Hn. destruct (PrimFloat.is_zero x) eqn:Hz.
  - destruct (store_real_zero x Hz) as (z & Hs & Hzz). exists z. auto.
  - exists x. split; [now apply store_real_number | now left].
Qed.

Lemma keep_real_nan (x : float) :
  PrimFloat.is_nan x = true -> Runtime.keep_real x = None.
Proof. unfold Runtime.keep_real. now intros ->. Qed.

Lemma keep_real_number (x : float) :
  PrimFloat.is_nan x = false -> PrimFloat.is_zero x = false ->
  Runtime.keep_real x = Some x.
Proof. unfold Runtime.keep_real. now intros ->. Qed.

Lemma keep_real_zero (x : float) :
  PrimFloat.is_zero x = true ->
  exists z, Runtime.keep_real x = Some z /\ PrimFloat.is_zero z = true.
Proof.
  intros H. exists x. unfold Runtime.keep_real.
  now rewrite (is_zero_not_nan x H).
Qed.

End FloatFacts.

(** SQLite as the examples run it. *)
Definition sqlite_reals : SqliteReal := {|
  store_real := Runtime.keep_real;
  store_real_nan := keep_real_nan;
  store_real_number := keep_real_number;
  store_real_zero := keep_real_zero;
|}.

(* ================================================================== *)
(** * The sample ORDER BY engines meet the engine's contract *)

Section SortFacts.

Lemma date_geb_spec (a b : date) :
  date_geb a b = true <->
  (year b < year a
   \/ (year a = year b
       /\ (month b < month a \/ (month a = month b /\ day b <= day a)))).
Proof.
  unfold date_geb.
  rewrite !orb_true_iff, !andb_true_iff, orb_true_iff, andb_true_iff.
  rewrite !Z.ltb_lt, !Z.eqb_eq, Z.leb_le. reflexivity.
Qed.

Lemma date_geb_total (a b : date) : date_geb a b = false -> date_geb b a = true.
Proof.
  intros H. apply date_geb_spec.
  assert (~ date_geb a b = true) as N by (rewrite H; discriminate).
  rewrite date_geb_spec in N. lia.
Qed.

Lemma date_geb_trans (a b c : date) :
  date_geb a b = true -> date_geb b c = true -> date_geb a c = true.
Proof. rewrite !date_geb_spec. lia. Qed.

Context {A : Type} (stays : date -> date -> bool) (key : A -> date).

(** What makes [stays] a fit test for an insertion: a row that stays in
    front is no earlier, a row that yields is no later. *)
Hypothesis stays_true : forall y x, stays y x = true -> date_geb y x = true.
Hypothesis stays_false : forall y x, stays y x = false -> date_geb x y = true.

Let later (a b : A) : Prop := date_geb (key a) (key b) = true.

Lemma insert_desc_perm (x : A) (l : list A) :
  Permutation (Runtime.insert_desc stays key x l) (x :: l).
Proof.
  induction l as [|y l IH]; simpl; [reflexivity|].
  destruct (stays (key y) (key x)); [|reflexivity].
  rewrite IH. apply perm_swap.
Qed.

Lemma sort_desc_perm (l : list A) :
  Permutation (Runtime.sort_desc stays key l) l.
Proof.
  induction l as [|x l IH]; simpl; [reflexivity|].
  rewrite insert_desc_perm. now constructor.
Qed.

Lemma insert_desc_sorted (x : A) (l : list A) :
  StronglySorted later l ->
  StronglySorted later (Runtime.insert_desc stays key x l).
Proof.
  induction 1 as [|y l Hl IH Hy]; simpl.
  - repeat constructor.
  - destruct (stays (key y) (key x)) eqn:E.
    + constructor; [exact IH|].
      rewrite List.Forall_forall in *. intros z Hz.
      apply (Permutation_in _ (insert_desc_perm x l)) in Hz as [<- | Hz].
      * now apply stays_true.
      * now apply Hy.
    + assert (later x y) as Hxy by now apply stays_false.
      constructor; [now constructor|].
      constructor; [exact Hxy|].
      rewrite List.Forall_forall in *. intros z Hz.
      unfold later. eapply date_geb_trans; [exact Hxy | now apply Hy].
Qed.

Lemma sort_desc_sorted (l : list A) :
  StronglySorted later (Runtime.sort_desc stays key l).
Proof.
  induction l as [|x l IH]; simpl; [constructor|].
  now apply insert_desc_sorted.
Qed.

End SortFacts.

Lemma stays_stable_true (y x : date) :
  Runtime.stays_stable y x = true -> date_geb y x = true.
Proof.
  unfold Runtime.stays_stable. intros H%negb_true_iff.
  now apply date_geb_total.
Qed.

Lemma stays_stable_false (y x : date) :
  Runtime.stays_stable y x = false -> date_geb x y = true.
Proof. unfold Runtime.stays_stable. now intros H%negb_false_iff. Qed.

(** SQLite as the program runs on it: its sorter is a merge sort that
    keeps rows of equal keys in the order they reach it, which for these
    queries is scan order. *)
Definition stable_engine : SqlEngine := {|
  order_by_desc := fun A key l => Runtime.sort_desc Runtime.stays_stable key l;
  order_by_desc_perm := fun A key l =>
    sort_desc_perm Runtime.stays_stable key l;
  order_by_desc_sorted := fun A key l =>
    sort_desc_sorted Runtime.stays_stable key
      stays_stable_true stays_stable_false l;
|}.

(* ================================================================== *)
(** * The DC map holds the per-key totals *)

Section Reconciliation.

Lemma strip_chars_all_space (l : list ascii) :
  forallb Py.is_space l = true -> Py.strip_chars l = [].
Proof.
  intros H. unfold Py.strip_chars. now rewrite lstrip_chars_all_space.
Qed.

Lemma blank_dc_key (o : option string) :
  blank_dc o = true -> dc_key o = EmptyString.
Proof.
  destruct o as [s|]; simpl; [|reflexivity].
  unfold dc_key. rewrite str_or_empty_some. unfold all_space, Py.strip.
  intros H. now rewrite strip_chars_all_space.
Qed.

Lemma setdefault_insert (m : gmap string dc_entry) (k : string) (e : dc_entry) :
  setdefault (<[k := e]> m) k = e.
Proof. unfold setdefault. now rewrite lookup_insert_eq. Qed.

Lemma dc_add_inward_blank (m : gmap string dc_entry) (inv : Inward.t) :
  Py.str_truthy (dc_key (Inward.dc_no_cust inv)) = false ->
  dc_add_inward m inv = m.
Proof. unfold dc_add_inward. now intros ->. Qed.

Lemma dc_add_outward_blank (m : gmap string dc_entry) (out : Outward.t) :
  Py.str_truthy (dc_key (Outward.dc_no_cust out)) = false ->
  dc_add_outward m out = m.
Proof. unfold dc_add_outward. now intros ->. Qed.

Lemma fold_dc_add_inward_lookup (l : list Inward.t) (m : gmap string dc_entry)
    (k : string) :
  Py.str_truthy k = true ->
  fold_left dc_add_inward l m !! k = bump_inward (m !! k) (inward_qtys k l).
Proof.
  intros Hk. revert m. induction l as [|r l IH]; intros m; [reflexivity|].
  cbn [fold_left]. rewrite IH. unfold inward_qtys. cbn [List.filter].
  unfold dc_add_inward.
  destruct (String.eqb_spec (dc_key (Inward.dc_no_cust r)) k) as [-> | Hne].
  - rewrite Hk. rewrite lookup_insert_eq. cbn [map].
    unfold setdefault.
    destruct (map _ (List.filter _ l)); reflexivity.
  - destruct (Py.str_truthy (dc_key (Inward.dc_no_cust r))); [|reflexivity].
    now rewrite lookup_insert_ne.
Qed.

Lemma fold_dc_add_outward_lookup (l : list Outward.t) (m : gmap string dc_entry)
    (k : string) :
  Py.str_truthy k = true ->
  fold_left dc_add_outward l m !! k = bump_outward (m !! k) (outward_qtys k l).
Proof.
  intros Hk. revert m. induction l as [|r l IH]; intros m; [reflexivity|].
  cbn [fold_left]. rewrite IH. unfold outward_qtys. cbn [List.filter].
  unfold dc_add_outward.
  destruct (String.eqb_spec (dc_key (Outward.dc_no_cust r)) k) as [-> | Hne].
  - rewrite Hk. rewrite lookup_insert_eq. cbn [map].
    unfold setdefault.
    destruct (map _ (List.filter _ l)); reflexivity.
  - destruct (Py.str_truthy (dc_key (Outward.dc_no_cust r))); [|reflexivity].
    now rewrite lookup_insert_ne.
Qed.

(** No entry is ever made under the empty key. *)
Lemma fold_dc_add_inward_empty_key (l : list Inward.t) (m : gmap string dc_entry) :
  fold_left dc_add_inward l m !! EmptyString = m !! EmptyString.
Proof.
  revert m. induction l as [|r l IH]; intros m; [reflexivity|].
  cbn [fold_left]. rewrite IH. unfold dc_add_inward.
  destruct (dc_key (Inward.dc_no_cust r)) eqn:E; [reflexivity|].
  cbn [Py.str_truthy]. now rewrite lookup_insert_ne.
Qed.

Lemma fold_dc_add_outward_empty_key (l : list Outward.t) (m : gmap string dc_entry) :
  fold_left dc_add_outward l m !! EmptyString = m !! EmptyString.
Proof.
  revert m. induction l as [|r l IH]; intros m; [reflexivity|].
  cbn [fold_left]. rewrite IH. unfold dc_add_outward.
  destruct (dc_key (Outward.dc_no_cust r)) eqn:E; [reflexivity|].
  cbn [Py.str_truthy]. now rewrite lookup_insert_ne.
Qed.

Lemma build_dc_map_empty_key (d : database) :
  build_dc_map d !! EmptyString = None.
Proof.
  unfold build_dc_map.
  now rewrite fold_dc_add_outward_empty_key, fold_dc_add_inward_empty_key.
Qed.

Lemma filter_nil_existsb {A : Type} (f : A -> bool) (l : list A) :
  List.filter f l = [] -> existsb f l = false.
Proof.
  induction l as [|x l IH]; simpl; [reflexivity|].
  destruct (f x); [discriminate | exact IH].
Qed.

Lemma filter_cons_existsb {A : Type} (f : A -> bool) (l : list A) (x : A)
    (xs : list A) :
  List.filter f l = x :: xs -> existsb f l = true.
Proof.
  intros H. apply existsb_exists. exists x. apply filter_In.
  rewrite H. now left.
Qed.

(** The map is the table of the totals: a key some record carries has
    both sums, taken over the whole journal; no other key has an entry. *)
Lemma build_dc_map_lookup (d : database) (k : string) :
  Py.str_truthy k = true ->
  build_dc_map d !! k =
    if key_in_journal d k
    then Some (DcEntry (inward_total d k) (outward_total d k))
    else None.
Proof.
  intros Hk. unfold build_dc_map.
  rewrite fold_dc_add_outward_lookup, fold_dc_add_inward_lookup by exact Hk.
  rewrite lookup_empty.
  unfold key_in_journal, inward_total, outward_total, fsum,
    inward_qtys, outward_qtys.
  destruct (List.filter _ (inwards d)) as [|r rs] eqn:Ei;
    destruct (List.filter _ (outwards d)) as [|o os] eqn:Eo;
    rewrite ?(filter_nil_existsb _ _ Ei), ?(filter_nil_existsb _ _ Eo),
      ?(filter_cons_existsb _ _ _ _ Ei), ?(filter_cons_existsb _ _ _ _ Eo);
    reflexivity.
Qed.

(** The displayed records come from the journal. *)
Lemma filter_by_In {A : Type} (col : A -> Z) (flt : option Z) (l : list A)
    (x : A) :
  In x (filter_by col flt l) -> In x l.
Proof.
  unfold filter_by. destruct flt as [v|]; [|auto].
  destruct (Py.int_truthy v); [|auto].
  intros H. now apply filter_In in H.
Qed.

Lemma query_inwards_In `{E : SqlEngine} (cf itf : option Z) (d : database)
    (inv : Inward.t) :
  In inv (query_inwards cf itf d) -> In inv (inwards d).
Proof.
  unfold query_inwards. intros Hin.
  apply (Permutation_in _ (order_by_desc_perm _ _ _)) in Hin.
  now apply filter_by_In, filter_by_In in Hin.
Qed.

End Reconciliation.

(* ================================================================== *)
(** * The reconciliation view *)

Section OverallView.

Context `{B : PyBuiltins} `{E : SqlEngine}.

Lemma has_arg_delete_eq (args : form) (k : string) :
  has_arg (delete k args) k = false.
Proof. unfold has_arg. now rewrite lookup_delete_eq. Qed.

Lemma has_arg_delete_ne (args : form) (k k' : string) :
  k <> k' -> has_arg (delete k args) k' = has_arg args k'.
Proof. intros H. unfold has_arg. now rewrite lookup_delete_ne. Qed.

Lemma args_get_int_has_arg (args : form) (k : string) (n : Z) :
  args_get_int args k = Some n -> has_arg args k = true.
Proof.
  unfold args_get_int, has_arg. now destruct (args !! k).
Qed.

(** The three outcomes of [overall()]. *)
Lemma overall_overflows (args : form) (d : database) :
  filter_overflows (args_get_int args "customer_id")
  || filter_overflows (args_get_int args "item_id") = true ->
  overall args d = Raise OverflowError.
Proof. intros H. unfold overall. now rewrite H. Qed.

Lemma overall_template_raises (args : form) (d : database) :
  filter_overflows (args_get_int args "customer_id")
  || filter_overflows (args_get_int args "item_id") = false ->
  template_fails args d = true ->
  overall args d = Raise UndefinedError.
Proof. intros H1 H2. unfold overall. now rewrite H1, H2. Qed.

Lemma overall_renders (args : form) (d : database) :
  filter_overflows (args_get_int args "customer_id")
  || filter_overflows (args_get_int args "item_id") = false ->
  template_fails args d = false ->
  overall args d
  = Ok (overall_rows (args_get_int args "customer_id")
          (args_get_int args "item_id") d).
Proof. intros H1 H2. unfold overall. now rewrite H1, H2. Qed.

Lemma overall_ok_inv (args : form) (d : database) (rows : list overall_row) :
  overall args d = Ok rows ->
  rows = overall_rows (args_get_int args "customer_id")
           (args_get_int args "item_id") d
  /\ filter_overflows (args_get_int args "customer_id")
     || filter_overflows (args_get_int args "item_id") = false
  /\ template_fails args d = false.
Proof.
  unfold overall.
  destruct (filter_overflows _ || filter_overflows _); [discriminate|].
  destruct (template_fails args d); [discriminate|].
  now intros [= <-].
Qed.

(** A request with no query string always renders. *)
Lemma overall_unfiltered (d : database) :
  overall ∅ d = Ok (overall_rows None None d).
Proof. reflexivity. Qed.

(** A row of the view under a key some record carries shows the totals of
    the whole journal. *)
Lemma make_row_figures (d : database) (inv : Inward.t) :
  let k := dc_key (Inward.dc_no_cust inv) in
  Py.str_truthy k = true -> In inv (inwards d) ->
  row_figures (make_row d (build_dc_map d) inv)
  = (k, outward_total d k, (inward_total d k - outward_total d k)%float).
Proof.
  intros k Hk Hin.
  assert (key_in_journal d k = true) as Hj.
  { unfold key_in_journal. apply orb_true_iff. left.
    apply existsb_exists. exists inv. split; [exact Hin|].
    now apply String.eqb_eq. }
  unfold row_figures, make_row.
  cbn [row_dc_no_cust qty_dispatch pending_qty]. fold k.
  now rewrite build_dc_map_lookup, Hj by exact Hk.
Qed.

(** C1.  The DC map holds, for every non-empty key [k] some record
    carries, the float sums of [qty] over all Inward and all Outward
    records whose trimmed [dc_no_cust] is [k], whatever the query string;
    the page without a query string shows them.  But once the query string
    names a filter and the master table of that filter has a row, the
    handler raises ([UndefinedError] from the template, or [OverflowError]
    from the query) and no total is shown. *)
Theorem dc_totals_unseen_under_filter (args : form) (d : database) (k : string) :
  Py.str_truthy k = true ->
  key_in_journal d k = true ->
  (has_arg args "customer_id" = true /\ customers d <> [])
  \/ (has_arg args "item_id" = true /\ items d <> []) ->
  build_dc_map d !! k = Some (DcEntry (inward_total d k) (outward_total d k))
  /\ (overall args d = Raise UndefinedError
      \/ overall args d = Raise OverflowError)
  /\ (exists rows,
        overall ∅ d = Ok rows
        /\ rows = map (make_row d (build_dc_map d)) (query_inwards None None d)
        /\ Permutation (query_inwards None None d) (inwards d)
        /\ (forall inv,
              In inv (inwards d) -> dc_key (Inward.dc_no_cust inv) = k ->
              In (make_row d (build_dc_map d) inv) rows
              /\ row_figures (make_row d (build_dc_map d) inv)
                 = (k, outward_total d k,
                    (inward_total d k - outward_total d k)%float))).
Proof.
  intros Hk Hj Hfilter. split; [|split].
  - now rewrite build_dc_map_lookup, Hj.
  - destruct (filter_overflows (args_get_int args "customer_id")
              || filter_overflows (args_get_int args "item_id")) eqn:Ho.
    + right. now apply overall_overflows.
    + left. apply overall_template_raises; [exact Ho|].
      unfold template_fails. apply orb_true_iff.
      destruct Hfilter as [[Ha Hc] | [Ha Hi]]; [left | right]; rewrite Ha.
      * now destruct (customers d).
      * now destruct (items d).
  - exists (overall_rows None None d). split; [apply overall_unfiltered|].
    split; [reflexivity|]. split; [apply order_by_desc_perm|].
    intros inv Hin Hkey. split.
    + unfold overall_rows. apply in_map. unfold query_inwards.
      apply (Permutation_in _ (Permutation_sym (order_by_desc_perm _ _ _))).
      exact Hin.
    + subst k. now apply make_row_figures.
Qed.

(** C4.  An Inward record whose [dc_no_cust] is missing, empty or white
    space only adds nothing to the DC map, wherever it stands in the
    journal; the row the view makes for it has [qty_dispatch = 0.0] and
    [pending_qty] equal to the record's own [qty] (to [inv.qty or 0.0]:
    the same float, but for [-0.0], shown as [0.0]); and the page without
    a query string shows that row. *)
Theorem blank_dc_is_untracked (d : database) (inv : Inward.t) :
  blank_dc (Inward.dc_no_cust inv) = true ->
  (forall cs its l1 l2 outs,
      build_dc_map (Db cs its (l1 ++ inv :: l2) outs)
      = build_dc_map (Db cs its (l1 ++ l2) outs))
  /\ (forall cust_filter item_filter,
        In inv (query_inwards cust_filter item_filter d) ->
        In (make_row d (build_dc_map d) inv)
          (overall_rows cust_filter item_filter d))
  /\ qty_dispatch (make_row d (build_dc_map d) inv) = 0%float
  /\ pending_qty (make_row d (build_dc_map d) inv)
     = Py.float_or_zero (Inward.qty inv)
  /\ (forall q, Inward.qty inv = Some q ->
        pending_qty (make_row d (build_dc_map d) inv) = q
        \/ (q = PrimFloat.neg_zero
            /\ pending_qty (make_row d (build_dc_map d) inv) = 0%float))
  /\ (In inv (inwards d) ->
      exists rows, overall ∅ d = Ok rows
                   /\ In (make_row d (build_dc_map d) inv) rows).
Proof.
  intros Hb. pose proof (blank_dc_key _ Hb) as Hkey.
  assert (pending_qty (make_row d (build_dc_map d) inv)
          = Py.float_or_zero (Inward.qty inv)) as Hp.
  { unfold make_row. cbn [pending_qty].
    rewrite Hkey, build_dc_map_empty_key. apply float_sub_zero. }
  split; [|split; [|split; [|split; [|split]]]].
  - intros cs its l1 l2 outs. unfold build_dc_map. cbn [inwards outwards].
    rewrite !fold_left_app. cbn [fold_left].
    rewrite dc_add_inward_blank; [reflexivity | now rewrite Hkey].
  - intros cf itf Hin. unfold overall_rows. now apply in_map.
  - unfold make_row. cbn [qty_dispatch].
    now rewrite Hkey, build_dc_map_empty_key.
  - exact Hp.
  - intros q Hq. rewrite Hp, Hq.
    destruct (float_or_zero_some q) as [-> | [-> ->]]; [now left | now right].
  - intros Hin. exists (overall_rows None None d).
    split; [apply overall_unfiltered|].
    unfold overall_rows. apply in_map. unfold query_inwards.
    apply (Permutation_in _ (Permutation_sym (order_by_desc_perm _ _ _))).
    exact Hin.
Qed.

(** C10.  The handler takes a filter value of 0 for no filter: the rows it
    builds for [customer_id=0] are those it builds without [customer_id].
    With no customer in the master table the two requests have one answer.
    With a customer in the table they do not: whenever the request without
    [customer_id] renders, the request with [customer_id=0] raises
    [UndefinedError] from the template.  The same holds of [item_id] and
    the items. *)
Theorem zero_filter_request_raises (args : form) (d : database) :
  args_get_int args "customer_id" = Some 0 ->
  overall_rows (args_get_int args "customer_id") (args_get_int args "item_id") d
  = overall_rows None (args_get_int args "item_id") d
  /\ (customers d = [] ->
      overall args d = overall (delete "customer_id"%string args) d)
  /\ (customers d <> [] ->
      forall rows,
        overall (delete "customer_id"%string args) d = Ok rows ->
        overall args d = Raise UndefinedError
        /\ overall_rows (args_get_int args "customer_id")
             (args_get_int args "item_id") d = rows).
Proof.
  intros H0.
  assert (args_get_int (delete "customer_id"%string args) "customer_id" = None)
    as Hdc by (unfold args_get_int; now rewrite lookup_delete_eq).
  assert (args_get_int (delete "customer_id"%string args) "item_id"
          = args_get_int args "item_id")
    as Hdi by (unfold args_get_int; now rewrite lookup_delete_ne).
  assert (has_arg (delete "customer_id"%string args) "item_id"
          = has_arg args "item_id")
    as Hhi by now apply has_arg_delete_ne.
  pose proof (has_arg_delete_eq args "customer_id") as Hhc.
  pose proof (args_get_int_has_arg _ _ _ H0) as Hh.
  split; [|split].
  - now rewrite H0.
  - intros Hc. unfold overall, template_fails.
    rewrite Hdc, Hdi, Hhi, Hhc, H0, Hc, Hh. reflexivity.
  - intros Hc rows Hok.
    apply overall_ok_inv in Hok as (-> & Ho & Ht).
    rewrite Hdc, Hdi in *. split; [|now rewrite H0].
    apply overall_template_raises.
    + now rewrite H0.
    + unfold template_fails. rewrite Hh. now destruct (customers d).
Qed.

End OverallView.

(** On the sample journal, which has a customer, the challan DC1 has
    10 + 5 in and 6 out; the page for [?customer_id=1] raises, and the page
    without a query string shows 6 dispatched and 9 pending in the rows of
    DC1. *)
Lemma dc_totals_unseen_under_filter_witness :
  let args : form := {[ "customer_id"%string := "1"%string ]} in
  Py.str_truthy "DC1" = true
  /\ key_in_journal Sample.journal "DC1" = true
  /\ has_arg args "customer_id" = true
  /\ customers Sample.journal <> []
  /\ build_dc_map Sample.journal !! "DC1"%string = Some (DcEntry 15 6)
  /\ (overall (B:=Runtime.builtins) (E:=stable_engine) args Sample.journal
      = Raise UndefinedError
      \/ overall (B:=Runtime.builtins) (E:=stable_engine) args Sample.journal
         = Raise OverflowError)
  /\ (exists rows,
        overall (B:=Runtime.builtins) (E:=stable_engine) ∅ Sample.journal
        = Ok rows
        /\ In (make_row Sample.journal (build_dc_map Sample.journal) Sample.in1)
             rows
        /\ row_figures
             (make_row Sample.journal (build_dc_map Sample.journal) Sample.in1)
           = ("DC1"%string, 6%float, 9%float)).
Proof.
  cbv zeta.
  assert (has_arg ({[ "customer_id"%string := "1"%string ]} : form) "customer_id"
          = true) as Ha by (vm_compute; reflexivity).
  assert (customers Sample.journal <> []) as Hc by discriminate.
  destruct (dc_totals_unseen_under_filter (B:=Runtime.builtins)
              (E:=stable_engine) {[ "customer_id"%string := "1"%string ]}
              Sample.journal "DC1" eq_refl eq_refl
              (or_introl (conj Ha Hc)))
    as (Hmap & Hraise & rows & Hok & _ & _ & Hrows).
  split; [reflexivity|]. split; [reflexivity|]. split; [exact Ha|].
  split; [exact Hc|]. split; [exact Hmap|]. split; [exact Hraise|].
  exists rows. split; [exact Hok|].
  exact (Hrows Sample.in1 (or_introl eq_refl) eq_refl).
Defined.

Lemma zero_filter_request_raises_witness :
  let args : form := {[ "customer_id"%string := "0"%string ]} in
  args_get_int (B:=Runtime.builtins) args "customer_id" = Some 0
  /\ customers Sample.journal <> []
  /\ overall (B:=Runtime.builtins) (E:=stable_engine)
       (delete "customer_id"%string args) Sample.journal
     = Ok (overall_rows (E:=stable_engine) None None Sample.journal)
  /\ overall (B:=Runtime.builtins) (E:=stable_engine) args Sample.journal
     = Raise UndefinedError
  /\ overall_rows (E:=stable_engine) (Some 0) None Sample.journal
     = overall_rows (E:=stable_engine) None None Sample.journal.
Proof.
  cbv zeta.
  assert (args_get_int (B:=Runtime.builtins)
            ({[ "customer_id"%string := "0"%string ]} : form) "customer_id"
          = Some 0) as H by (vm_compute; reflexivity).
  assert (customers Sample.journal <> []) as Hc by discriminate.
  assert (overall (B:=Runtime.builtins) (E:=stable_engine)
            (delete "customer_id"%string
               ({[ "customer_id"%string := "0"%string ]} : form))
            Sample.journal
          = Ok (overall_rows (E:=stable_engine) None None Sample.journal))
    as Hok by (vm_compute; reflexivity).
  destruct (zero_filter_request_raises (B:=Runtime.builtins) (E:=stable_engine)
              {[ "customer_id"%string := "0"%string ]} Sample.journal H)
    as (_ & _ & Hbug).
  destruct (Hbug Hc _ Hok) as [Hraise Hrows].
  split; [exact H|]. split; [exact Hc|]. split; [exact Hok|].
  split; [exact Hraise|]. reflexivity.
Defined.

(** C6.  DC references that differ only in the white space around them
    have one key, and two movement records with one key, Inward or Outward,
    add up in one entry of the DC map: receipts in its [inward] field,
    dispatches in its [outward] field.  DC references that differ only in
    letter case have different keys, and records with different keys add
    to different entries. *)
Theorem dc_keys_trimmed_case_sensitive :
  (forall s ws1 ws2 ws3 ws4 : string,
      all_space ws1 = true -> all_space ws2 = true ->
      all_space ws3 = true -> all_space ws4 = true ->
      dc_key (Some (ws1 +:+ s +:+ ws2)) = dc_key (Some (ws3 +:+ s +:+ ws4)))
  /\ (forall (m : gmap string dc_entry) (r1 r2 : Inward.t),
        let k := dc_key (Inward.dc_no_cust r1) in
        Py.str_truthy k = true ->
        dc_key (Inward.dc_no_cust r2) = k ->
        dc_add_inward (dc_add_inward m r1) r2 !! k
        = Some (DcEntry (inward (setdefault m k)
                         + Py.float_or_zero (Inward.qty r1)
                         + Py.float_or_zero (Inward.qty r2))
                  (outward (setdefault m k))))
  /\ (forall s1 s2 : string,
        s1 <> s2 -> Py.lower s1 = Py.lower s2 ->
        dc_key (Some s1) <> dc_key (Some s2))
  /\ (forall s1 s2 : string,
        s1 <> s2 ->
        Forall2 akin (list_ascii_of_string s1) (list_ascii_of_string s2) ->
        dc_key (Some s1) <> dc_key (Some s2))
  /\ (forall (m : gmap string dc_entry) (r1 r2 : Inward.t),
        let k := dc_key (Inward.dc_no_cust r1) in
        Py.str_truthy k = true ->
        dc_key (Inward.dc_no_cust r2) <> k ->
        dc_add_inward (dc_add_inward m r1) r2 !! k
        = Some (DcEntry (inward (setdefault m k)
                         + Py.float_or_zero (Inward.qty r1))
                  (outward (setdefault m k))))
  /\ (forall (m : gmap string dc_entry) (o1 o2 : Outward.t),
        let k := dc_key (Outward.dc_no_cust o1) in
        Py.str_truthy k = true ->
        dc_key (Outward.dc_no_cust o2) = k ->
        dc_add_outward (dc_add_outward m o1) o2 !! k
        = Some (DcEntry (inward (setdefault m k))
                  (outward (setdefault m k)
                   + Py.float_or_zero (Outward.qty o1)
                   + Py.float_or_zero (Outward.qty o2))))
  /\ (forall (m : gmap string dc_entry) (o1 o2 : Outward.t),
        let k := dc_key (Outward.dc_no_cust o1) in
        Py.str_truthy k = true ->
        dc_key (Outward.dc_no_cust o2) <> k ->
        dc_add_outward (dc_add_outward m o1) o2 !! k
        = Some (DcEntry (inward (setdefault m k))
                  (outward (setdefault m k)
                   + Py.float_or_zero (Outward.qty o1))))
  /\ (forall (m : gmap string dc_entry) (r : Inward.t) (o : Outward.t),
        let k := dc_key (Inward.dc_no_cust r) in
        Py.str_truthy k = true ->
        dc_key (Outward.dc_no_cust o) = k ->
        dc_add_outward (dc_add_inward m r) o !! k
        = Some (DcEntry (inward (setdefault m k)
                         + Py.float_or_zero (Inward.qty r))
                  (outward (setdefault m k)
                   + Py.float_or_zero (Outward.qty o))))
  /\ (forall (m : gmap string dc_entry) (r : Inward.t) (o : Outward.t),
        let k := dc_key (Inward.dc_no_cust r) in
        Py.str_truthy k = true ->
        dc_key (Outward.dc_no_cust o) <> k ->
        dc_add_outward (dc_add_inward m r) o !! k
        = Some (DcEntry (inward (setdefault m k)
                         + Py.float_or_zero (Inward.qty r))
                  (outward (setdefault m k))))
  /\ (forall (d : database) (k : string),
        Py.str_truthy k = true ->
        build_dc_map d !! k
        = if key_in_journal d k
          then Some (DcEntry (fsum (inward_qtys k (inwards d)))
                       (fsum (outward_qtys k (outwards d))))
          else None).
Proof.
  repeat apply conj.
  - intros s ws1 ws2 ws3 ws4 H1 H2 H3 H4. unfold dc_key.
    rewrite !str_or_empty_some. now rewrite !strip_spaces.
  - intros m r1 r2 k Hk H2. unfold dc_add_inward. fold k.
    rewrite H2, Hk. rewrite lookup_insert_eq.
    now rewrite setdefault_insert.
  - intros s1 s2 Hne Hlow. unfold dc_key. rewrite !str_or_empty_some.
    now apply strip_case_sensitive.
  - intros s1 s2 Hne Hakin. unfold dc_key. rewrite !str_or_empty_some.
    intros Hstrip. apply Hne, list_ascii_of_string_inj.
    apply strip_chars_akin_inj; [exact Hakin|].
    now apply string_of_list_ascii_inj.
  - intros m r1 r2 k Hk H2. unfold dc_add_inward. fold k. rewrite Hk.
    destruct (Py.str_truthy (dc_key (Inward.dc_no_cust r2))).
    + rewrite lookup_insert_ne by exact H2. now rewrite lookup_insert_eq.
    + now rewrite lookup_insert_eq.
  - intros m o1 o2 k Hk H2. unfold dc_add_outward. fold k.
    rewrite H2, Hk. rewrite lookup_insert_eq.
    now rewrite setdefault_insert.
  - intros m o1 o2 k Hk H2. unfold dc_add_outward. fold k. rewrite Hk.
    destruct (Py.str_truthy (dc_key (Outward.dc_no_cust o2))).
    + rewrite lookup_insert_ne by exact H2. now rewrite lookup_insert_eq.
    + now rewrite lookup_insert_eq.
  - intros m r o k Hk H2. unfold dc_add_outward, dc_add_inward. fold k.
    rewrite H2, Hk. rewrite lookup_insert_eq.
    now rewrite setdefault_insert.
  - intros m r o k Hk H2. unfold dc_add_outward, dc_add_inward. fold k.
    rewrite Hk.
    destruct (Py.str_truthy (dc_key (Outward.dc_no_cust o))).
    + rewrite lookup_insert_ne by exact H2. now rewrite lookup_insert_eq.
    + now rewrite lookup_insert_eq.
  - intros d k Hk. apply build_dc_map_lookup. exact Hk.
Qed.

Lemma blank_dc_is_untracked_witness :
  blank_dc (Inward.dc_no_cust Sample.in3) = true
  /\ build_dc_map Sample.journal
     = build_dc_map (Db [Sample.acme] [Sample.bolt] [Sample.in1; Sample.in2]
                       [Sample.out1])
  /\ qty_dispatch (make_row Sample.journal (build_dc_map Sample.journal) Sample.in3)
     = 0%float
  /\ pending_qty (make_row Sample.journal (build_dc_map Sample.journal) Sample.in3)
     = 7%float.
Proof.
  destruct (blank_dc_is_untracked (B:=Runtime.builtins) (E:=stable_engine)
              Sample.journal Sample.in3 eq_refl) as (Hmap & _ & Hd & Hp & _).
  split; [reflexivity|]. split; [|split].
  - exact (Hmap [Sample.acme] [Sample.bolt] [Sample.in1; Sample.in2] []
             [Sample.out1]).
  - exact Hd.
  - exact Hp.
Defined.

Lemma dc_keys_trimmed_case_sensitive_witness :
  dc_key (Some " DC1 "%string) = dc_key (Some "DC1  "%string)
  /\ dc_key (Some "dc1"%string) <> dc_key (Some "DC1"%string)
  /\ dc_add_outward (dc_add_inward ∅ Sample.in1) Sample.out1 !! "DC1"%string
     = Some (DcEntry (0 + 10) (0 + 6)).
Proof.
  destruct dc_keys_trimmed_case_sensitive
    as (Hws & _ & Hcase & _ & _ & _ & _ & Hmixed & _).
  split; [|split].
  - exact (Hws "DC1" " " " " "" "  " eq_refl eq_refl eq_refl eq_refl)%string.
  - apply Hcase; [discriminate | reflexivity].
  - exact (Hmixed ∅ Sample.in1 Sample.out1 eq_refl eq_refl).
Defined.

(* ================================================================== *)
(** * The query surface: filters *)

Section QuerySurface.

Context `{B : PyBuiltins} `{E : SqlEngine}.

Lemma filter_filter_andb {A : Type} (f g : A -> bool) (l : list A) :
  List.filter f (List.filter g l) = List.filter (fun x => g x && f x) l.
Proof.
  induction l as [|x l IH]; simpl; [reflexivity|].
  destruct (g x); simpl; [|exact IH].
  destruct (f x); now rewrite IH.
Qed.

Lemma filter_all {A : Type} (l : list A) : List.filter (fun _ => true) l = l.
Proof. induction l as [|x l IH]; simpl; [reflexivity | now rewrite IH]. Qed.

Lemma int_truthy_nonzero (n : Z) : n <> 0 -> Py.int_truthy n = true.
Proof.
  intros H. unfold Py.int_truthy. now apply negb_true_iff, Z.eqb_neq.
Qed.

(** [filter_by] keeps the records that pass the filter. *)
Lemma filter_by_passes {A : Type} (col : A -> Z) (flt : option Z) (l : list A) :
  filter_by col flt l = List.filter (fun r => passes flt (col r)) l.
Proof.
  unfold filter_by, passes. destruct flt as [v|]; [|now rewrite filter_all].
  destruct (Py.int_truthy v); [reflexivity | now rewrite filter_all].
Qed.

Lemma query_inwards_passes (cf itf : option Z) (d : database) :
  Permutation (query_inwards cf itf d)
    (List.filter
       (fun r => passes cf (Inward.customer_id r) && passes itf (Inward.item_id r))
       (inwards d)).
Proof.
  unfold query_inwards. rewrite order_by_desc_perm.
  now rewrite !filter_by_passes, filter_filter_andb.
Qed.

Lemma query_outwards_passes (cf itf : option Z) (d : database) :
  Permutation (query_outwards cf itf d)
    (List.filter
       (fun r => passes cf (Outward.customer_id r)
                 && passes itf (Outward.item_id r))
       (outwards d)).
Proof.
  unfold query_outwards. rewrite order_by_desc_perm.
  now rewrite !filter_by_passes, filter_filter_andb.
Qed.

(** C8, as the code has it.  Each filter is optional and acts on its own
    column, and a filter given as 0 counts as absent.  Whenever the page
    renders, it has one row for each Inward record of the journal that
    passes every filter given with a value other than 0, and for no other
    record: with both given, the records matching both.  The Outward query
    keeps the records of its table by the same rule. *)
Theorem filters_conjunctive_when_nonzero (args : form) (d : database)
    (rows : list overall_row) :
  overall args d = Ok rows ->
  let cf := args_get_int args "customer_id" in
  let itf := args_get_int args "item_id" in
  exists invs : list Inward.t,
    rows = map (make_row d (build_dc_map d)) invs
    /\ invs = query_inwards cf itf d
    /\ Permutation invs
         (List.filter
            (fun r => passes cf (Inward.customer_id r)
                      && passes itf (Inward.item_id r))
            (inwards d))
    /\ (forall c i, cf = Some c -> itf = Some i -> c <> 0 -> i <> 0 ->
          Permutation invs
            (List.filter
               (fun r => (Inward.customer_id r =? c) && (Inward.item_id r =? i))
               (inwards d))
          /\ Permutation (query_outwards cf itf d)
               (List.filter
                  (fun r => (Outward.customer_id r =? c)
                            && (Outward.item_id r =? i))
                  (outwards d)))
    /\ (forall c, cf = Some c -> itf = None -> c <> 0 ->
          Permutation invs
            (List.filter (fun r => Inward.customer_id r =? c) (inwards d)))
    /\ (forall i, cf = None -> itf = Some i -> i <> 0 ->
          Permutation invs
            (List.filter (fun r => Inward.item_id r =? i) (inwards d)))
    /\ (cf = None -> itf = None -> Permutation invs (inwards d))
    /\ (forall i, cf = Some 0 -> itf = Some i -> i <> 0 ->
          Permutation invs
            (List.filter (fun r => Inward.item_id r =? i) (inwards d))).
Proof.
  intros Hok cf itf. apply overall_ok_inv in Hok as (-> & _ & _).
  fold cf itf. exists (query_inwards cf itf d).
  split; [reflexivity|]. split; [reflexivity|].
  split; [apply query_inwards_passes|].
  repeat apply conj.
  - intros c i -> -> Hc Hi. split.
    + rewrite query_inwards_passes. unfold passes.
      now rewrite (int_truthy_nonzero c Hc), (int_truthy_nonzero i Hi).
    + rewrite query_outwards_passes. unfold passes.
      now rewrite (int_truthy_nonzero c Hc), (int_truthy_nonzero i Hi).
  - intros c -> -> Hc. rewrite query_inwards_passes. unfold passes.
    rewrite (int_truthy_nonzero c Hc).
    erewrite filter_ext; [reflexivity|]. intros r. apply andb_true_r.
  - intros i -> -> Hi. rewrite query_inwards_passes. unfold passes.
    now rewrite (int_truthy_nonzero i Hi).
  - intros -> ->. rewrite query_inwards_passes. cbn. now rewrite filter_all.
  - intros i -> -> Hi. rewrite query_inwards_passes. unfold passes.
    now rewrite (int_truthy_nonzero i Hi).
Qed.

(** X25.  Whenever the Overall page renders, it has one row for each
    Inward record that passes the filters, in the order of the query, and
    a row whose DC key is not empty shows under [qty_dispatch] the outward
    total of the key and under [pending_qty] its inward total less its
    outward total, both taken over the whole journal whatever the
    filters. *)
Theorem overall_page_shows_totals (args : form) (d : database)
    (rows : list overall_row) :
  overall args d = Ok rows ->
  let cf := args_get_int args "customer_id" in
  let itf := args_get_int args "item_id" in
  rows = map (make_row d (build_dc_map d)) (query_inwards cf itf d)
  /\ Permutation (query_inwards cf itf d)
       (List.filter
          (fun r => passes cf (Inward.customer_id r)
                    && passes itf (Inward.item_id r))
          (inwards d))
  /\ (forall inv,
        In inv (inwards d) ->
        passes cf (Inward.customer_id inv) = true ->
        passes itf (Inward.item_id inv) = true ->
        In (make_row d (build_dc_map d) inv) rows)
  /\ (forall row,
        In row rows ->
        Py.str_truthy (row_dc_no_cust row) = true ->
        qty_dispatch row = outward_total d (row_dc_no_cust row)
        /\ pending_qty row
           = (inward_total d (row_dc_no_cust row)
              - outward_total d (row_dc_no_cust row))%float).
Proof.
  intros Hok cf itf. apply overall_ok_inv in Hok as (-> & _ & _).
  fold cf itf. split; [reflexivity|].
  split; [apply query_inwards_passes|]. split.
  - intros inv Hin Hc Hi. unfold overall_rows. apply in_map.
    apply (Permutation_in _ (Permutation_sym (query_inwards_passes cf itf d))).
    apply filter_In. split; [exact Hin|]. now rewrite Hc, Hi.
  - intros row Hrow Hk. unfold overall_rows in Hrow.
    apply in_map_iff in Hrow as (inv & <- & Hinv).
    apply query_inwards_In in Hinv.
    change (row_dc_no_cust (make_row d (build_dc_map d) inv))
      with (dc_key (Inward.dc_no_cust inv)) in *.
    pose proof (make_row_figures d inv Hk Hinv) as Hfig.
    split.
    + exact (f_equal (fun t => snd (fst t)) Hfig).
    + exact (f_equal snd Hfig).
Qed.

End QuerySurface.

(** With no master rows the page for [?customer_id=1] renders: the rows of
    the challan DC1 show 6 dispatched and 9 pending. *)
Lemma overall_page_shows_totals_witness :
  let args : form := {[ "customer_id"%string := "1"%string ]} in
  let d := Sample.unmastered_journal in
  exists rows,
    overall (B:=Runtime.builtins) (E:=stable_engine) args d = Ok rows
    /\ length rows = 3%nat
    /\ In (make_row d (build_dc_map d) Sample.in1) rows
    /\ row_figures (make_row d (build_dc_map d) Sample.in1)
       = ("DC1"%string, 6%float, 9%float).
Proof.
  cbv zeta.
  assert (exists rows,
             overall (B:=Runtime.builtins) (E:=stable_engine)
               {[ "customer_id"%string := "1"%string ]}
               Sample.unmastered_journal = Ok rows /\ length rows = 3%nat)
    as (rows & Hok & Hlen) by (eexists; split; vm_compute; reflexivity).
  exists rows. split; [exact Hok|]. split; [exact Hlen|].
  destruct (overall_page_shows_totals (B:=Runtime.builtins) (E:=stable_engine)
              _ _ _ Hok) as (_ & _ & Hin & Hfig).
  assert (In (make_row Sample.unmastered_journal
                (build_dc_map Sample.unmastered_journal) Sample.in1) rows)
    as Hrow by (apply Hin; [now left | vm_compute; reflexivity | reflexivity]).
  split; [exact Hrow|].
  destruct (Hfig _ Hrow eq_refl) as [Hd Hp].
  unfold row_figures. rewrite Hd, Hp. reflexivity.
Defined.

(** With no master rows the page for [?customer_id=1&item_id=5] renders
    and shows the one record of customer 1 and item 5. *)
Lemma filters_conjunctive_when_nonzero_witness :
  let args : form :=
    list_to_map [("customer_id", "1"); ("item_id", "5")]%string in
  let d := Sample.zero_id_journal in
  overall (B:=Runtime.builtins) (E:=stable_engine) args d
  = Ok [make_row d (build_dc_map d) Sample.one_cust]
  /\ exists invs,
       [make_row d (build_dc_map d) Sample.one_cust]
       = map (make_row d (build_dc_map d)) invs
       /\ Permutation invs [Sample.one_cust].
Proof.
  cbv zeta.
  assert (overall (B:=Runtime.builtins) (E:=stable_engine)
            (list_to_map [("customer_id", "1"); ("item_id", "5")]%string)
            Sample.zero_id_journal
          = Ok [make_row Sample.zero_id_journal
                  (build_dc_map Sample.zero_id_journal) Sample.one_cust])
    as Hok by (vm_compute; reflexivity).
  split; [exact Hok|].
  destruct (filters_conjunctive_when_nonzero (B:=Runtime.builtins)
              (E:=stable_engine) _ _ _ Hok)
    as (invs & Hrows & _ & _ & Hboth & _).
  exists invs. split; [exact Hrows|].
  exact (proj1 (Hboth 1 5 ltac:(vm_compute; reflexivity)
                  ltac:(vm_compute; reflexivity)
                  ltac:(discriminate) ltac:(discriminate))).
Defined.

(** With no master rows the page for [?customer_id=0&item_id=5] renders
    and shows the record of customer 1 as well: its rows are not those of
    the records matching both filters. *)
Lemma filters_conjunctive_counterexample :
  let args : form :=
    list_to_map [("customer_id", "0"); ("item_id", "5")]%string in
  let d := Sample.zero_id_journal in
  args_get_int (B:=Runtime.builtins) args "customer_id" = Some 0
  /\ args_get_int (B:=Runtime.builtins) args "item_id" = Some 5
  /\ overall (B:=Runtime.builtins) (E:=stable_engine) args d
     = Ok [make_row d (build_dc_map d) Sample.zero_cust;
           make_row d (build_dc_map d) Sample.one_cust]
  /\ Inward.customer_id Sample.one_cust <> 0
  /\ ~ (forall rows,
          overall (B:=Runtime.builtins) (E:=stable_engine) args d = Ok rows ->
          exists invs,
            rows = map (make_row d (build_dc_map d)) invs
            /\ Permutation invs
                 (List.filter
                    (fun r => (Inward.customer_id r =? 0)
                              && (Inward.item_id r =? 5))
                    (inwards d))).
Proof.
  cbv zeta.
  assert (overall (B:=Runtime.builtins) (E:=stable_engine)
            (list_to_map [("customer_id", "0"); ("item_id", "5")]%string)
            Sample.zero_id_journal
          = Ok [make_row Sample.zero_id_journal
                  (build_dc_map Sample.zero_id_journal) Sample.zero_cust;
                make_row Sample.zero_id_journal
                  (build_dc_map Sample.zero_id_journal) Sample.one_cust])
    as Hok by (vm_compute; reflexivity).
  split; [vm_compute; reflexivity|]. split; [vm_compute; reflexivity|].
  split; [exact Hok|]. split; [discriminate|].
  intros H. destruct (H _ Hok) as (invs & Hrows & Hperm).
  apply Permutation_length in Hperm.
  apply (f_equal (@length _)) in Hrows. rewrite length_map in Hrows.
  cbn in Hrows, Hperm. congruence.
Qed.

(* ================================================================== *)
(** * The journal: what an append checks and what it stores *)

Section Journal.

Context `{B : PyBuiltins} `{R : SqliteReal} `{P : Pandas}.

(** The frame to write cannot be had in one case only: the month file is
    there and is no zip archive. *)
Lemma sheet_with_row_outcome (fs : filesystem) (p sheet : string)
    (row : row_dict) :
  (exists df, sheet_with_row fs p sheet row = Ok df)
  \/ (sheet_with_row fs p sheet row = Raise BadZipFile
      /\ fs !! p = Some NotZip).
Proof.
  unfold sheet_with_row, path_exists, read_excel.
  destruct (fs !! p) as [[wb| |]|]; cbn.
  - destruct (dict_get wb sheet); cbn; left; eexists; reflexivity.
  - left; eexists; reflexivity.
  - now right.
  - left; eexists; reflexivity.
Qed.

Lemma sheet_with_row_not_zip (fs : filesystem) (p sheet : string)
    (row : row_dict) :
  fs !! p = Some NotZip -> sheet_with_row fs p sheet row = Raise BadZipFile.
Proof.
  intros H. unfold sheet_with_row, path_exists, read_excel. now rewrite H.
Qed.

(** A write of a sheet adds it to the book, whole or in part. *)
Lemma to_excel_cases (w : ExcelWriter.t) (sheet : string) (df : DataFrame.t) :
  (DataFrame.legal df = true
   /\ ExcelWriter.to_excel w sheet df
      = (ExcelWriter.Build (ExcelWriter.path w)
           (ExcelWriter.book w ++ [(sheet, read_back df)]), Ok tt))
  \/ (DataFrame.legal df = false
      /\ ExcelWriter.to_excel w sheet df
         = (ExcelWriter.Build (ExcelWriter.path w)
              (ExcelWriter.book w ++ [(sheet, partial_sheet df)]),
            Raise IllegalCharacterError)).
Proof.
  unfold ExcelWriter.to_excel. destruct (DataFrame.legal df); auto.
Qed.

(** The export of a row returns, or raises one of two exceptions. *)
Lemma append_row_to_sheet_outcome (fs : filesystem) (p sheet : string)
    (row : row_dict) :
  snd (append_row_to_sheet fs p sheet row) = Ok tt
  \/ snd (append_row_to_sheet fs p sheet row) = Raise BadZipFile
  \/ snd (append_row_to_sheet fs p sheet row) = Raise IllegalCharacterError.
Proof.
  unfold append_row_to_sheet.
  destruct (sheet_with_row_outcome fs p sheet row) as [[df ->] | [-> _]];
    [|now right; left].
  destruct (ExcelWriter.open fs p) as [fs1 writer].
  match goal with
  | |- context [ExcelWriter.to_excel ?w sheet df] =>
      destruct (to_excel_cases w sheet df) as [[_ ->] | [_ ->]]
  end; cbn; auto.
Qed.

Lemma fold_left_max_ge (l : list Z) (x : Z) :
  x <= fold_left Z.max l x /\ Forall (fun y => y <= fold_left Z.max l x) l.
Proof.
  revert x. induction l as [|y l IH]; intros x; cbn.
  - split; [lia | constructor].
  - destruct (IH (Z.max x y)) as [H1 H2]. split; [lia|].
    constructor; [lia | exact H2].
Qed.

(** The key of a new row is above every key of the table. *)
Lemma next_id_fresh (ids : list Z) : Forall (fun y => y < next_id ids) ids.
Proof.
  destruct ids as [|x l]; [constructor|]. unfold next_id.
  destruct (fold_left_max_ge l x) as [H1 H2].
  constructor; [lia|].
  eapply List.Forall_impl; [|exact H2]. cbn. intros; lia.
Qed.

(** The form and the range of its two ids decide whether [inward()] stores
    a record. *)
Lemma inward_post_stores (today : date) (f : form) (s : state)
    (i : inward_input) :
  read_inward_form today f = Ok i ->
  sqlite_int_ok (in_customer_id i) && sqlite_int_ok (in_item_id i) = true ->
  db (fst (inward_post today f s)) = add_inward (db s) (new_inward (db s) i)
  /\ EXPORT_DIR (fst (inward_post today f s)) = EXPORT_DIR s
  /\ (snd (inward_post today f s) = Ok (new_inward (db s) i)
      \/ snd (inward_post today f s) = Raise BadZipFile
      \/ snd (inward_post today f s) = Raise IllegalCharacterError).
Proof.
  intros Hf Hr. unfold inward_post, commit_inward. rewrite Hf, Hr.
  match goal with
  | |- context [append_row_to_sheet ?fs ?p ?sh ?row] =>
      pose proof (append_row_to_sheet_outcome fs p sh row) as Ho;
      destruct (append_row_to_sheet fs p sh row) as [fs' [[]|e]]
  end; cbn in *.
  - auto.
  - destruct Ho as [Ho | [Ho | Ho]]; [discriminate | |];
      injection Ho as ->; auto.
Qed.

Lemma inward_post_overflows (today : date) (f : form) (s : state)
    (i : inward_input) :
  read_inward_form today f = Ok i ->
  sqlite_int_ok (in_customer_id i) && sqlite_int_ok (in_item_id i) = false ->
  inward_post today f s = (s, Raise OverflowError).
Proof.
  intros Hf Hr. unfold inward_post, commit_inward. now rewrite Hf, Hr.
Qed.

Lemma inward_post_rejects (today : date) (f : form) (s : state) (e : exn) :
  read_inward_form today f = Raise e -> inward_post today f s = (s, Raise e).
Proof. intros Hf. unfold inward_post. now rewrite Hf. Qed.

Lemma outward_post_stores (today : date) (f : form) (s : state)
    (i : outward_input) :
  read_outward_form today f = Ok i ->
  sqlite_int_ok (out_customer_id i) && sqlite_int_ok (out_item_id i) = true ->
  db (fst (outward_post today f s)) = add_outward (db s) (new_outward (db s) i)
  /\ EXPORT_DIR (fst (outward_post today f s)) = EXPORT_DIR s
  /\ (snd (outward_post today f s) = Ok (new_outward (db s) i)
      \/ snd (outward_post today f s) = Raise BadZipFile
      \/ snd (outward_post today f s) = Raise IllegalCharacterError).
Proof.
  intros Hf Hr. unfold outward_post, commit_outward. rewrite Hf, Hr.
  match goal with
  | |- context [append_row_to_sheet ?fs ?p ?sh ?row] =>
      pose proof (append_row_to_sheet_outcome fs p sh row) as Ho;
      destruct (append_row_to_sheet fs p sh row) as [fs' [[]|e]]
  end; cbn in *.
  - auto.
  - destruct Ho as [Ho | [Ho | Ho]]; [discriminate | |];
      injection Ho as ->; auto.
Qed.

Lemma outward_post_overflows (today : date) (f : form) (s : state)
    (i : outward_input) :
  read_outward_form today f = Ok i ->
  sqlite_int_ok (out_customer_id i) && sqlite_int_ok (out_item_id i) = false ->
  outward_post today f s = (s, Raise OverflowError).
Proof.
  intros Hf Hr. unfold outward_post, commit_outward. now rewrite Hf, Hr.
Qed.

Lemma outward_post_rejects (today : date) (f : form) (s : state) (e : exn) :
  read_outward_form today f = Raise e -> outward_post today f s = (s, Raise e).
Proof. intros Hf. unfold outward_post. now rewrite Hf. Qed.

(** An export into a month file that is no zip archive raises
    [BadZipFile]; an export of a legal row into a month that has no file
    yet returns. *)
Lemma append_row_to_sheet_not_zip (fs : filesystem) (p sheet : string)
    (row : row_dict) :
  fs !! p = Some NotZip ->
  append_row_to_sheet fs p sheet row = (fs, Raise BadZipFile).
Proof.
  intros H. unfold append_row_to_sheet.
  now rewrite (sheet_with_row_not_zip fs p sheet row H).
Qed.

Lemma append_row_to_sheet_new_file (fs : filesystem) (p sheet : string)
    (row : row_dict) :
  fs !! p = None ->
  DataFrame.legal (DataFrame.of_row row) = true ->
  append_row_to_sheet fs p sheet row
  = (<[p := Xlsx [(sheet, read_back (DataFrame.of_row row))]]> fs, Ok tt).
Proof.
  intros H Hl.
  unfold append_row_to_sheet, sheet_with_row, path_exists, ExcelWriter.open,
    read_excel.
  rewrite H. destruct writer_truncates.
  - rewrite lookup_insert_eq. cbn. unfold ExcelWriter.to_excel. rewrite Hl.
    cbn. unfold ExcelWriter.close. cbn. now rewrite insert_insert_eq.
  - rewrite H. cbn. unfold ExcelWriter.to_excel. rewrite Hl. reflexivity.
Qed.

(** The exceptions of the form readers. *)
Lemma date_field_exn (today : date) (f : form) (e : exn) :
  date_field today f = Raise e -> e = ValueError.
Proof.
  unfold date_field. destruct (f !! "entry_date"%string) as [v|]; [|discriminate].
  destruct (Py.str_truthy v); [|discriminate].
  destruct (strptime_ymd v); [discriminate|]. now intros [= <-].
Qed.

Lemma int_field_exn (f : form) (k : string) (e : exn) :
  int_field f k = Raise e -> e = BadRequestKeyError \/ e = ValueError.
Proof.
  unfold int_field, form_index. destruct (f !! k) as [v|]; cbn.
  - destruct (py_int v); [discriminate|]. intros [= <-]. now right.
  - intros [= <-]. now left.
Qed.

Lemma float_field_exn (f : form) (k : string) (e : exn) :
  float_field f k = Raise e -> e = ValueError.
Proof.
  unfold float_field. destruct (f !! k) as [v|]; [|discriminate].
  destruct (Py.str_truthy v); [|discriminate].
  destruct (py_float v); [discriminate|]. now intros [= <-].
Qed.

Lemma read_inward_form_exn (today : date) (f : form) (e : exn) :
  read_inward_form today f = Raise e -> e = BadRequestKeyError \/ e = ValueError.
Proof.
  unfold read_inward_form.
  destruct (date_field today f) eqn:E1; cbn;
    [|intros [= <-]; right; eapply date_field_exn; eassumption].
  destruct (int_field f "customer_id") eqn:E2; cbn;
    [|intros [= <-]; eapply int_field_exn; eassumption].
  destruct (int_field f "item_id") eqn:E3; cbn;
    [|intros [= <-]; eapply int_field_exn; eassumption].
  destruct (float_field f "qty") eqn:E4; cbn;
    [|intros [= <-]; right; eapply float_field_exn; eassumption].
  destruct (float_field f "rate") eqn:E5; cbn;
    [discriminate|intros [= <-]; right; eapply float_field_exn; eassumption].
Qed.

Lemma read_outward_form_exn (today : date) (f : form) (e : exn) :
  read_outward_form today f = Raise e -> e = BadRequestKeyError \/ e = ValueError.
Proof.
  unfold read_outward_form.
  destruct (date_field today f) eqn:E1; cbn;
    [|intros [= <-]; right; eapply date_field_exn; eassumption].
  destruct (int_field f "customer_id") eqn:E2; cbn;
    [|intros [= <-]; eapply int_field_exn; eassumption].
  destruct (int_field f "item_id") eqn:E3; cbn;
    [|intros [= <-]; eapply int_field_exn; eassumption].
  destruct (float_field f "qty") eqn:E4; cbn;
    [discriminate|intros [= <-]; right; eapply float_field_exn; eassumption].
Qed.

(** The form is read field by field. *)
Lemma read_inward_form_ok (today : date) (f : form) (dt : date) (c it : Z)
    (q r : float) :
  date_field today f = Ok dt ->
  int_field f "customer_id" = Ok c ->
  int_field f "item_id" = Ok it ->
  float_field f "qty" = Ok q ->
  float_field f "rate" = Ok r ->
  read_inward_form today f
  = Ok (InwardInput dt c it (f !! "dc_no_cust"%string) q r).
Proof.
  intros H1 H2 H3 H4 H5. unfold read_inward_form.
  rewrite H1; cbn. rewrite H2; cbn. rewrite H3; cbn.
  rewrite H4; cbn. now rewrite H5.
Qed.

Lemma read_outward_form_ok (today : date) (f : form) (dt : date) (c it : Z)
    (q : float) :
  date_field today f = Ok dt ->
  int_field f "customer_id" = Ok c ->
  int_field f "item_id" = Ok it ->
  float_field f "qty" = Ok q ->
  read_outward_form today f
  = Ok (OutwardInput dt c it (f !! "dc_no_cust"%string)
          (f !! "dc_unique"%string) q).
Proof.
  intros H1 H2 H3 H4. unfold read_outward_form.
  rewrite H1; cbn. rewrite H2; cbn. rewrite H3; cbn. now rewrite H4.
Qed.

End Journal.

Section JournalClaims.

Context `{B : PyBuiltins} `{R : SqliteReal} `{P : Pandas}.


(** No request rewrites or removes an Inward record: the table only grows
    at its end. *)
Lemma handle_keeps_inwards (r : request) (s : state) :
  exists l, inwards (db (handle r s)) = inwards (db s) ++ l.
Proof.
  destruct r as [f|args|today f|today f|f]; cbn [handle].
  - exists []. rewrite app_nil_r. unfold master_post.
    destruct (opt_eqb _ "add_customer");
      [destruct (form_index f "name"); reflexivity|].
    destruct (opt_eqb _ "add_item");
      [destruct (form_index f "item_name"); reflexivity|reflexivity].
  - exists []. rewrite app_nil_r. unfold master_delete, delete_by_id.
    destruct (opt_eqb _ "cust"), (opt_eqb _ "item"),
      (args !! "id"%string) as [t|]; try reflexivity;
      destruct (Py.str_truthy t); try reflexivity;
      destruct (py_int t); reflexivity.
  - destruct (read_inward_form today f) as [i|e] eqn:Hf.
    + destruct (sqlite_int_ok (in_customer_id i)
                && sqlite_int_ok (in_item_id i)) eqn:Hr.
      * destruct (inward_post_stores today f s i Hf Hr) as (-> & _).
        now exists [new_inward (db s) i].
      * rewrite (inward_post_overflows today f s i Hf Hr). exists [].
        now rewrite app_nil_r.
    + rewrite (inward_post_rejects today f s e Hf). exists [].
      now rewrite app_nil_r.
  - destruct (read_outward_form today f) as [i|e] eqn:Hf.
    + destruct (sqlite_int_ok (out_customer_id i)
                && sqlite_int_ok (out_item_id i)) eqn:Hr.
      * destruct (outward_post_stores today f s i Hf Hr) as (-> & _).
        exists []. now rewrite app_nil_r.
      * rewrite (outward_post_overflows today f s i Hf Hr). exists [].
        now rewrite app_nil_r.
    + rewrite (outward_post_rejects today f s e Hf). exists [].
      now rewrite app_nil_r.
  - exists []. rewrite app_nil_r. unfold settings_post.
    now destruct (Py.str_truthy _).
Qed.

Lemma serve_keeps_inwards (rs : list request) (s : state) :
  exists l, inwards (db (serve rs s)) = inwards (db s) ++ l.
Proof.
  revert s. induction rs as [|r rs IH]; intros s; cbn.
  - exists []. now rewrite app_nil_r.
  - destruct (IH (handle r s)) as [l2 H2].
    destruct (handle_keeps_inwards r s) as [l1 H1].
    exists (l1 ++ l2). unfold serve in H2. rewrite H2, H1.
    now rewrite app_assoc.
Qed.

(** C5, as the code has it.  When the form parses and its ids are in
    range, the record an Inward append stores holds [qty], [rate] and
    [amt = qty * rate] (the binary64 product), each as the REAL column
    keeps it: [amt] is that product when the product is a number (10 at
    rate 5 gives 50), up to the sign of a zero, and NULL when the product
    is a NaN.  Whatever requests follow, the record stays in the journal
    as it was stored, at the same place. *)
Theorem inward_amount_is_qty_times_rate (today : date) (f : form) (s : state)
    (i : inward_input) :
  read_inward_form today f = Ok i ->
  sqlite_int_ok (in_customer_id i) && sqlite_int_ok (in_item_id i) = true ->
  let r := new_inward (db s) i in
  let product := (in_qty i * in_rate i)%float in
  inwards (db (fst (inward_post today f s))) = inwards (db s) ++ [r]
  /\ Inward.qty r = store_real (in_qty i)
  /\ Inward.rate r = store_real (in_rate i)
  /\ Inward.amt r = store_real product
  /\ (PrimFloat.is_nan product = true -> Inward.amt r = None)
  /\ (PrimFloat.is_nan product = false ->
      exists a, Inward.amt r = Some a
                /\ (a = product
                    \/ (PrimFloat.is_zero product = true
                        /\ PrimFloat.is_zero a = true)))
  /\ (in_qty i = 10%float -> in_rate i = 5%float ->
      Inward.qty r = Some 10%float /\ Inward.rate r = Some 5%float
      /\ Inward.amt r = Some 50%float)
  /\ forall rs : list request,
       let s' := serve rs (fst (inward_post today f s)) in
       In r (inwards (db s'))
       /\ exists l, inwards (db s') = inwards (db s) ++ r :: l.
Proof.
  intros Hf Hr r product. subst r product.
  destruct (inward_post_stores today f s i Hf Hr) as (Hdb & _).
  cbn [new_inward Inward.qty Inward.rate Inward.amt].
  split; [now rewrite Hdb|]. split; [reflexivity|]. split; [reflexivity|].
  split; [reflexivity|]. split; [apply store_real_nan|].
  split; [apply store_real_not_nan|]. split; [|split].
  - intros -> ->.
    split; [|split]; now apply store_real_number.
  - destruct (serve_keeps_inwards rs (fst (inward_post today f s))) as [l ->].
    rewrite Hdb. cbn. rewrite <- app_assoc. apply in_or_app. right. now left.
  - destruct (serve_keeps_inwards rs (fst (inward_post today f s))) as [l ->].
    rewrite Hdb. cbn. exists l. now rewrite <- app_assoc.
Qed.

Lemma float_field_missing (f : form) (k : string) :
  missing (f !! k) -> float_field f k = Ok 0%float.
Proof. unfold float_field. now intros [-> | ->]. Qed.

(** The zero a REAL column keeps of [0.0]. *)
Lemma store_real_of_zero :
  exists z, store_real 0%float = Some z /\ PrimFloat.is_zero z = true.
Proof. now apply store_real_zero. Qed.

(** C9, as the code has it.  When the rest of the Inward form parses and
    its ids are in range, a missing or empty [rate] is stored as a zero
    and a missing or empty [qty] likewise, and the append stores the
    record; [amt] is the product with that zero as the REAL column keeps
    it: a zero when the other factor is finite, and NULL when the other
    factor is infinite or a NaN. *)
Theorem missing_qty_rate_default_to_zero (today : date) (f : form) (s : state)
    (dt : date) (c it : Z) :
  date_field today f = Ok dt ->
  int_field f "customer_id" = Ok c ->
  int_field f "item_id" = Ok it ->
  sqlite_int_ok c && sqlite_int_ok it = true ->
  (forall q, missing (f !! "rate"%string) -> float_field f "qty" = Ok q ->
     exists r,
       inwards (db (fst (inward_post today f s))) = inwards (db s) ++ [r]
       /\ Inward.qty r = store_real q
       /\ (exists z, Inward.rate r = Some z /\ PrimFloat.is_zero z = true)
       /\ Inward.amt r = store_real (q * 0)%float
       /\ (PrimFloat.is_finite q = true ->
           exists a, Inward.amt r = Some a /\ PrimFloat.is_zero a = true)
       /\ (PrimFloat.is_finite q = false -> Inward.amt r = None))
  /\ (forall rt, missing (f !! "qty"%string) -> float_field f "rate" = Ok rt ->
        exists r,
          inwards (db (fst (inward_post today f s))) = inwards (db s) ++ [r]
          /\ (exists z, Inward.qty r = Some z /\ PrimFloat.is_zero z = true)
          /\ Inward.rate r = store_real rt
          /\ Inward.amt r = store_real (0 * rt)%float
          /\ (PrimFloat.is_finite rt = true ->
              exists a, Inward.amt r = Some a /\ PrimFloat.is_zero a = true)
          /\ (PrimFloat.is_finite rt = false -> Inward.amt r = None)).
Proof.
  intros Hd Hc Hi Hr. split.
  - intros q Hm Hq.
    pose proof (read_inward_form_ok today f dt c it q 0 Hd Hc Hi Hq
                  (float_field_missing f "rate" Hm)) as Hf.
    destruct (inward_post_stores today f s _ Hf Hr) as (Hdb & _).
    eexists. rewrite Hdb. cbn [inwards add_inward].
    split; [reflexivity|].
    cbn [new_inward Inward.qty Inward.rate Inward.amt in_qty in_rate].
    split; [reflexivity|]. split; [apply store_real_of_zero|].
    split; [reflexivity|]. split.
    + intros Hfin. apply store_real_zero. now apply float_mul_zero_r.
    + intros Hfin. apply store_real_nan. now apply float_mul_zero_r_nan.
  - intros rt Hm Hrt.
    pose proof (read_inward_form_ok today f dt c it 0 rt Hd Hc Hi
                  (float_field_missing f "qty" Hm) Hrt) as Hf.
    destruct (inward_post_stores today f s _ Hf Hr) as (Hdb & _).
    eexists. rewrite Hdb. cbn [inwards add_inward].
    split; [reflexivity|].
    cbn [new_inward Inward.qty Inward.rate Inward.amt in_qty in_rate].
    split; [apply store_real_of_zero|]. split; [reflexivity|].
    split; [reflexivity|]. split.
    + intros Hfin. apply store_real_zero. now apply float_mul_zero_l.
    + intros Hfin. apply store_real_nan. now apply float_mul_zero_l_nan.
Qed.

End JournalClaims.

Import SampleRequests.


(** A customer id of twenty digits parses, and the commit raises: nothing
    is stored. *)
Lemma append_out_of_range_example :
  read_inward_form (B:=Runtime.builtins) Sample.march_1 huge_id_form
  = Ok (InwardInput Sample.march_1 99999999999999999999 1 None 10%float 5%float)
  /\ inward_post (B:=Runtime.builtins) (R:=sqlite_reals)
       (P:=Runtime.pandas_eager) Sample.march_1 huge_id_form empty_state
     = (empty_state, Raise OverflowError).
Proof. split; vm_compute; reflexivity. Qed.

(** A challan number with a control character: the record is stored, the
    export raises, and pandas 1.2 and later leaves an empty file where the
    archive of the month should be. *)
Lemma append_control_character_example :
  let out := inward_post (B:=Runtime.builtins) (R:=sqlite_reals)
               (P:=Runtime.pandas_eager) Sample.march_1 control_char_form
               empty_state in
  snd out = Raise IllegalCharacterError
  /\ length (inwards (db (fst out))) = 1%nat
  /\ files (fst out) !! "./exports/2024-03.xlsx"%string = Some NotZip.
Proof. cbv zeta. repeat split; vm_compute; reflexivity. Qed.


Lemma inward_amount_is_qty_times_rate_witness :
  read_inward_form (B:=Runtime.builtins) Sample.march_1 ten_by_five_form
  = Ok ten_by_five_input
  /\ sqlite_int_ok 1 && sqlite_int_ok 1 = true
  /\ Inward.amt (new_inward (R:=sqlite_reals) (db empty_state) ten_by_five_input)
     = Some 50%float
  /\ In (new_inward (R:=sqlite_reals) (db empty_state) ten_by_five_input)
       (inwards (db (serve (B:=Runtime.builtins) (R:=sqlite_reals)
                       (P:=Runtime.pandas_eager)
                       [OutwardPost Sample.march_2 dispatch_form;
                        InwardPost Sample.march_2 no_rate_form]
                       (fst (inward_post (B:=Runtime.builtins)
                               (R:=sqlite_reals)
                               (P:=Runtime.pandas_eager) Sample.march_1
                               ten_by_five_form empty_state))))).
Proof.
  assert (read_inward_form (B:=Runtime.builtins) Sample.march_1 ten_by_five_form
          = Ok ten_by_five_input) as Hf by (vm_compute; reflexivity).
  split; [exact Hf|]. split; [reflexivity|].
  destruct (inward_amount_is_qty_times_rate (B:=Runtime.builtins)
              (R:=sqlite_reals)
              (P:=Runtime.pandas_eager) Sample.march_1 ten_by_five_form
              empty_state ten_by_five_input Hf eq_refl)
    as (_ & _ & _ & _ & _ & _ & Hfifty & Hkeeps).
  split.
  - exact (proj2 (proj2 (Hfifty eq_refl eq_refl))).
  - exact (proj1 (Hkeeps [OutwardPost Sample.march_2 dispatch_form;
                          InwardPost Sample.march_2 no_rate_form])).
Defined.

(** With [qty=inf] and [rate=0] the append returns and the record holds
    an infinite quantity, rate 0 and no amount at all: the product is a
    NaN, which the table holds as NULL. *)
Lemma amount_of_nan_product_counterexample :
  let out := inward_post (B:=Runtime.builtins) (R:=sqlite_reals)
               (P:=Runtime.pandas_eager)
               Sample.march_1 inf_by_zero_form empty_state in
  let r := Inward.Build 1 Sample.march_1 1 1 None (Some PrimFloat.infinity)
             (Some 0%float) None in
  snd out = Ok r
  /\ inwards (db (fst out)) = [r]
  /\ ~ (exists a q rt,
          Inward.amt r = Some a /\ Inward.qty r = Some q
          /\ Inward.rate r = Some rt /\ a = (q * rt)%float).
Proof.
  cbv zeta. split; [vm_compute; reflexivity|].
  split; [vm_compute; reflexivity|].
  intros (a & q & rt & Ha & _). discriminate Ha.
Qed.

Lemma missing_qty_rate_default_to_zero_witness :
  date_field (B:=Runtime.builtins) Sample.march_1 no_rate_form = Ok Sample.march_1
  /\ int_field (B:=Runtime.builtins) no_rate_form "customer_id" = Ok 1
  /\ int_field (B:=Runtime.builtins) no_rate_form "item_id" = Ok 1
  /\ sqlite_int_ok 1 && sqlite_int_ok 1 = true
  /\ missing (no_rate_form !! "rate"%string)
  /\ float_field (B:=Runtime.builtins) no_rate_form "qty" = Ok 10%float
  /\ exists r,
       inwards (db (fst (inward_post (B:=Runtime.builtins) (R:=sqlite_reals)
                           (P:=Runtime.pandas_eager) Sample.march_1
                           no_rate_form empty_state)))
       = inwards (db empty_state) ++ [r]
       /\ (exists z, Inward.rate r = Some z /\ PrimFloat.is_zero z = true)
       /\ (exists a, Inward.amt r = Some a /\ PrimFloat.is_zero a = true).
Proof.
  assert (date_field (B:=Runtime.builtins) Sample.march_1 no_rate_form
          = Ok Sample.march_1) as Hd by (vm_compute; reflexivity).
  assert (int_field (B:=Runtime.builtins) no_rate_form "customer_id" = Ok 1)
    as Hc by (vm_compute; reflexivity).
  assert (int_field (B:=Runtime.builtins) no_rate_form "item_id" = Ok 1)
    as Hi by (vm_compute; reflexivity).
  assert (sqlite_int_ok 1 && sqlite_int_ok 1 = true) as Hr by reflexivity.
  assert (missing (no_rate_form !! "rate"%string)) as Hm
    by (right; vm_compute; reflexivity).
  assert (float_field (B:=Runtime.builtins) no_rate_form "qty" = Ok 10%float)
    as Hq by (vm_compute; reflexivity).
  repeat (split; [assumption|]).
  destruct (proj1 (missing_qty_rate_default_to_zero (B:=Runtime.builtins)
                     (R:=sqlite_reals)
                     (P:=Runtime.pandas_eager) Sample.march_1 no_rate_form
                     empty_state Sample.march_1 1 1 Hd Hc Hi Hr) 10%float Hm Hq)
    as (r & Hstored & _ & Hrate & _ & Hamt & _).
  exists r. split; [exact Hstored|]. split; [exact Hrate|].
  apply Hamt. reflexivity.
Defined.

(** With [qty=inf] and no rate the append stores [rate = 0.0] and no
    amount (NULL): the amount is not 0.  And with no [customer_id] in the
    form the append of a form without rate does not succeed: the handler
    raises and stores nothing. *)
Lemma missing_rate_amount_counterexample :
  let out := inward_post (B:=Runtime.builtins) (R:=sqlite_reals)
               (P:=Runtime.pandas_eager)
               Sample.march_1 inf_qty_form empty_state in
  let r := Inward.Build 1 Sample.march_1 1 1 None (Some PrimFloat.infinity)
             (Some 0%float) None in
  missing (inf_qty_form !! "rate"%string)
  /\ snd out = Ok r
  /\ inwards (db (fst out)) = [r]
  /\ ~ (exists a, Inward.amt r = Some a /\ PrimFloat.is_zero a = true)
  /\ missing (no_customer_form !! "rate"%string)
  /\ inward_post (B:=Runtime.builtins) (R:=sqlite_reals)
       (P:=Runtime.pandas_eager) Sample.march_1 no_customer_form empty_state
     = (empty_state, Raise BadRequestKeyError).
Proof.
  cbv zeta. split; [left; vm_compute; reflexivity|].
  split; [vm_compute; reflexivity|]. split; [vm_compute; reflexivity|].
  split; [intros (a & Ha & _); discriminate Ha|].
  split; [left; vm_compute; reflexivity|].
  vm_compute. reflexivity.
Qed.

(* ================================================================== *)
(** * The monthly archive: what a write does to the sibling sheet *)

Section Archive.

Context `{P : Pandas}.

Lemma dict_get_set_eq {V : Type} (d : list (string * V)) (k : string) (v : V) :
  dict_get (dict_set d k v) k = Some v.
Proof.
  induction d as [|[k' v'] d IH]; cbn.
  - now rewrite String.eqb_refl.
  - destruct (String.eqb k' k) eqn:E; cbn.
    + now rewrite String.eqb_refl.
    + now rewrite E.
Qed.

Lemma dict_get_set_ne {V : Type} (d : list (string * V)) (k k' : string) (v : V) :
  k <> k' -> dict_get (dict_set d k v) k' = dict_get d k'.
Proof.
  intros Hne. induction d as [|[k0 v0] d IH]; cbn.
  - now apply String.eqb_neq in Hne as ->.
  - destruct (String.eqb k0 k) eqn:E; cbn.
    + apply String.eqb_eq in E as ->.
      now apply String.eqb_neq in Hne as ->.
    + now rewrite IH.
Qed.

Lemma other_sheet_of_ne (sheet : string) : sheet <> other_sheet_of sheet.
Proof.
  unfold other_sheet_of. destruct (String.eqb_spec sheet "Outward") as [-> | H].
  - discriminate.
  - exact H.
Qed.

(** [append_row_to_sheet] in one equation: it raises what the first read
    raises, with nothing touched; it raises on an illegal cell of the frame
    to write, with the file as the constructor of the writer left it; else
    it replaces the file by the sibling it has written, if any, and the
    target sheet. *)
Lemma append_row_to_sheet_eq (fs : filesystem) (month_file sheet_name : string)
    (row : row_dict) :
  append_row_to_sheet fs month_file sheet_name row
  = match sheet_with_row fs month_file sheet_name row with
    | Raise e => (fs, Raise e)
    | Ok df =>
        if DataFrame.legal df
        then (<[month_file :=
                  Xlsx (sibling_written fs month_file sheet_name
                        ++ [(sheet_name, read_back df)])]> fs, Ok tt)
        else ((if writer_truncates then <[month_file := NotZip]> fs else fs),
              Raise IllegalCharacterError)
    end.
Proof.
  unfold append_row_to_sheet, sibling_written.
  destruct (sheet_with_row fs month_file sheet_name row) as [df|e];
    [|reflexivity].
  unfold ExcelWriter.open.
  destruct writer_truncates.
  - unfold path_exists, read_excel. rewrite lookup_insert_eq.
    unfold ExcelWriter.to_excel, ExcelWriter.close.
    destruct (DataFrame.legal df); cbn; [|reflexivity].
    now rewrite insert_insert_eq.
  - assert ((if path_exists fs month_file
             then match read_excel fs month_file (other_sheet_of sheet_name) with
                  | Ok other_df =>
                      fst (ExcelWriter.to_excel (ExcelWriter.Build month_file [])
                             (other_sheet_of sheet_name) other_df)
                  | Raise _ => ExcelWriter.Build month_file []
                  end
             else ExcelWriter.Build month_file [])
            = ExcelWriter.Build month_file
                match read_excel fs month_file (other_sheet_of sheet_name) with
                | Ok other_df =>
                    [(other_sheet_of sheet_name,
                      if DataFrame.legal other_df then read_back other_df
                      else partial_sheet other_df)]
                | Raise _ => []
                end) as ->.
    { unfold path_exists, read_excel.
      destruct (fs !! month_file) as [[wb| |]|]; try reflexivity.
      destruct (dict_get wb (other_sheet_of sheet_name)) as [odf|];
        [|reflexivity].
      unfold ExcelWriter.to_excel. now destruct (DataFrame.legal odf). }
    unfold ExcelWriter.to_excel, ExcelWriter.close.
    destruct (DataFrame.legal df); reflexivity.
Qed.

(** What a write that returns has done. *)
Lemma append_row_to_sheet_ok_inv (fs fs' : filesystem)
    (month_file sheet_name : string) (row : row_dict) :
  append_row_to_sheet fs month_file sheet_name row = (fs', Ok tt) ->
  exists df,
    sheet_with_row fs month_file sheet_name row = Ok df
    /\ DataFrame.legal df = true
    /\ fs' = <[month_file :=
                 Xlsx (sibling_written fs month_file sheet_name
                       ++ [(sheet_name, read_back df)])]> fs.
Proof.
  rewrite append_row_to_sheet_eq.
  destruct (sheet_with_row fs month_file sheet_name row) as [df|e];
    [|discriminate].
  destruct (DataFrame.legal df) eqn:Hl; [|discriminate].
  intros [= <-]. now exists df.
Qed.

Lemma dict_get_app_singleton {V : Type} (l : list (string * V)) (k k' : string)
    (v : V) :
  dict_get (l ++ [(k, v)]) k'
  = match dict_get l k' with
    | Some x => Some x
    | None => if String.eqb k k' then Some v else None
    end.
Proof.
  induction l as [|[k0 v0] l IH]; cbn; [reflexivity|].
  destruct (String.eqb k0 k'); [reflexivity | exact IH].
Qed.

Lemma sibling_written_other (fs : filesystem) (month_file sheet_name : string)
    (name : string) :
  name <> other_sheet_of sheet_name ->
  dict_get (sibling_written fs month_file sheet_name) name = None.
Proof.
  intros Hne. unfold sibling_written.
  destruct writer_truncates; [reflexivity|].
  destruct (read_excel fs month_file (other_sheet_of sheet_name)); [|reflexivity].
  cbn. destruct (String.eqb_spec (other_sheet_of sheet_name) name);
    [congruence | reflexivity].
Qed.

(** The frame [sheet_with_row] gives, by what the sheet reads as. *)
Lemma sheet_with_row_ok (fs : filesystem) (month_file sheet_name : string)
    (row : row_dict) (df : DataFrame.t) :
  sheet_with_row fs month_file sheet_name row = Ok df ->
  df = match read_excel fs month_file sheet_name with
       | Ok existing => DataFrame.concat existing (DataFrame.of_row row)
       | Raise _ => DataFrame.of_row row
       end.
Proof.
  unfold sheet_with_row, path_exists, read_excel.
  destruct (fs !! month_file) as [[wb| |]|]; cbn; try congruence.
  destruct (dict_get wb sheet_name); cbn; congruence.
Qed.

(** What a write that returns leaves behind. *)
Lemma append_row_to_sheet_writes (fs fs' : filesystem)
    (month_file sheet_name : string) (row : row_dict) :
  append_row_to_sheet fs month_file sheet_name row = (fs', Ok tt) ->
  read_excel fs' month_file sheet_name
  = Ok (read_back
          (match read_excel fs month_file sheet_name with
           | Ok existing => DataFrame.concat existing (DataFrame.of_row row)
           | Raise _ => DataFrame.of_row row
           end))
  /\ forall q, q <> month_file -> fs' !! q = fs !! q.
Proof.
  intros H. apply append_row_to_sheet_ok_inv in H as (df & Hdf & _ & ->).
  apply sheet_with_row_ok in Hdf as <-. split.
  - unfold read_excel at 1. rewrite lookup_insert_eq.
    rewrite dict_get_app_singleton, sibling_written_other
      by apply other_sheet_of_ne.
    now rewrite String.eqb_refl.
  - intros q Hq. now rewrite lookup_insert_ne.
Qed.

Lemma dict_get_written (sheets_dict : workbook) (name : string) :
  snd (written sheets_dict) = Ok tt ->
  dict_get (fst (written sheets_dict)) name
  = option_map read_back (dict_get sheets_dict name).
Proof.
  induction sheets_dict as [|[n df] rest IH]; cbn; [reflexivity|].
  destruct (DataFrame.legal df); cbn; [|discriminate].
  intros H. destruct (String.eqb n name); [reflexivity | now apply IH].
Qed.

(** [write_sheets] adds to the book what [written] tells. *)
Lemma write_sheets_eq (w : ExcelWriter.t) (sheets_dict : workbook) :
  write_sheets w sheets_dict
  = (ExcelWriter.Build (ExcelWriter.path w)
       (ExcelWriter.book w ++ fst (written sheets_dict)),
     snd (written sheets_dict)).
Proof.
  revert w. induction sheets_dict as [|[n df] rest IH]; intros w; cbn.
  - rewrite app_nil_r. now destruct w.
  - unfold ExcelWriter.to_excel. destruct (DataFrame.legal df); cbn.
    + rewrite IH. cbn. now rewrite <- app_assoc.
    + reflexivity.
Qed.

(** [write_workbook_sheets] replaces the file by the sheets written, also
    when a write raised. *)
Lemma write_workbook_sheets_eq (fs : filesystem) (filepath : string)
    (sheets_dict : workbook) :
  write_workbook_sheets fs filepath sheets_dict
  = (<[filepath := Xlsx (fst (written sheets_dict))]> fs,
     snd (written sheets_dict)).
Proof.
  unfold write_workbook_sheets, ExcelWriter.open.
  rewrite write_sheets_eq. unfold ExcelWriter.close. cbn.
  destruct writer_truncates; [now rewrite insert_insert_eq | reflexivity].
Qed.

Lemma append_row_to_month_file_eq (fs : filesystem) (export_dir : string)
    (date_obj : date) (sheet_name : string) (row : row_dict) :
  let filepath := month_filename_for date_obj export_dir in
  let sheets := sheets_with_row fs filepath sheet_name row in
  append_row_to_month_file fs export_dir date_obj sheet_name row
  = (<[filepath := Xlsx (fst (written sheets))]> fs,
     match snd (written sheets) with
     | Ok _ => Ok filepath
     | Raise e => Raise e
     end).
Proof.
  intros filepath sheets. unfold append_row_to_month_file.
  fold filepath. fold sheets. rewrite write_workbook_sheets_eq.
  now destruct (snd (written sheets)).
Qed.

(** The sheets [append_row_to_month_file] writes, sheet by sheet. *)
Lemma sheets_with_row_other (fs : filesystem) (filepath sheet_name : string)
    (row : row_dict) :
  dict_get (sheets_with_row fs filepath sheet_name row)
    (other_sheet_of sheet_name)
  = Some (default DataFrame.empty_frame
            (dict_get (load_sheets fs filepath) (other_sheet_of sheet_name))).
Proof.
  unfold sheets_with_row.
  pose proof (other_sheet_of_ne sheet_name) as Hne.
  set (sheets := load_sheets fs filepath).
  set (sheets1 := match dict_get sheets sheet_name with
                  | Some df => _ | None => _ end).
  assert (dict_get sheets1 (other_sheet_of sheet_name)
          = dict_get sheets (other_sheet_of sheet_name)) as H1.
  { subst sheets1. destruct (dict_get sheets sheet_name) as [df|];
      [destruct (negb (DataFrame.empty df))|]; now apply dict_get_set_ne. }
  destruct (dict_get sheets1 (other_sheet_of sheet_name)) as [x|] eqn:E.
  - rewrite E. now rewrite <- H1.
  - rewrite dict_get_set_eq. now rewrite <- H1.
Qed.

Lemma sheets_with_row_target (fs : filesystem) (filepath sheet_name : string)
    (row : row_dict) :
  dict_get (sheets_with_row fs filepath sheet_name row) sheet_name
  = Some (match dict_get (load_sheets fs filepath) sheet_name with
          | Some df =>
              if DataFrame.empty df then DataFrame.of_row row
              else DataFrame.concat df (DataFrame.of_row row)
          | None => DataFrame.of_row row
          end).
Proof.
  unfold sheets_with_row.
  pose proof (other_sheet_of_ne sheet_name) as Hne.
  set (sheets := load_sheets fs filepath).
  set (sheets1 := match dict_get sheets sheet_name with
                  | Some df => _ | None => _ end).
  assert (dict_get sheets1 sheet_name
          = Some (match dict_get sheets sheet_name with
                  | Some df =>
                      if DataFrame.empty df then DataFrame.of_row row
                      else DataFrame.concat df (DataFrame.of_row row)
                  | None => DataFrame.of_row row
                  end)) as H1.
  { subst sheets1. destruct (dict_get sheets sheet_name) as [df|];
      [destruct (DataFrame.empty df)|]; cbn; apply dict_get_set_eq. }
  destruct (dict_get sheets1 (other_sheet_of sheet_name)); [exact H1|].
  rewrite dict_get_set_ne by congruence. exact H1.
Qed.

Lemma sheets_with_row_foreign (fs : filesystem) (filepath sheet_name : string)
    (row : row_dict) (name : string) :
  name <> sheet_name -> name <> other_sheet_of sheet_name ->
  dict_get (sheets_with_row fs filepath sheet_name row) name
  = dict_get (load_sheets fs filepath) name.
Proof.
  intros Hn1 Hn2. unfold sheets_with_row.
  set (sheets := load_sheets fs filepath).
  set (sheets1 := match dict_get sheets sheet_name with
                  | Some df => _ | None => _ end).
  assert (dict_get sheets1 name = dict_get sheets name) as H1.
  { subst sheets1. destruct (dict_get sheets sheet_name) as [df|];
      [destruct (negb (DataFrame.empty df))|];
      apply dict_get_set_ne; congruence. }
  destruct (dict_get sheets1 (other_sheet_of sheet_name)); [exact H1|].
  rewrite dict_get_set_ne by congruence. exact H1.
Qed.

(** What a call of [append_row_to_month_file] that returns has done. *)
Lemma append_row_to_month_file_ok_inv (fs fs' : filesystem)
    (export_dir : string) (date_obj : date) (sheet_name : string)
    (row : row_dict) (path : string) :
  let filepath := month_filename_for date_obj export_dir in
  let sheets := sheets_with_row fs filepath sheet_name row in
  append_row_to_month_file fs export_dir date_obj sheet_name row
  = (fs', Ok path) ->
  path = filepath
  /\ snd (written sheets) = Ok tt
  /\ fs' = <[filepath := Xlsx (fst (written sheets))]> fs.
Proof.
  intros filepath sheets. rewrite append_row_to_month_file_eq.
  fold filepath. fold sheets.
  destruct (snd (written sheets)) as [[]|e]; [|discriminate].
  now intros [= <- <-].
Qed.

(** X6.  When [append_row_to_month_file] of streamlit_erp.py returns, the
    sibling sheet of an archive holds what the old sibling sheet reads back
    as after one more write, an archive that had no sibling has an empty
    one, and the target sheet holds the old target sheet with the row at
    its end. *)
Lemma append_row_to_month_file_keeps_sibling (fs fs' : filesystem)
    (export_dir : string) (date_obj : date) (sheet_name : string)
    (row : row_dict) (wb : workbook) (path : string) :
  let filepath := month_filename_for date_obj export_dir in
  let other := other_sheet_of sheet_name in
  fs !! filepath = Some (Xlsx wb) ->
  append_row_to_month_file fs export_dir date_obj sheet_name row
  = (fs', Ok path) ->
  path = filepath
  /\ (forall df, dict_get wb other = Some df ->
        read_excel fs' filepath other = Ok (read_back df))
  /\ (dict_get wb other = None ->
      read_excel fs' filepath other = Ok (read_back DataFrame.empty_frame))
  /\ (forall df, dict_get wb sheet_name = Some df -> DataFrame.empty df = false ->
        read_excel fs' filepath sheet_name
        = Ok (read_back (DataFrame.concat df (DataFrame.of_row row)))).
Proof.
  intros filepath other Hfs H.
  apply append_row_to_month_file_ok_inv in H as (-> & Hw & ->).
  fold filepath in Hw |- *.
  assert (load_sheets fs filepath = wb) as Hload
    by (unfold load_sheets; now rewrite Hfs).
  split; [reflexivity|].
  unfold read_excel. rewrite lookup_insert_eq.
  rewrite !(dict_get_written _ _ Hw).
  rewrite sheets_with_row_other, sheets_with_row_target, Hload.
  fold other. repeat split.
  - now intros df ->.
  - now intros ->.
  - now intros df -> ->.
Qed.

End Archive.

(** X4.  [append_row_to_sheet] of erp_app.py under a pandas whose writer opens
    its file eagerly: the archive is empty by the time the sibling sheet is
    read back, so after every write the sibling sheet is gone. *)
Lemma append_row_to_sheet_eager_drops_sibling (fs fs' : filesystem)
    (month_file sheet_name : string) (row : row_dict) :
  append_row_to_sheet (P:=Runtime.pandas_eager) fs month_file sheet_name row
  = (fs', Ok tt) ->
  exists df, fs' !! month_file = Some (Xlsx [(sheet_name, df)])
  /\ read_excel fs' month_file (other_sheet_of sheet_name) = Raise ValueError.
Proof.
  intros H.
  apply (append_row_to_sheet_ok_inv (P:=Runtime.pandas_eager)) in H
    as (df & _ & _ & ->).
  exists (read_back (Pandas:=Runtime.pandas_eager) df).
  unfold read_excel. rewrite lookup_insert_eq.
  split; [reflexivity|]. cbn.
  pose proof (other_sheet_of_ne sheet_name) as Hne.
  now apply String.eqb_neq in Hne as ->.
Qed.

(** X5.  Under a pandas whose writer opens its file on [close()], a call of
    the same function that returns has written the sibling sheet back when
    the archive had one (as that sheet reads back after one more write,
    when all its cells are legal), and has made none when it had not. *)
Lemma append_row_to_sheet_lazy_sibling (fs fs' : filesystem)
    (month_file sheet_name : string) (row : row_dict) (wb : workbook) :
  fs !! month_file = Some (Xlsx wb) ->
  append_row_to_sheet (P:=Runtime.pandas_lazy) fs month_file sheet_name row
  = (fs', Ok tt) ->
  read_excel fs' month_file (other_sheet_of sheet_name)
  = match dict_get wb (other_sheet_of sheet_name) with
    | Some df =>
        Ok (if DataFrame.legal df
            then read_back (Pandas:=Runtime.pandas_lazy) df
            else partial_sheet (Pandas:=Runtime.pandas_lazy) df)
    | None => Raise ValueError
    end.
Proof.
  intros Hfs H.
  apply (append_row_to_sheet_ok_inv (P:=Runtime.pandas_lazy)) in H
    as (df & _ & _ & ->).
  pose proof (other_sheet_of_ne sheet_name) as Hne.
  apply String.eqb_neq in Hne.
  unfold read_excel at 1. rewrite lookup_insert_eq.
  unfold sibling_written, read_excel. cbn [writer_truncates Runtime.pandas_lazy].
  rewrite Hfs.
  destruct (dict_get wb (other_sheet_of sheet_name)) as [odf|]; cbn.
  - now rewrite String.eqb_refl.
  - now rewrite Hne.
Qed.

(** C2 fails on [append_row_to_sheet] of erp_app.py.  An Inward append
    for March 2024 makes the archive with one Inward row; an Outward append
    for the same month then leaves the archive with the Outward sheet
    alone: the Inward sheet is lost.  (With a pandas that opens the file
    only on [close()] the Inward sheet survives, and the first append has
    made no Outward sheet.) *)
Theorem append_row_to_sheet_loses_sibling :
  let p := "./exports/2024-03.xlsx"%string in
  let s1 := fst (inward_post (B:=Runtime.builtins) (R:=sqlite_reals)
                   (P:=Runtime.pandas_eager)
                   Sample.march_1 ten_by_five_form empty_state) in
  let s2 := fst (outward_post (B:=Runtime.builtins) (R:=sqlite_reals)
                   (P:=Runtime.pandas_eager)
                   Sample.march_2 dispatch_form s1) in
  let t1 := fst (inward_post (B:=Runtime.builtins) (R:=sqlite_reals)
                   (P:=Runtime.pandas_lazy)
                   Sample.march_1 ten_by_five_form empty_state) in
  (exists df, read_excel (files s1) p "Inward" = Ok df
              /\ length (DataFrame.rows df) = 1%nat)
  /\ (exists df, files s2 !! p = Some (Xlsx [("Outward"%string, df)]))
  /\ read_excel (files s2) p "Inward" = Raise ValueError
  /\ read_excel (files t1) p "Outward" = Raise ValueError.
Proof.
  cbv zeta. split; [|split; [|split]].
  - eexists. split; vm_compute; reflexivity.
  - eexists. vm_compute. reflexivity.
  - vm_compute. reflexivity.
  - vm_compute. reflexivity.
Qed.

(* ================================================================== *)
(** * More on the monthly archive *)

Section ArchiveWrites.

Context `{P : Pandas}.

(** X1.  When [append_row_to_sheet] returns, the target sheet reads as the
    old target sheet with the row at its end, written once more (as the
    row alone when there was no such sheet to read), and no other file has
    changed.  It returns when the month has no file yet, or a zip archive
    that is no workbook in its place, and the row has no illegal cell; the
    file then holds the target sheet alone (for the sheets [Inward] and
    [Outward], which are those the program appends to). *)
Theorem sheet_append_lands_at_end (fs : filesystem)
    (month_file sheet_name : string) (row : row_dict) :
  (forall fs',
     append_row_to_sheet fs month_file sheet_name row = (fs', Ok tt) ->
     read_excel fs' month_file sheet_name
     = Ok (read_back
             (match read_excel fs month_file sheet_name with
              | Ok existing => DataFrame.concat existing (DataFrame.of_row row)
              | Raise _ => DataFrame.of_row row
              end))
     /\ forall q, q <> month_file -> fs' !! q = fs !! q)
  /\ (movement_sheet sheet_name ->
      fs !! month_file = None \/ fs !! month_file = Some ZipNoWorkbook ->
      DataFrame.legal (DataFrame.of_row row) = true ->
      append_row_to_sheet fs month_file sheet_name row
      = (<[month_file := Xlsx [(sheet_name, read_back (DataFrame.of_row row))]]> fs,
         Ok tt)).
Proof.
  split; [intros fs'; apply append_row_to_sheet_writes|].
  intros _ Hfs Hl. rewrite append_row_to_sheet_eq.
  unfold sheet_with_row, sibling_written, path_exists, read_excel.
  destruct Hfs as [-> | ->]; rewrite Hl; now destruct writer_truncates.
Qed.

(** X2.  Two ways [append_row_to_sheet] raises.  A month file that is no
    zip archive makes the first read raise [BadZipFile], which is not
    caught: nothing is written.  An illegal cell in the frame to write
    raises [IllegalCharacterError] before the writer is closed: the file
    is left as the constructor of the writer left it, truncated under
    pandas 1.2 and later. *)
Theorem sheet_append_raises (fs : filesystem)
    (month_file sheet_name : string) (row : row_dict) :
  movement_sheet sheet_name ->
  (fs !! month_file = Some NotZip ->
   append_row_to_sheet fs month_file sheet_name row = (fs, Raise BadZipFile))
  /\ (forall df,
        sheet_with_row fs month_file sheet_name row = Ok df ->
        DataFrame.legal df = false ->
        append_row_to_sheet fs month_file sheet_name row
        = ((if writer_truncates then <[month_file := NotZip]> fs else fs),
           Raise IllegalCharacterError))
  /\ (fs !! month_file = None ->
      DataFrame.legal (DataFrame.of_row row) = false ->
      writer_truncates = true ->
      append_row_to_sheet fs month_file sheet_name row
      = (<[month_file := NotZip]> fs, Raise IllegalCharacterError)).
Proof.
  intros _. split; [|split].
  - intros H. rewrite append_row_to_sheet_eq.
    unfold sheet_with_row, path_exists, read_excel. now rewrite H.
  - intros df Hdf Hl. rewrite append_row_to_sheet_eq. now rewrite Hdf, Hl.
  - intros H Hl Ht. rewrite append_row_to_sheet_eq.
    unfold sheet_with_row, path_exists. now rewrite H, Hl, Ht.
Qed.

End ArchiveWrites.

Lemma sheet_append_lands_at_end_witness :
  append_row_to_sheet (P:=Runtime.pandas_lazy) SampleArchive.inward_only
    SampleArchive.march_file "Inward" SampleArchive.dispatch_row
  = (<[SampleArchive.march_file :=
         Xlsx [("Inward"%string,
                DataFrame.Build ["entry_date"; "customer_name"; "qty"]%string
                  [SampleArchive.receipt_row; SampleArchive.dispatch_row])]]>
       SampleArchive.inward_only, Ok tt)
  /\ read_excel
       (<[SampleArchive.march_file :=
            Xlsx [("Inward"%string,
                   DataFrame.Build ["entry_date"; "customer_name"; "qty"]%string
                     [SampleArchive.receipt_row; SampleArchive.dispatch_row])]]>
          SampleArchive.inward_only)
       SampleArchive.march_file "Inward"
     = Ok (read_back (Pandas:=Runtime.pandas_lazy)
             (DataFrame.concat (DataFrame.of_row SampleArchive.receipt_row)
                (DataFrame.of_row SampleArchive.dispatch_row))).
Proof.
  assert (append_row_to_sheet (P:=Runtime.pandas_lazy) SampleArchive.inward_only
            SampleArchive.march_file "Inward" SampleArchive.dispatch_row
          = (<[SampleArchive.march_file :=
                 Xlsx [("Inward"%string,
                        DataFrame.Build
                          ["entry_date"; "customer_name"; "qty"]%string
                          [SampleArchive.receipt_row;
                           SampleArchive.dispatch_row])]]>
               SampleArchive.inward_only, Ok tt)) as H
    by (vm_compute; reflexivity).
  split; [exact H|].
  exact (proj1 (proj1 (sheet_append_lands_at_end (P:=Runtime.pandas_lazy)
                         SampleArchive.inward_only SampleArchive.march_file
                         "Inward" SampleArchive.dispatch_row) _ H)).
Defined.

(** A zip archive that is no workbook is replaced by the new workbook. *)
Lemma sheet_append_replaces_other_zip :
  append_row_to_sheet (P:=Runtime.pandas_eager) SampleArchive.other_zip
    SampleArchive.march_file "Inward" SampleArchive.receipt_row
  = (SampleArchive.inward_only, Ok tt).
Proof. vm_compute. reflexivity. Qed.

(** The row with a control character: pandas 1.2 and later leaves an empty
    file where the month file should be. *)
Lemma sheet_append_raises_witness :
  movement_sheet "Outward"
  /\ (∅ : filesystem) !! SampleArchive.march_file = None
  /\ DataFrame.legal (DataFrame.of_row SampleArchive.control_char_row) = false
  /\ append_row_to_sheet (P:=Runtime.pandas_eager) ∅ SampleArchive.march_file
       "Outward" SampleArchive.control_char_row
     = ({[ SampleArchive.march_file := NotZip ]}, Raise IllegalCharacterError)
  /\ append_row_to_sheet (P:=Runtime.pandas_eager) SampleArchive.broken
       SampleArchive.march_file "Outward" SampleArchive.dispatch_row
     = (SampleArchive.broken, Raise BadZipFile).
Proof.
  assert (DataFrame.legal (DataFrame.of_row SampleArchive.control_char_row)
          = false) as Hl by (vm_compute; reflexivity).
  destruct (sheet_append_raises (P:=Runtime.pandas_eager) ∅
              SampleArchive.march_file "Outward" SampleArchive.control_char_row
              (or_intror eq_refl))
    as (_ & _ & Hchar).
  destruct (sheet_append_raises (P:=Runtime.pandas_eager) SampleArchive.broken
              SampleArchive.march_file "Outward" SampleArchive.dispatch_row
              (or_intror eq_refl))
    as (Hzip & _).
  split; [exact (or_intror eq_refl)|].
  split; [reflexivity|]. split; [exact Hl|]. split.
  - exact (Hchar eq_refl Hl eq_refl).
  - apply Hzip. vm_compute. reflexivity.
Defined.

Lemma append_row_to_sheet_eager_drops_sibling_witness :
  exists fs' df,
    append_row_to_sheet (P:=Runtime.pandas_eager) SampleArchive.three_sheets
      SampleArchive.march_file "Outward" SampleArchive.dispatch_row
    = (fs', Ok tt)
    /\ fs' !! SampleArchive.march_file = Some (Xlsx [("Outward"%string, df)])
    /\ read_excel fs' SampleArchive.march_file "Inward" = Raise ValueError.
Proof.
  assert (exists fs',
             append_row_to_sheet (P:=Runtime.pandas_eager)
               SampleArchive.three_sheets SampleArchive.march_file "Outward"
               SampleArchive.dispatch_row = (fs', Ok tt)) as [fs' Hfs]
    by (eexists; vm_compute; reflexivity).
  destruct (append_row_to_sheet_eager_drops_sibling _ fs' _ _ _ Hfs)
    as (df & Hfile & Hsib).
  exists fs', df. repeat split; assumption.
Defined.

Lemma append_row_to_sheet_lazy_sibling_witness :
  SampleArchive.three_sheets !! SampleArchive.march_file
  = Some (Xlsx [("Inward"%string, DataFrame.of_row SampleArchive.receipt_row);
                ("Notes"%string, DataFrame.of_row [("text", CStr "checked")]%string);
                ("Outward"%string, DataFrame.Build ["qty"%string] [])])
  /\ exists fs',
       append_row_to_sheet (P:=Runtime.pandas_lazy) SampleArchive.three_sheets
         SampleArchive.march_file "Outward" SampleArchive.dispatch_row
       = (fs', Ok tt)
       /\ read_excel fs' SampleArchive.march_file "Inward"
          = Ok (DataFrame.of_row SampleArchive.receipt_row).
Proof.
  assert (SampleArchive.three_sheets !! SampleArchive.march_file
          = Some (Xlsx [("Inward"%string, DataFrame.of_row SampleArchive.receipt_row);
                        ("Notes"%string,
                         DataFrame.of_row [("text", CStr "checked")]%string);
                        ("Outward"%string, DataFrame.Build ["qty"%string] [])]))
    as H by (vm_compute; reflexivity).
  split; [exact H|].
  assert (exists fs',
             append_row_to_sheet (P:=Runtime.pandas_lazy)
               SampleArchive.three_sheets SampleArchive.march_file "Outward"
               SampleArchive.dispatch_row = (fs', Ok tt)) as [fs' Hfs]
    by (eexists; vm_compute; reflexivity).
  exists fs'. split; [exact Hfs|].
  exact (append_row_to_sheet_lazy_sibling SampleArchive.three_sheets fs'
           SampleArchive.march_file "Outward" SampleArchive.dispatch_row _ H Hfs).
Defined.

Section ArchiveSheets.

Context `{P : Pandas}.

(** X3.  [append_row_to_sheet] writes back two sheets at most: whatever
    other sheet the workbook had (one that is neither the target nor its
    sibling) is gone after the write, under either pandas. *)
Theorem sheet_append_drops_foreign_sheets (fs fs' : filesystem)
    (month_file sheet_name name : string) (row : row_dict) :
  append_row_to_sheet fs month_file sheet_name row = (fs', Ok tt) ->
  name <> sheet_name -> name <> other_sheet_of sheet_name ->
  read_excel fs' month_file name = Raise ValueError.
Proof.
  intros H Hn1 Hn2.
  apply append_row_to_sheet_ok_inv in H as (df & _ & _ & ->).
  unfold read_excel. rewrite lookup_insert_eq.
  rewrite dict_get_app_singleton, sibling_written_other by exact Hn2.
  destruct (String.eqb_spec sheet_name name); [congruence | reflexivity].
Qed.

End ArchiveSheets.

Lemma sheet_append_drops_foreign_sheets_witness :
  exists fs',
    append_row_to_sheet (P:=Runtime.pandas_lazy) SampleArchive.three_sheets
      SampleArchive.march_file "Outward" SampleArchive.dispatch_row
    = (fs', Ok tt)
    /\ read_excel SampleArchive.three_sheets SampleArchive.march_file "Notes"
       = Ok (DataFrame.of_row [("text", CStr "checked")]%string)
    /\ read_excel fs' SampleArchive.march_file "Notes" = Raise ValueError.
Proof.
  assert (exists fs',
             append_row_to_sheet (P:=Runtime.pandas_lazy)
               SampleArchive.three_sheets SampleArchive.march_file "Outward"
               SampleArchive.dispatch_row = (fs', Ok tt)) as [fs' Hfs]
    by (eexists; vm_compute; reflexivity).
  exists fs'. split; [exact Hfs|]. split; [vm_compute; reflexivity|].
  apply (sheet_append_drops_foreign_sheets (P:=Runtime.pandas_lazy)
           _ fs' _ "Outward" "Notes" _ Hfs); vm_compute; discriminate.
Defined.

Lemma append_row_to_month_file_keeps_sibling_witness :
  SampleArchive.inward_only
    !! month_filename_for Sample.march_2 "./exports"
  = Some (Xlsx [("Inward"%string, DataFrame.of_row SampleArchive.receipt_row)])
  /\ exists fs',
       append_row_to_month_file (P:=Runtime.pandas_eager)
         SampleArchive.inward_only "./exports"
         Sample.march_2 "Outward" SampleArchive.dispatch_row
       = (fs', Ok (month_filename_for Sample.march_2 "./exports"))
       /\ read_excel fs' (month_filename_for Sample.march_2 "./exports") "Inward"
          = Ok (DataFrame.of_row SampleArchive.receipt_row).
Proof.
  assert (SampleArchive.inward_only
            !! month_filename_for Sample.march_2 "./exports"
          = Some (Xlsx [("Inward"%string,
                         DataFrame.of_row SampleArchive.receipt_row)])) as H
    by (vm_compute; reflexivity).
  split; [exact H|].
  assert (exists fs',
             append_row_to_month_file (P:=Runtime.pandas_eager)
               SampleArchive.inward_only "./exports"
               Sample.march_2 "Outward" SampleArchive.dispatch_row
             = (fs', Ok (month_filename_for Sample.march_2 "./exports")))
    as [fs' Hfs] by (eexists; vm_compute; reflexivity).
  exists fs'. split; [exact Hfs|].
  destruct (append_row_to_month_file_keeps_sibling (P:=Runtime.pandas_eager)
              SampleArchive.inward_only fs'
              "./exports" Sample.march_2 "Outward" SampleArchive.dispatch_row
              _ _ H Hfs) as (_ & Hkeep & _).
  exact (Hkeep (DataFrame.of_row SampleArchive.receipt_row) eq_refl).
Defined.

Section MonthFile.

Context `{P : Pandas}.

(** X7.  When [append_row_to_month_file] returns, an archive that was
    missing or could not be read has been replaced by a new workbook with
    the one-row target sheet followed by an empty sibling sheet; and a
    target sheet that was empty has been replaced by the one-row frame,
    its old header dropped.  It returns when the month has no file yet and
    the row has no illegal cell. *)
Theorem month_file_append_starts_afresh (fs : filesystem) (export_dir : string)
    (date_obj : date) (sheet_name : string) (row : row_dict) :
  let filepath := month_filename_for date_obj export_dir in
  let fresh :=
    Xlsx [(sheet_name, read_back (DataFrame.of_row row));
          (other_sheet_of sheet_name, read_back DataFrame.empty_frame)] in
  (forall fs' path,
     append_row_to_month_file fs export_dir date_obj sheet_name row
     = (fs', Ok path) ->
     path = filepath
     /\ (fs !! filepath = None \/ fs !! filepath = Some NotZip
         \/ fs !! filepath = Some ZipNoWorkbook ->
         fs' !! filepath = Some fresh)
     /\ (forall wb df,
           fs !! filepath = Some (Xlsx wb) ->
           dict_get wb sheet_name = Some df -> DataFrame.empty df = true ->
           read_excel fs' filepath sheet_name
           = Ok (read_back (DataFrame.of_row row))))
  /\ (movement_sheet sheet_name ->
      fs !! filepath = None ->
      DataFrame.legal (DataFrame.of_row row) = true ->
      append_row_to_month_file fs export_dir date_obj sheet_name row
      = (<[filepath := fresh]> fs, Ok filepath)).
Proof.
  intros filepath fresh.
  pose proof (other_sheet_of_ne sheet_name) as Hne.
  assert (String.eqb sheet_name (other_sheet_of sheet_name) = false) as E
    by now apply String.eqb_neq.
  assert (forall x, load_sheets fs filepath = [] ->
            DataFrame.legal (DataFrame.of_row row) = x ->
            written (sheets_with_row fs filepath sheet_name row)
            = if x
              then ([(sheet_name, read_back (DataFrame.of_row row));
                     (other_sheet_of sheet_name,
                      read_back DataFrame.empty_frame)], Ok tt)
              else ([(sheet_name, partial_sheet (DataFrame.of_row row))],
                    Raise IllegalCharacterError)) as Hnew.
  { intros x Hload Hx. unfold sheets_with_row. rewrite Hload. cbn.
    rewrite E. cbn. rewrite Hx. now destruct x. }
  split.
  - intros fs' path H.
    apply append_row_to_month_file_ok_inv in H as (-> & Hw & ->).
    fold filepath in Hw |- *. split; [reflexivity|]. split.
    + intros Hfs. rewrite lookup_insert_eq.
      assert (load_sheets fs filepath = []) as Hload
        by (unfold load_sheets; destruct Hfs as [-> | [-> | ->]]; reflexivity).
      rewrite (Hnew _ Hload eq_refl) in Hw |- *.
      destruct (DataFrame.legal (DataFrame.of_row row)); [reflexivity|].
      discriminate Hw.
    + intros wb df Hfs Hdf Hempty. unfold read_excel.
      rewrite lookup_insert_eq, (dict_get_written _ _ Hw).
      rewrite sheets_with_row_target. unfold load_sheets.
      now rewrite Hfs, Hdf, Hempty.
  - intros _ Hfs Hl. rewrite append_row_to_month_file_eq. fold filepath.
    assert (load_sheets fs filepath = []) as Hload
      by (unfold load_sheets; now rewrite Hfs).
    now rewrite (Hnew _ Hload Hl).
Qed.

(** X8.  [append_row_to_month_file] touches one file, whether it returns
    or raises; and when it returns, every sheet of the archive other than
    the target and its sibling reads as it does after one more write. *)
Theorem month_file_append_frame (fs : filesystem) (export_dir : string)
    (date_obj : date) (sheet_name : string) (row : row_dict) :
  let filepath := month_filename_for date_obj export_dir in
  let out := append_row_to_month_file fs export_dir date_obj sheet_name row in
  (forall q, q <> filepath -> fst out !! q = fs !! q)
  /\ (forall wb name path,
        snd out = Ok path ->
        fs !! filepath = Some (Xlsx wb) ->
        name <> sheet_name -> name <> other_sheet_of sheet_name ->
        read_excel (fst out) filepath name
        = match dict_get wb name with
          | Some df => Ok (read_back df)
          | None => Raise ValueError
          end).
Proof.
  intros filepath out. subst out.
  rewrite append_row_to_month_file_eq. fold filepath. cbn [fst snd].
  split.
  - intros q Hq. now rewrite lookup_insert_ne.
  - intros wb name path Hok Hfs Hn1 Hn2. unfold read_excel.
    rewrite lookup_insert_eq.
    assert (snd (written (sheets_with_row fs filepath sheet_name row)) = Ok tt)
      as Hw by (destruct (snd (written _)) as [[]|]; [reflexivity | discriminate]).
    rewrite (dict_get_written _ _ Hw).
    rewrite sheets_with_row_foreign by assumption.
    unfold load_sheets. rewrite Hfs. now destruct (dict_get wb name).
Qed.

(** X24.  When a write of [append_row_to_month_file] raises, the call
    raises [IllegalCharacterError], and the file is left with the sheets
    written before, the sheet that raised written in part, and none of the
    sheets that were to follow. *)
Theorem month_file_append_raises (fs : filesystem) (export_dir : string)
    (date_obj : date) (sheet_name : string) (row : row_dict)
    (before after : workbook) (name : string) (df : DataFrame.t) :
  let filepath := month_filename_for date_obj export_dir in
  movement_sheet sheet_name ->
  sheets_with_row fs filepath sheet_name row = before ++ (name, df) :: after ->
  forallb (fun x => DataFrame.legal (snd x)) before = true ->
  DataFrame.legal df = false ->
  append_row_to_month_file fs export_dir date_obj sheet_name row
  = (<[filepath :=
         Xlsx (map (fun x => (fst x, read_back (snd x))) before
               ++ [(name, partial_sheet df)])]> fs,
     Raise IllegalCharacterError).
Proof.
  intros filepath _ Hsheets Hbefore Hdf.
  rewrite append_row_to_month_file_eq. fold filepath. rewrite Hsheets.
  clear Hsheets.
  assert (written (before ++ (name, df) :: after)
          = (map (fun x => (fst x, read_back (snd x))) before
             ++ [(name, partial_sheet df)], Raise IllegalCharacterError)) as ->.
  { induction before as [|[n x] before IH]; cbn in *.
    - now rewrite Hdf.
    - apply andb_true_iff in Hbefore as [-> Hrest]. now rewrite (IH Hrest). }
  reflexivity.
Qed.

End MonthFile.

Lemma month_file_append_starts_afresh_witness :
  SampleArchive.broken !! month_filename_for Sample.march_2 "./exports"
  = Some NotZip
  /\ exists fs',
       append_row_to_month_file (P:=Runtime.pandas_eager) SampleArchive.broken
         "./exports" Sample.march_2 "Outward" SampleArchive.dispatch_row
       = (fs', Ok (month_filename_for Sample.march_2 "./exports"))
       /\ fs' !! month_filename_for Sample.march_2 "./exports"
          = Some (Xlsx [("Outward"%string,
                         DataFrame.of_row SampleArchive.dispatch_row);
                        ("Inward"%string, DataFrame.empty_frame)]).
Proof.
  assert (SampleArchive.broken !! month_filename_for Sample.march_2 "./exports"
          = Some NotZip) as H by (vm_compute; reflexivity).
  split; [exact H|].
  assert (exists fs',
             append_row_to_month_file (P:=Runtime.pandas_eager)
               SampleArchive.broken "./exports" Sample.march_2 "Outward"
               SampleArchive.dispatch_row
             = (fs', Ok (month_filename_for Sample.march_2 "./exports")))
    as [fs' Hfs] by (eexists; vm_compute; reflexivity).
  exists fs'. split; [exact Hfs|].
  destruct (month_file_append_starts_afresh (P:=Runtime.pandas_eager)
              SampleArchive.broken "./exports"
              Sample.march_2 "Outward" SampleArchive.dispatch_row)
    as (Hret & _).
  destruct (Hret _ _ Hfs) as (_ & Hfresh & _).
  exact (Hfresh (or_intror (or_introl H))).
Defined.

Lemma month_file_append_frame_witness :
  SampleArchive.three_sheets !! month_filename_for Sample.march_2 "./exports"
  = Some (Xlsx [("Inward"%string, DataFrame.of_row SampleArchive.receipt_row);
                ("Notes"%string, DataFrame.of_row [("text", CStr "checked")]%string);
                ("Outward"%string, DataFrame.Build ["qty"%string] [])])
  /\ snd (append_row_to_month_file (P:=Runtime.pandas_eager)
            SampleArchive.three_sheets "./exports"
            Sample.march_2 "Outward" SampleArchive.dispatch_row)
     = Ok (month_filename_for Sample.march_2 "./exports")
  /\ read_excel
       (fst (append_row_to_month_file (P:=Runtime.pandas_eager)
               SampleArchive.three_sheets "./exports"
               Sample.march_2 "Outward" SampleArchive.dispatch_row))
       (month_filename_for Sample.march_2 "./exports") "Notes"
     = Ok (DataFrame.of_row [("text", CStr "checked")]%string).
Proof.
  assert (SampleArchive.three_sheets
            !! month_filename_for Sample.march_2 "./exports"
          = Some (Xlsx [("Inward"%string, DataFrame.of_row SampleArchive.receipt_row);
                        ("Notes"%string,
                         DataFrame.of_row [("text", CStr "checked")]%string);
                        ("Outward"%string, DataFrame.Build ["qty"%string] [])]))
    as H by (vm_compute; reflexivity).
  assert (snd (append_row_to_month_file (P:=Runtime.pandas_eager)
                 SampleArchive.three_sheets "./exports"
                 Sample.march_2 "Outward" SampleArchive.dispatch_row)
          = Ok (month_filename_for Sample.march_2 "./exports")) as Hok
    by (vm_compute; reflexivity).
  split; [exact H|]. split; [exact Hok|].
  destruct (month_file_append_frame (P:=Runtime.pandas_eager)
              SampleArchive.three_sheets "./exports"
              Sample.march_2 "Outward" SampleArchive.dispatch_row)
    as (_ & Hsheets).
  exact (Hsheets _ "Notes"%string _ Hok H ltac:(discriminate)
           ltac:(vm_compute; discriminate)).
Defined.

(** An Outward row with a control character, for an archive that has an
    Inward sheet: the Inward sheet is written back, the Outward sheet is
    left in part, and the call raises. *)
Lemma month_file_append_raises_witness :
  movement_sheet "Outward"
  /\ sheets_with_row SampleArchive.inward_only
    (month_filename_for Sample.march_2 "./exports") "Outward"
    SampleArchive.control_char_row
  = [("Inward"%string, DataFrame.of_row SampleArchive.receipt_row)]
    ++ ("Outward"%string, DataFrame.of_row SampleArchive.control_char_row) :: []
  /\ DataFrame.legal (DataFrame.of_row SampleArchive.control_char_row) = false
  /\ append_row_to_month_file (P:=Runtime.pandas_eager)
       SampleArchive.inward_only "./exports" Sample.march_2 "Outward"
       SampleArchive.control_char_row
     = (<[month_filename_for Sample.march_2 "./exports" :=
            Xlsx [("Inward"%string, DataFrame.of_row SampleArchive.receipt_row);
                  ("Outward"%string,
                   partial_sheet (Pandas:=Runtime.pandas_eager)
                     (DataFrame.of_row SampleArchive.control_char_row))]]>
          SampleArchive.inward_only,
        Raise IllegalCharacterError).
Proof.
  assert (sheets_with_row SampleArchive.inward_only
            (month_filename_for Sample.march_2 "./exports") "Outward"
            SampleArchive.control_char_row
          = [("Inward"%string, DataFrame.of_row SampleArchive.receipt_row)]
            ++ ("Outward"%string,
                DataFrame.of_row SampleArchive.control_char_row) :: [])
    as Hs by (vm_compute; reflexivity).
  assert (DataFrame.legal (DataFrame.of_row SampleArchive.control_char_row)
          = false) as Hl by (vm_compute; reflexivity).
  split; [exact (or_intror eq_refl)|]. split; [exact Hs|]. split; [exact Hl|].
  exact (month_file_append_raises (P:=Runtime.pandas_eager)
           SampleArchive.inward_only "./exports" Sample.march_2 "Outward"
           SampleArchive.control_char_row _ _ _ _ (or_intror eq_refl)
           Hs eq_refl Hl).
Defined.

(* ================================================================== *)
(** * One archive per month *)

Section MonthFileName.

Lemma pretty_N_char_digit (x : N) : is_digit (pretty_N_char x) = true.
Proof. unfold pretty_N_char. repeat case_match; reflexivity. Qed.

Lemma pretty_N_go_digits (x : N) (s : string) :
  digits_only s = true -> digits_only (pretty_N_go x s) = true.
Proof.
  revert s. induction (N.lt_wf_0 x) as [x _ IH]; intros s Hs.
  destruct (N.eq_dec x 0%N) as [-> | Hx].
  - now rewrite pretty_N_go_0.
  - rewrite pretty_N_go_step by lia. apply IH.
    + apply N.div_lt; lia.
    + cbn. now rewrite pretty_N_char_digit.
Qed.

Lemma pretty_Z_digits (n : Z) : 0 <= n -> digits_only (pretty n) = true.
Proof.
  destruct n as [|p|p]; intros H; [reflexivity| |lia].
  unfold pretty, pretty_Z, pretty, pretty_positive, pretty, pretty_N.
  destruct (decide (N.pos p = 0%N)); [reflexivity|].
  now apply pretty_N_go_digits.
Qed.

(** A string of digits ends where the first other character stands. *)
Lemma digits_then_char_inj (a a' b b' : string) (c : ascii) :
  is_digit c = false -> digits_only a = true -> digits_only a' = true ->
  a +:+ String c b = a' +:+ String c b' -> a = a' /\ b = b'.
Proof.
  intros Hc. revert a'. induction a as [|x a IH]; intros [|x' a'] Ha Ha' H;
    cbn in *.
  - now injection H.
  - injection H as <- _. apply andb_prop in Ha' as [Hx _]. congruence.
  - injection H as -> _. apply andb_prop in Ha as [Hx _]. congruence.
  - injection H as <- H. apply andb_prop in Ha as [_ Ha].
    apply andb_prop in Ha' as [_ Ha'].
    destruct (IH a' Ha Ha' H) as [-> ->]. now split.
Qed.

Lemma digits_then_dash_head (a rest : string) :
  digits_only a = true ->
  exists c t, a +:+ String "-" rest = String c t /\ c <> "/"%char.
Proof.
  destruct a as [|x a]; cbn.
  - intros _. exists "-"%char, rest. split; [reflexivity | discriminate].
  - intros [Hx _]%andb_prop. exists x, (a +:+ String "-" rest).
    split; [reflexivity|]. intros ->. discriminate Hx.
Qed.

Lemma path_join_not_absolute (a : string) (c : ascii) (b : string) :
  c <> "/"%char -> path_join a (String c b) = path_join_relative a (String c b).
Proof.
  intros Hc. destruct c as [[] [] [] [] [] [] [] []];
    try reflexivity; now contradiction Hc.
Qed.

Lemma append_inj_l (a b b' : string) : a +:+ b = a +:+ b' -> b = b'.
Proof.
  induction a as [|x a IH]; cbn; [auto|]. intros H. injection H as H. auto.
Qed.

Lemma path_join_relative_inj (a b b' : string) :
  path_join_relative a b = path_join_relative a b' -> b = b'.
Proof.
  unfold path_join_relative. destruct (String.rev a) as [|c r]; [auto|].
  destruct c as [[] [] [] [] [] [] [] []]; intros H;
    apply append_inj_l in H; try exact H; cbn in H; now injection H.
Qed.

Lemma fmt02_month_inj (m m' : Z) :
  1 <= m <= 12 -> 1 <= m' <= 12 ->
  fmt02 m +:+ ".xlsx" = fmt02 m' +:+ ".xlsx" -> m = m'.
Proof.
  intros Hm Hm'.
  assert (m = 1 \/ m = 2 \/ m = 3 \/ m = 4 \/ m = 5 \/ m = 6 \/ m = 7
          \/ m = 8 \/ m = 9 \/ m = 10 \/ m = 11 \/ m = 12) as Em by lia.
  assert (m' = 1 \/ m' = 2 \/ m' = 3 \/ m' = 4 \/ m' = 5 \/ m' = 6 \/ m' = 7
          \/ m' = 8 \/ m' = 9 \/ m' = 10 \/ m' = 11 \/ m' = 12) as Em' by lia.
  repeat destruct Em as [-> | Em]; try subst m;
    repeat destruct Em' as [-> | Em']; try subst m';
    intros H; try reflexivity; vm_compute in H; discriminate H.
Qed.

(** X10.  [month_filename_for] gives one file per calendar month: two
    dates share the file exactly when they share year and month (for
    years from 0 on and months 1 to 12, under one export folder). *)
Theorem month_file_per_month (export_dir : string) (d1 d2 : date) :
  month_in_range d1 -> month_in_range d2 ->
  (month_filename_for d1 export_dir = month_filename_for d2 export_dir
   <-> year d1 = year d2 /\ month d1 = month d2).
Proof.
  intros [Hy1 Hm1] [Hy2 Hm2]. split.
  - unfold month_filename_for. intros H.
    pose proof (pretty_Z_digits _ Hy1) as D1.
    pose proof (pretty_Z_digits _ Hy2) as D2.
    change (pretty (year d1) +:+ "-" +:+ fmt02 (month d1) +:+ ".xlsx")
      with (pretty (year d1) +:+ String "-" (fmt02 (month d1) +:+ ".xlsx")) in H.
    change (pretty (year d2) +:+ "-" +:+ fmt02 (month d2) +:+ ".xlsx")
      with (pretty (year d2) +:+ String "-" (fmt02 (month d2) +:+ ".xlsx")) in H.
    destruct (digits_then_dash_head _ (fmt02 (month d1) +:+ ".xlsx") D1)
      as (c1 & t1 & E1 & N1).
    destruct (digits_then_dash_head _ (fmt02 (month d2) +:+ ".xlsx") D2)
      as (c2 & t2 & E2 & N2).
    rewrite E1, E2 in H.
    rewrite !path_join_not_absolute in H by assumption.
    apply path_join_relative_inj in H. rewrite <- E1, <- E2 in H.
    apply digits_then_char_inj in H as [Hy Hm]; [|reflexivity|assumption..].
    split.
    + now apply (inj pretty).
    + now apply fmt02_month_inj.
  - intros [Hy Hm]. unfold month_filename_for. now rewrite Hy, Hm.
Qed.

End MonthFileName.

Lemma month_file_per_month_witness :
  month_in_range Sample.march_1 /\ month_in_range Sample.march_2
  /\ month_filename_for Sample.march_1 "./exports"
     = month_filename_for Sample.march_2 "./exports"
  /\ month_filename_for Sample.march_1 "./exports"
     <> month_filename_for (Date 2024 4 1) "./exports".
Proof.
  assert (month_in_range Sample.march_1) as H1 by (unfold month_in_range; cbn; lia).
  assert (month_in_range Sample.march_2) as H2 by (unfold month_in_range; cbn; lia).
  assert (month_in_range (Date 2024 4 1)) as H3 by (unfold month_in_range; cbn; lia).
  repeat (split; [assumption|]). split.
  - apply (month_file_per_month "./exports" _ _ H1 H2). now split.
  - intros H. apply (month_file_per_month "./exports" _ _ H1 H3) in H as [_ Hm].
    discriminate Hm.
Defined.

(* ================================================================== *)
(** * Primary keys *)

Lemma StronglySorted_snoc {A : Type} (R : A -> A -> Prop) (l : list A) (y : A) :
  StronglySorted R l -> Forall (fun x => R x y) l -> StronglySorted R (l ++ [y]).
Proof.
  induction 1 as [|x l Hl IH Hx]; cbn; intros Hy.
  - repeat constructor.
  - inversion Hy as [|? ? Hxy Hrest]; subst.
    constructor; [now apply IH|].
    apply List.Forall_app. split; [exact Hx | now repeat constructor].
Qed.

Lemma StronglySorted_impl {A : Type} (R1 R2 : A -> A -> Prop) (l : list A) :
  (forall a b, R1 a b -> R2 a b) -> StronglySorted R1 l -> StronglySorted R2 l.
Proof.
  intros Himp. induction 1 as [|x l Hl IH Hx]; constructor; [exact IH|].
  eapply List.Forall_impl; [|exact Hx]. intros b. apply Himp.
Qed.

Section Keys.

Context {A : Type} (key : A -> Z).

Lemma insert_by_id_perm (x : A) (l : list A) :
  Permutation (insert_by_id key x l) (x :: l).
Proof.
  induction l as [|y l IH]; cbn; [reflexivity|].
  destruct (key x <=? key y); [|reflexivity].
  rewrite IH. apply perm_swap.
Qed.

Lemma sort_by_id_desc_perm (l : list A) : Permutation (sort_by_id_desc key l) l.
Proof.
  induction l as [|x l IH]; cbn; [reflexivity|].
  rewrite insert_by_id_perm. now constructor.
Qed.

Lemma insert_by_id_sorted (x : A) (l : list A) :
  StronglySorted (fun a b => key b <= key a) l ->
  StronglySorted (fun a b => key b <= key a) (insert_by_id key x l).
Proof.
  induction 1 as [|y l Hl IH Hy]; cbn.
  - repeat constructor.
  - destruct (Z.leb_spec (key x) (key y)).
    + constructor; [exact IH|].
      rewrite List.Forall_forall in *. intros z Hz.
      apply (Permutation_in _ (insert_by_id_perm x l)) in Hz as [<- | Hz];
        [assumption | now apply Hy].
    + constructor; [now constructor|].
      constructor; [lia|].
      rewrite List.Forall_forall in *. intros z Hz.
      specialize (Hy z Hz). cbn in Hy. lia.
Qed.

Lemma sort_by_id_desc_sorted (l : list A) :
  StronglySorted (fun a b => key b <= key a) (sort_by_id_desc key l).
Proof.
  induction l as [|x l IH]; cbn; [constructor|].
  now apply insert_by_id_sorted.
Qed.

Lemma increasing_by_snoc (l : list A) (y : A) :
  increasing_by key l -> Forall (fun x => key x < key y) l ->
  increasing_by key (l ++ [y]).
Proof.
  intros Hl Hy.
  exact (StronglySorted_snoc (fun a b => key a < key b) l y Hl Hy).
Qed.

Lemma increasing_by_filter (p : A -> bool) (l : list A) :
  increasing_by key l -> increasing_by key (List.filter p l).
Proof.
  unfold increasing_by. induction 1 as [|x l Hl IH Hx]; cbn; [constructor|].
  destruct (p x); [|exact IH].
  constructor; [exact IH|].
  rewrite List.Forall_forall in *. intros z Hz.
  apply filter_In in Hz as [Hz _]. now apply Hx.
Qed.

Lemma increasing_by_fresh (l : list A) (y : A) :
  increasing_by key l -> key y = next_id (map key l) ->
  increasing_by key (l ++ [y]).
Proof.
  intros Hl Hy. apply increasing_by_snoc; [exact Hl|].
  pose proof (next_id_fresh (map key l)) as Hfresh.
  rewrite List.Forall_forall in *. intros x Hx. rewrite Hy.
  apply Hfresh. now apply in_map.
Qed.

Lemma increasing_by_NoDup (l : list A) :
  increasing_by key l -> List.NoDup (map key l).
Proof.
  unfold increasing_by. induction 1 as [|x l Hl IH Hx]; cbn; constructor.
  - intros Hin. apply in_map_iff in Hin as (y & Hy & Hin).
    rewrite List.Forall_forall in Hx. specialize (Hx y Hin). cbn in Hx. lia.
  - exact IH.
Qed.

Lemma increasing_by_rev (l : list A) :
  increasing_by key l -> StronglySorted (fun a b => key b < key a) (rev l).
Proof.
  unfold increasing_by. induction 1 as [|x l Hl IH Hx]; cbn; [constructor|].
  apply (StronglySorted_snoc (fun a b => key b < key a)); [exact IH|].
  rewrite List.Forall_forall in *. intros a Ha.
  apply Hx. now apply in_rev.
Qed.

(** A list has one arrangement by decreasing key when its keys differ. *)
Lemma sorted_desc_unique (l1 l2 : list A) :
  Permutation l1 l2 ->
  StronglySorted (fun a b => key b <= key a) l1 ->
  StronglySorted (fun a b => key b < key a) l2 ->
  l1 = l2.
Proof.
  intros Hp H1 H2. revert l1 Hp H1.
  induction H2 as [|y l2 H2 IH Hy]; intros l1 Hp H1.
  - now apply Permutation_sym, Permutation_nil in Hp.
  - destruct l1 as [|x l1];
      [now apply Permutation_nil in Hp|].
    inversion H1 as [|? ? H1' Hx]; subst.
    assert (x = y) as ->.
    { assert (In x (y :: l2)) as Hxin
        by (apply (Permutation_in _ Hp); now left).
      assert (In y (x :: l1)) as Hyin
        by (apply (Permutation_in _ (Permutation_sym Hp)); now left).
      destruct Hxin as [-> | Hxin]; [reflexivity|].
      rewrite List.Forall_forall in Hx, Hy.
      specialize (Hy x Hxin). cbn in Hy.
      destruct Hyin as [-> | Hyin]; [reflexivity|].
      specialize (Hx y Hyin). cbn in Hx. lia. }
    f_equal. apply IH; [|exact H1'].
    now apply Permutation_cons_inv in Hp.
Qed.

End Keys.

(** An engine for [ORDER BY id DESC]. *)
Definition id_engine : SqlOrderById := {|
  order_by_id_desc := fun A key l => sort_by_id_desc key l;
  order_by_id_desc_perm := fun A key l => sort_by_id_desc_perm key l;
  order_by_id_desc_sorted := fun A key l => sort_by_id_desc_sorted key l;
|}.

(* ================================================================== *)
(** * The order of a query *)

Section Stability.

Context {A : Type} (key : A -> date) (idk : A -> Z).

(** Latest date first, and rows of one date by increasing id. *)
Let newest_then_id (a b : A) : Prop :=
  date_geb (key a) (key b) = true /\ (key a = key b -> idk a < idk b).

Lemma date_geb_refl (a : date) : date_geb a a = true.
Proof. apply date_geb_spec. lia. Qed.

Lemma insert_desc_stable (x : A) (l : list A) :
  StronglySorted newest_then_id l ->
  Forall (fun y => idk x < idk y) l ->
  StronglySorted newest_then_id
    (Runtime.insert_desc Runtime.stays_stable key x l).
Proof.
  induction 1 as [|y l Hl IH Hy]; intros Hx; cbn.
  - repeat constructor.
  - inversion Hx as [|? ? Hxy Hxl]; subst.
    unfold Runtime.stays_stable at 1.
    destruct (date_geb (key x) (key y)) eqn:E; cbn.
    + constructor; [now constructor|].
      constructor; [split; [exact E | intros _; exact Hxy]|].
      rewrite List.Forall_forall in *. intros z Hz. split.
      * eapply date_geb_trans; [exact E | apply (Hy z Hz)].
      * intros _. now apply Hxl.
    + constructor; [now apply IH|].
      rewrite List.Forall_forall in *. intros z Hz.
      apply (Permutation_in _ (insert_desc_perm _ _ _ _)) in Hz
        as [<- | Hz]; [|now apply Hy].
      split; [now apply date_geb_total|].
      intros Heq. rewrite Heq, date_geb_refl in E. discriminate.
Qed.

(** The stable sort keeps the rows of one date in scan order. *)
Lemma sort_desc_stable (l : list A) :
  increasing_by idk l ->
  StronglySorted newest_then_id (Runtime.sort_desc Runtime.stays_stable key l).
Proof.
  unfold increasing_by. induction 1 as [|x l Hl IH Hx]; cbn; [constructor|].
  apply insert_desc_stable; [exact IH|].
  rewrite List.Forall_forall in *. intros y Hy. apply Hx.
  now apply (Permutation_in _ (sort_desc_perm _ _ _)) in Hy.
Qed.

Lemma increasing_by_filter_by (col : A -> Z) (flt : option Z) (l : list A) :
  increasing_by idk l -> increasing_by idk (filter_by col flt l).
Proof.
  intros H. unfold filter_by. destruct flt as [v|]; [|exact H].
  destruct (Py.int_truthy v); [now apply increasing_by_filter | exact H].
Qed.

End Stability.

(** C7, as the code has it.  On SQLite, whose sort keeps rows of equal
    keys in scan order, and with each table in increasing order of id (as
    the requests leave it), both queries come latest entry date first and,
    within one entry date, by increasing id: the oldest record of a date
    first.  Each direction is ordered on its own, and the rows of the page
    follow the order of the Inward query. *)
Theorem query_ordered_newest_first (d : database)
    (cust_filter item_filter : option Z) :
  increasing_by Inward.id (inwards d) ->
  increasing_by Outward.id (outwards d) ->
  StronglySorted
    (fun a b =>
       date_geb (Inward.entry_date a) (Inward.entry_date b) = true
       /\ (Inward.entry_date a = Inward.entry_date b -> Inward.id a < Inward.id b))
    (query_inwards (E:=stable_engine) cust_filter item_filter d)
  /\ StronglySorted
       (fun a b =>
          date_geb (Outward.entry_date a) (Outward.entry_date b) = true
          /\ (Outward.entry_date a = Outward.entry_date b ->
              Outward.id a < Outward.id b))
       (query_outwards (E:=stable_engine) cust_filter item_filter d)
  /\ ordered_by_date_then_id true
       (query_inwards (E:=stable_engine) cust_filter item_filter d)
  /\ (forall (B : PyBuiltins) (args : form) (rows : list overall_row),
        overall (E:=stable_engine) args d = Ok rows ->
        map row_date rows
        = map (fun inv => strftime_ymd (Inward.entry_date inv))
            (query_inwards (E:=stable_engine) (args_get_int args "customer_id")
               (args_get_int args "item_id") d)).
Proof.
  intros Hin Hout.
  assert (StronglySorted
            (fun a b =>
               date_geb (Inward.entry_date a) (Inward.entry_date b) = true
               /\ (Inward.entry_date a = Inward.entry_date b ->
                   Inward.id a < Inward.id b))
            (query_inwards (E:=stable_engine) cust_filter item_filter d)) as H1.
  { unfold query_inwards. cbn [order_by_desc stable_engine].
    apply sort_desc_stable. now do 2 apply increasing_by_filter_by. }
  split; [exact H1|]. split; [|split].
  - unfold query_outwards. cbn [order_by_desc stable_engine].
    apply sort_desc_stable. now do 2 apply increasing_by_filter_by.
  - unfold ordered_by_date_then_id.
    eapply StronglySorted_impl; [|exact H1]. cbn.
    intros a b [Hd Hid]. split; [exact Hd|]. intros Heq.
    specialize (Hid Heq). lia.
  - intros B args rows Hok.
    apply (overall_ok_inv (E:=stable_engine)) in Hok as (-> & _).
    unfold overall_rows. now rewrite map_map.
Qed.

(** The two receipts of March 1 come in the order of their ids, 1 then
    2. *)
Lemma query_ordered_newest_first_witness :
  increasing_by Inward.id (inwards Sample.same_day_journal)
  /\ increasing_by Outward.id (outwards Sample.same_day_journal)
  /\ query_inwards (E:=stable_engine) None None Sample.same_day_journal
     = [Sample.in1; Sample.in2]
  /\ ordered_by_date_then_id true [Sample.in1; Sample.in2].
Proof.
  assert (increasing_by Inward.id (inwards Sample.same_day_journal)) as H1
    by (unfold increasing_by; cbn; repeat (constructor; cbn; try lia)).
  assert (increasing_by Outward.id (outwards Sample.same_day_journal)) as H2
    by (unfold increasing_by; cbn; constructor).
  split; [exact H1|]. split; [exact H2|]. split; [reflexivity|].
  exact (proj1 (proj2 (proj2 (query_ordered_newest_first
                                Sample.same_day_journal None None H1 H2)))).
Defined.

(** Two records of one date come out oldest first: the record of id 1
    before the record of id 2.  The order is not most recent first. *)
Lemma query_order_counterexample :
  query_inwards (E:=stable_engine) None None Sample.same_day_journal
  = [Sample.in1; Sample.in2]
  /\ Inward.entry_date Sample.in1 = Inward.entry_date Sample.in2
  /\ Inward.id Sample.in1 < Inward.id Sample.in2
  /\ ~ ordered_by_date_then_id false
        (query_inwards (E:=stable_engine) None None Sample.same_day_journal).
Proof.
  split; [reflexivity|]. split; [reflexivity|]. split; [reflexivity|].
  intros H.
  assert (query_inwards (E:=stable_engine) None None Sample.same_day_journal
          = [Sample.in1; Sample.in2]) as Q by reflexivity.
  rewrite Q in H. inversion H as [|a l _ Hall]; subst.
  inversion Hall as [|b l' [_ Hid] _]; subst.
  specialize (Hid eq_refl). cbn in Hid. lia.
Qed.

(* ================================================================== *)
(** * The master tables and the journal under the requests *)

Section MasterAndJournal.

Context `{B : PyBuiltins} `{R : SqliteReal} `{P : Pandas}.

Lemma handle_keeps_ids_increasing (r : request) (s : state) :
  ids_increasing (db s) -> ids_increasing (db (handle r s)).
Proof.
  intros (Hc & Hi & Hin & Hout).
  destruct r as [f|args|today f|today f|f]; cbn [handle].
  - unfold master_post.
    destruct (opt_eqb _ "add_customer").
    { destruct (form_index f "name"); cbn; repeat split; try assumption.
      now apply increasing_by_fresh. }
    destruct (opt_eqb _ "add_item"); [|now repeat split].
    destruct (form_index f "item_name"); cbn; repeat split; try assumption.
    now apply increasing_by_fresh.
  - unfold master_delete, delete_by_id.
    destruct (opt_eqb _ "cust"), (opt_eqb _ "item"),
      (args !! "id"%string) as [t|]; try (now repeat split);
      destruct (Py.str_truthy t); try (now repeat split);
      destruct (py_int t); cbn; repeat split; try assumption;
      now apply increasing_by_filter.
  - destruct (read_inward_form today f) as [i|e] eqn:Hf.
    + destruct (sqlite_int_ok (in_customer_id i)
                && sqlite_int_ok (in_item_id i)) eqn:Hr.
      * destruct (inward_post_stores today f s i Hf Hr) as (-> & _).
        cbn. repeat split; try assumption. now apply increasing_by_fresh.
      * rewrite (inward_post_overflows today f s i Hf Hr). now repeat split.
    + rewrite (inward_post_rejects today f s e Hf). now repeat split.
  - destruct (read_outward_form today f) as [i|e] eqn:Hf.
    + destruct (sqlite_int_ok (out_customer_id i)
                && sqlite_int_ok (out_item_id i)) eqn:Hr.
      * destruct (outward_post_stores today f s i Hf Hr) as (-> & _).
        cbn. repeat split; try assumption. now apply increasing_by_fresh.
      * rewrite (outward_post_overflows today f s i Hf Hr). now repeat split.
    + rewrite (outward_post_rejects today f s e Hf). now repeat split.
  - unfold settings_post. destruct (Py.str_truthy _); now repeat split.
Qed.

(** X11.  Whatever requests the server handles, every table stays in
    strictly increasing order of its primary key; so no two rows of a
    table ever share an id. *)
Theorem serve_keeps_ids_increasing (rs : list request) (s : state) :
  ids_increasing (db s) ->
  ids_increasing (db (serve rs s))
  /\ List.NoDup (map Customer.id (customers (db (serve rs s))))
  /\ List.NoDup (map Item.id (items (db (serve rs s))))
  /\ List.NoDup (map Inward.id (inwards (db (serve rs s))))
  /\ List.NoDup (map Outward.id (outwards (db (serve rs s)))).
Proof.
  intros H.
  assert (ids_increasing (db (serve rs s))) as Hs.
  { revert s H. induction rs as [|r rs IH]; intros s H; cbn; [exact H|].
    apply IH. now apply handle_keeps_ids_increasing. }
  split; [exact Hs|]. destruct Hs as (Hc & Hi & Hin & Hout).
  repeat split; now apply increasing_by_NoDup.
Qed.

Lemma find_snoc {A : Type} (p : A -> bool) (l : list A) (c : A) :
  List.find p (l ++ [c])
  = match List.find p l with
    | Some x => Some x
    | None => if p c then Some c else None
    end.
Proof.
  induction l as [|x l IH]; cbn; [reflexivity|].
  destruct (p x); [reflexivity | exact IH].
Qed.

Lemma find_below_next_id {A : Type} (key : A -> Z) (l : list A) :
  List.find (fun c => key c =? next_id (map key l)) l = None.
Proof.
  pose proof (next_id_fresh (map key l)) as Hfresh.
  rewrite List.Forall_forall in Hfresh.
  generalize dependent (next_id (map key l)). intros n Hfresh.
  induction l as [|x l IH]; cbn; [reflexivity|].
  destruct (Z.eqb_spec (key x) n) as [E | _].
  - specialize (Hfresh (key x) (or_introl eq_refl)). lia.
  - apply IH. intros y Hy. apply Hfresh. now right.
Qed.

Lemma find_filter_other {A : Type} (key : A -> Z) (n j : Z) (l : list A) :
  List.find (fun c => key c =? j)
    (List.filter (fun x => negb (key x =? n)) l)
  = if j =? n then None else List.find (fun c => key c =? j) l.
Proof.
  induction l as [|x l IH]; cbn; [now destruct (j =? n)|].
  destruct (Z.eqb_spec (key x) n) as [E | E]; cbn.
  - rewrite IH. destruct (Z.eqb_spec j n) as [-> | Hj]; [reflexivity|].
    destruct (Z.eqb_spec (key x) j); [congruence | reflexivity].
  - destruct (Z.eqb_spec (key x) j) as [Ej | Ej].
    + destruct (Z.eqb_spec j n); [congruence | reflexivity].
    + exact IH.
Qed.

(** X12.  A customer added through [master()] gets the next id and is
    what [Customer.query.get] returns for it; every other lookup and the
    other three tables are as before.  The same holds of an added item. *)
Theorem master_add_then_get (f : form) (s : state) (n : string) :
  (f !! "mode"%string = Some "add_customer"%string ->
   f !! "name"%string = Some n ->
   let s' := fst (master_post f s) in
   let i := next_id (map Customer.id (customers (db s))) in
   get_customer (db s') i
   = Some (Customer.Build i n (f !! "gst_no"%string) (f !! "address"%string)
             (f !! "mobile"%string) (f !! "email"%string))
   /\ (forall j, j <> i -> get_customer (db s') j = get_customer (db s) j)
   /\ items (db s') = items (db s)
   /\ inwards (db s') = inwards (db s)
   /\ outwards (db s') = outwards (db s))
  /\ (f !! "mode"%string = Some "add_item"%string ->
      f !! "item_name"%string = Some n ->
      let s' := fst (master_post f s) in
      let i := next_id (map Item.id (items (db s))) in
      get_item (db s') i
      = Some (Item.Build i n (f !! "hsn"%string) (f !! "material"%string))
      /\ (forall j, j <> i -> get_item (db s') j = get_item (db s) j)
      /\ customers (db s') = customers (db s)
      /\ inwards (db s') = inwards (db s)
      /\ outwards (db s') = outwards (db s)).
Proof.
  split; intros Hmode Hname s' i; subst s' i;
    unfold master_post, form_index; rewrite Hmode, Hname; cbn;
    unfold get_customer, get_item; cbn.
  - repeat split.
    + rewrite find_snoc, (find_below_next_id Customer.id). cbn.
      now rewrite Z.eqb_refl.
    + intros j Hj. rewrite find_snoc.
      destruct (List.find _ (customers (db s))); [reflexivity|]. cbn.
      destruct (Z.eqb_spec (next_id (map Customer.id (customers (db s)))) j);
        [congruence | reflexivity].
  - repeat split.
    + rewrite find_snoc, (find_below_next_id Item.id). cbn.
      now rewrite Z.eqb_refl.
    + intros j Hj. rewrite find_snoc.
      destruct (List.find _ (items (db s))); [reflexivity|]. cbn.
      destruct (Z.eqb_spec (next_id (map Item.id (items (db s)))) j);
        [congruence | reflexivity].
Qed.

(** X13.  Deleting a customer through [master()] removes it from the
    lookups and from nothing else: the other customers and the movement
    tables stay, so the customer's movements remain in the journal, and
    the Overall view shows them with an empty customer name. *)
Theorem master_delete_then_get (args : form) (s : state) (t : string) (n : Z) :
  args !! "del"%string = Some "cust"%string ->
  args !! "id"%string = Some t ->
  Py.str_truthy t = true ->
  py_int t = Some n ->
  let s' := fst (master_delete args s) in
  get_customer (db s') n = None
  /\ (forall j, j <> n -> get_customer (db s') j = get_customer (db s) j)
  /\ items (db s') = items (db s)
  /\ inwards (db s') = inwards (db s)
  /\ outwards (db s') = outwards (db s)
  /\ (forall dc_map inv,
        Inward.customer_id inv = n ->
        row_customer (make_row (db s') dc_map inv) = EmptyString).
Proof.
  intros Hdel Hid Ht Hn s'. subst s'.
  assert (db (fst (master_delete args s))
          = Db (List.filter (fun x => negb (Customer.id x =? n))
                  (customers (db s)))
               (items (db s)) (inwards (db s)) (outwards (db s))) as ->.
  { unfold master_delete, delete_by_id. now rewrite Hdel, Hid, Ht, Hn. }
  assert (forall j,
             get_customer
               (Db (List.filter (fun x => negb (Customer.id x =? n))
                      (customers (db s)))
                   (items (db s)) (inwards (db s)) (outwards (db s))) j
             = if j =? n then None else get_customer (db s) j) as Hget.
  { intros j. unfold get_customer. cbn. apply find_filter_other. }
  split; [now rewrite Hget, Z.eqb_refl|].
  split; [intros j Hj; rewrite Hget; now apply Z.eqb_neq in Hj as ->|].
  do 3 (split; [reflexivity|]).
  intros dc_map inv Hinv. unfold make_row. cbn [row_customer].
  now rewrite Hget, Hinv, Z.eqb_refl.
Qed.

End MasterAndJournal.

Section Figures.

Context `{B : PyBuiltins} `{E : SqlEngine}.

Lemma figures_depend_on_movements (d d' : database)
    (cust_filter item_filter : option Z) :
  inwards d' = inwards d -> outwards d' = outwards d ->
  map row_figures (overall_rows cust_filter item_filter d')
  = map row_figures (overall_rows cust_filter item_filter d).
Proof.
  intros Hin Hout. unfold overall_rows, query_inwards, build_dc_map.
  rewrite Hin, Hout, !map_map. reflexivity.
Qed.

Lemma same_figures_of_movements (d d' : database) :
  inwards d' = inwards d -> outwards d' = outwards d -> same_figures d d'.
Proof.
  intros Hin Hout. split.
  - intros args rows rows' H H'.
    apply overall_ok_inv in H as (-> & _).
    apply overall_ok_inv in H' as (-> & _).
    now apply figures_depend_on_movements.
  - exists (overall_rows None None d), (overall_rows None None d').
    split; [apply overall_unfiltered|]. split; [apply overall_unfiltered|].
    now apply figures_depend_on_movements.
Qed.

(** X14.  No request on the master tables or the settings changes the
    reconciliation: after adding or deleting customers and items, or
    moving the export folder, a request for the Overall page that renders
    before and after shows the same keys, dispatched and pending
    quantities, row by row, and the page without a query string renders
    before and after.  A request may stop rendering, though: once
    [master()] has added a customer, every request with [customer_id] in
    its query string raises. *)
Theorem master_requests_keep_figures (s : state) :
  (forall f, same_figures (db s) (db (fst (master_post f s))))
  /\ (forall args, same_figures (db s) (db (fst (master_delete args s))))
  /\ (forall f, same_figures (db s) (db (settings_post f s)))
  /\ (forall f n args,
        f !! "mode"%string = Some "add_customer"%string ->
        f !! "name"%string = Some n ->
        has_arg args "customer_id" = true ->
        overall args (db (fst (master_post f s))) = Raise UndefinedError
        \/ overall args (db (fst (master_post f s))) = Raise OverflowError).
Proof.
  split; [|split; [|split]].
  - intros f. apply same_figures_of_movements; unfold master_post;
      destruct (opt_eqb _ "add_customer");
      try (destruct (form_index f "name"); reflexivity);
      destruct (opt_eqb _ "add_item"); try reflexivity;
      destruct (form_index f "item_name"); reflexivity.
  - intros args. apply same_figures_of_movements;
      unfold master_delete, delete_by_id;
      destruct (opt_eqb _ "cust"), (opt_eqb _ "item"),
        (args !! "id"%string) as [t|]; try reflexivity;
      destruct (Py.str_truthy t); try reflexivity;
      destruct (py_int t); reflexivity.
  - intros f. apply same_figures_of_movements; unfold settings_post;
      now destruct (Py.str_truthy _).
  - intros f n args Hmode Hname Ha.
    destruct (filter_overflows (args_get_int args "customer_id")
              || filter_overflows (args_get_int args "item_id")) eqn:Ho.
    + right. now apply overall_overflows.
    + left. apply overall_template_raises; [exact Ho|].
      unfold template_fails, master_post, form_index.
      rewrite Hmode, Hname, Ha. cbn.
      now destruct (customers (db s)).
Qed.

End Figures.

(* ================================================================== *)
(** * An append and its export *)

Section AppendAndExport.

Context `{B : PyBuiltins} `{R : SqliteReal} `{P : Pandas}.

(** What [inward()] has done when it returns. *)
Lemma inward_post_ok_inv (today : date) (f : form) (s : state) (r : Inward.t) :
  snd (inward_post today f s) = Ok r ->
  exists i,
    read_inward_form today f = Ok i
    /\ sqlite_int_ok (in_customer_id i) && sqlite_int_ok (in_item_id i) = true
    /\ r = new_inward (db s) i
    /\ exists fs',
         append_row_to_sheet (files s)
           (month_filename_for (in_entry_date i) (EXPORT_DIR s)) "Inward"
           (inward_row (db s) i) = (fs', Ok tt)
         /\ fst (inward_post today f s)
            = State (add_inward (db s) (new_inward (db s) i)) fs' (EXPORT_DIR s).
Proof.
  unfold inward_post, commit_inward.
  destruct (read_inward_form today f) as [i|e]; [|discriminate].
  destruct (sqlite_int_ok (in_customer_id i) && sqlite_int_ok (in_item_id i))
    eqn:Hr; [|discriminate].
  cbn [set_db db files EXPORT_DIR].
  change (inward_row (add_inward (db s) (new_inward (db s) i)) i)
    with (inward_row (db s) i).
  destruct (append_row_to_sheet _ _ _ _) as [fs' [[]|e]] eqn:Ha; cbn;
    [|discriminate].
  intros [= <-]. exists i. split; [reflexivity|]. split; [exact Hr|].
  split; [reflexivity|]. now exists fs'.
Qed.

Lemma outward_post_ok_inv (today : date) (f : form) (s : state) (r : Outward.t) :
  snd (outward_post today f s) = Ok r ->
  exists i,
    read_outward_form today f = Ok i
    /\ sqlite_int_ok (out_customer_id i) && sqlite_int_ok (out_item_id i) = true
    /\ r = new_outward (db s) i
    /\ exists fs',
         append_row_to_sheet (files s)
           (month_filename_for (out_entry_date i) (EXPORT_DIR s)) "Outward"
           (outward_row (db s) i) = (fs', Ok tt)
         /\ fst (outward_post today f s)
            = State (add_outward (db s) (new_outward (db s) i)) fs'
                (EXPORT_DIR s).
Proof.
  unfold outward_post, commit_outward.
  destruct (read_outward_form today f) as [i|e]; [|discriminate].
  destruct (sqlite_int_ok (out_customer_id i) && sqlite_int_ok (out_item_id i))
    eqn:Hr; [|discriminate].
  cbn [set_db db files EXPORT_DIR].
  change (outward_row (add_outward (db s) (new_outward (db s) i)) i)
    with (outward_row (db s) i).
  destruct (append_row_to_sheet _ _ _ _) as [fs' [[]|e]] eqn:Ha; cbn;
    [|discriminate].
  intros [= <-]. exists i. split; [reflexivity|]. split; [exact Hr|].
  split; [reflexivity|]. now exists fs'.
Qed.


(** X16.  Two ways the export fails after the commit.  When the form
    parses, its ids are in range and the month file is there and is no
    zip archive, [inward()] raises [BadZipFile]: the record is in the
    journal and the files are untouched.  When the frame to write has an
    illegal cell, [inward()] raises [IllegalCharacterError]: the record is
    in the journal, and the month file is left as the constructor of the
    writer left it, truncated under pandas 1.2 and later.  Either way the
    Overall view has a movement the archive lacks. *)
Theorem export_failure_keeps_record (today : date) (f : form) (s : state)
    (i : inward_input) :
  read_inward_form today f = Ok i ->
  sqlite_int_ok (in_customer_id i) && sqlite_int_ok (in_item_id i) = true ->
  let p := month_filename_for (in_entry_date i) (EXPORT_DIR s) in
  let d' := add_inward (db s) (new_inward (db s) i) in
  (files s !! p = Some NotZip ->
   inward_post today f s = (State d' (files s) (EXPORT_DIR s), Raise BadZipFile))
  /\ (forall df,
        sheet_with_row (files s) p "Inward" (inward_row (db s) i) = Ok df ->
        DataFrame.legal df = false ->
        inward_post today f s
        = (State d'
             (if writer_truncates then <[p := NotZip]> (files s) else files s)
             (EXPORT_DIR s),
           Raise IllegalCharacterError)).
Proof.
  intros Hf Hr p d'. subst d'. split.
  - intros Hp. unfold inward_post, commit_inward. rewrite Hf, Hr.
    cbn [set_db db files EXPORT_DIR]. fold p.
    now rewrite append_row_to_sheet_not_zip.
  - intros df Hdf Hl. unfold inward_post, commit_inward. rewrite Hf, Hr.
    cbn [set_db db files EXPORT_DIR]. fold p.
    change (inward_row (add_inward (db s) (new_inward (db s) i)) i)
      with (inward_row (db s) i).
    rewrite append_row_to_sheet_eq, Hdf, Hl. reflexivity.
Qed.

Lemma fsum_snoc (l : list float) (q : float) :
  fsum (l ++ [q]) = (fsum l + q)%float.
Proof. unfold fsum. now rewrite fold_left_app. Qed.

(** X17.  An Inward append that is stored adds its quantity, as the table
    holds it, to the inward total of its own DC key, after the quantities
    already there, and leaves every other total as it was: a quantity
    that is a NaN is held as NULL and adds [0.0].  An Outward append does
    so for the outward total.  An append whose id is out of range changes
    no total. *)
Theorem append_adds_to_its_total (today : date) (f : form) (s : state) :
  (forall i,
      read_inward_form today f = Ok i ->
      sqlite_int_ok (in_customer_id i) && sqlite_int_ok (in_item_id i) = true ->
      let d' := db (fst (inward_post today f s)) in
      let k := dc_key (in_dc_no_cust i) in
      inward_total d' k
      = (inward_total (db s) k + Py.float_or_zero (store_real (in_qty i)))%float
      /\ (PrimFloat.is_nan (in_qty i) = true ->
          inward_total d' k = (inward_total (db s) k + 0)%float)
      /\ (forall k', k' <> k -> inward_total d' k' = inward_total (db s) k')
      /\ (forall k', outward_total d' k' = outward_total (db s) k'))
  /\ (forall i,
        read_outward_form today f = Ok i ->
        sqlite_int_ok (out_customer_id i) && sqlite_int_ok (out_item_id i) = true ->
        let d' := db (fst (outward_post today f s)) in
        let k := dc_key (out_dc_no_cust i) in
        outward_total d' k
        = (outward_total (db s) k
           + Py.float_or_zero (store_real (out_qty i)))%float
        /\ (PrimFloat.is_nan (out_qty i) = true ->
            outward_total d' k = (outward_total (db s) k + 0)%float)
        /\ (forall k', k' <> k -> outward_total d' k' = outward_total (db s) k')
        /\ (forall k', inward_total d' k' = inward_total (db s) k'))
  /\ (forall i,
        read_inward_form today f = Ok i ->
        sqlite_int_ok (in_customer_id i) && sqlite_int_ok (in_item_id i) = false ->
        db (fst (inward_post today f s)) = db s).
Proof.
  split; [|split].
  - intros i Hf Hr d' k. subst d'.
    destruct (inward_post_stores today f s i Hf Hr) as (-> & _).
    unfold inward_total, outward_total. cbn [add_inward inwards outwards].
    assert (fsum
              (map (fun r0 => Py.float_or_zero (Inward.qty r0))
                 (List.filter
                    (fun r0 => String.eqb (dc_key (Inward.dc_no_cust r0)) k)
                    (inwards (db s) ++ [new_inward (db s) i])))
            = (fsum
                 (map (fun r0 => Py.float_or_zero (Inward.qty r0))
                    (List.filter
                       (fun r0 => String.eqb (dc_key (Inward.dc_no_cust r0)) k)
                       (inwards (db s))))
               + Py.float_or_zero (store_real (in_qty i)))%float) as Hsum.
    { rewrite List.filter_app, List.map_app.
      cbn [List.filter new_inward Inward.dc_no_cust].
      fold k. rewrite String.eqb_refl. cbn [map Inward.qty]. apply fsum_snoc. }
    split; [exact Hsum|]. split; [|split].
    + intros Hnan. rewrite Hsum. now rewrite (store_real_nan _ Hnan).
    + intros k' Hk. rewrite List.filter_app, List.map_app.
      cbn [List.filter new_inward Inward.dc_no_cust]. fold k.
      apply not_eq_sym, String.eqb_neq in Hk. rewrite Hk. cbn.
      now rewrite app_nil_r.
    + reflexivity.
  - intros i Hf Hr d' k. subst d'.
    destruct (outward_post_stores today f s i Hf Hr) as (-> & _).
    unfold inward_total, outward_total. cbn [add_outward inwards outwards].
    assert (fsum
              (map (fun r0 => Py.float_or_zero (Outward.qty r0))
                 (List.filter
                    (fun r0 => String.eqb (dc_key (Outward.dc_no_cust r0)) k)
                    (outwards (db s) ++ [new_outward (db s) i])))
            = (fsum
                 (map (fun r0 => Py.float_or_zero (Outward.qty r0))
                    (List.filter
                       (fun r0 => String.eqb (dc_key (Outward.dc_no_cust r0)) k)
                       (outwards (db s))))
               + Py.float_or_zero (store_real (out_qty i)))%float) as Hsum.
    { rewrite List.filter_app, List.map_app.
      cbn [List.filter new_outward Outward.dc_no_cust].
      fold k. rewrite String.eqb_refl. cbn [map Outward.qty]. apply fsum_snoc. }
    split; [exact Hsum|]. split; [|split].
    + intros Hnan. rewrite Hsum. now rewrite (store_real_nan _ Hnan).
    + intros k' Hk. rewrite List.filter_app, List.map_app.
      cbn [List.filter new_outward Outward.dc_no_cust]. fold k.
      apply not_eq_sym, String.eqb_neq in Hk. rewrite Hk. cbn.
      now rewrite app_nil_r.
    + reflexivity.
  - intros i Hf Hr. now rewrite (inward_post_overflows today f s i Hf Hr).
Qed.

End AppendAndExport.

(* ================================================================== *)
(** * More on the DC keys *)

Section DcKeys.

(** X18.  [dc_map] has an entry for a key exactly when the key is not
    empty and some record of the journal, Inward or Outward, carries it
    (after trimming). *)
Theorem dc_map_domain (d : database) (k : string) :
  build_dc_map d !! k = None
  <-> (Py.str_truthy k = false \/ key_in_journal d k = false).
Proof.
  destruct (Py.str_truthy k) eqn:Hk.
  - rewrite build_dc_map_lookup by exact Hk.
    destruct (key_in_journal d k); split;
      try discriminate; try (intros [H | H]; discriminate H); auto.
  - destruct k; [|discriminate Hk]. rewrite build_dc_map_empty_key.
    split; auto.
Qed.

Lemma lstrip_chars_clean (l : list ascii) :
  starts_clean (Py.lstrip_chars l) = true.
Proof.
  induction l as [|c l IH]; cbn; [reflexivity|].
  destruct (Py.is_space c) eqn:E; [exact IH|]. cbn. now rewrite E.
Qed.

Lemma lstrip_chars_fixed (l : list ascii) :
  starts_clean l = true -> Py.lstrip_chars l = l.
Proof.
  destruct l as [|c l]; cbn; [reflexivity|].
  now intros ->%negb_true_iff.
Qed.

Lemma lstrip_chars_suffix (l : list ascii) :
  exists p, l = p ++ Py.lstrip_chars l.
Proof.
  induction l as [|c l [p IH]]; cbn; [now exists []|].
  destruct (Py.is_space c); [|now exists []].
  exists (c :: p). cbn. now f_equal.
Qed.

Lemma starts_clean_app_l (a b : list ascii) :
  starts_clean (a ++ b) = true -> starts_clean a = true.
Proof. destruct a; cbn; auto. Qed.

(** The trimmed form has no white space at either end. *)
Lemma strip_chars_clean (l : list ascii) :
  starts_clean (Py.strip_chars l) = true
  /\ starts_clean (rev (Py.strip_chars l)) = true.
Proof.
  unfold Py.strip_chars, Py.rstrip_chars. split.
  - destruct (lstrip_chars_suffix (rev (Py.lstrip_chars l))) as [p Hp].
    apply (f_equal (@rev ascii)) in Hp.
    rewrite rev_involutive, rev_app_distr in Hp.
    apply (starts_clean_app_l _ (rev p)). rewrite <- Hp.
    apply lstrip_chars_clean.
  - rewrite rev_involutive. apply lstrip_chars_clean.
Qed.

Lemma strip_chars_fixed (l : list ascii) :
  starts_clean l = true -> starts_clean (rev l) = true ->
  Py.strip_chars l = l.
Proof.
  intros H1 H2. unfold Py.strip_chars, Py.rstrip_chars.
  rewrite (lstrip_chars_fixed l H1), (lstrip_chars_fixed (rev l) H2).
  apply rev_involutive.
Qed.

Lemma strip_idempotent (s : string) : Py.strip (Py.strip s) = Py.strip s.
Proof.
  unfold Py.strip. rewrite list_ascii_of_string_of_list_ascii.
  destruct (strip_chars_clean (list_ascii_of_string s)) as [H1 H2].
  now rewrite strip_chars_fixed.
Qed.

(** X19.  Trimming is idempotent, so a DC key is its own key: the
    reference a row of the Overall table shows, entered again as a DC
    number, falls under the key of that row; and the key has no white
    space at its ends. *)
Theorem dc_key_is_its_own_key (o : option string) (d : database)
    (dc_map : gmap string dc_entry) (inv : Inward.t) :
  dc_key (Some (dc_key o)) = dc_key o
  /\ dc_key (Some (row_dc_no_cust (make_row d dc_map inv)))
     = row_dc_no_cust (make_row d dc_map inv)
  /\ starts_clean (list_ascii_of_string (dc_key o)) = true
  /\ starts_clean (rev (list_ascii_of_string (dc_key o))) = true.
Proof.
  assert (forall o', dc_key (Some (dc_key o')) = dc_key o') as H.
  { intros o'. unfold dc_key at 1. rewrite str_or_empty_some.
    unfold dc_key. apply strip_idempotent. }
  split; [apply H|]. split; [apply H|].
  unfold dc_key, Py.strip. rewrite list_ascii_of_string_of_list_ascii.
  apply strip_chars_clean.
Qed.

End DcKeys.

(* ================================================================== *)
(** * The recent lists and the downloads *)

Section ReadHandlers.

Context `{B : PyBuiltins} `{R : SqliteReal} `{P : Pandas} `{O : SqlOrderById}.

Lemma order_by_id_desc_is_rev {A : Type} (key : A -> Z) (l : list A) :
  increasing_by key l -> order_by_id_desc key l = rev l.
Proof.
  intros H. apply (sorted_desc_unique key).
  - rewrite order_by_id_desc_perm. apply Permutation_rev.
  - apply order_by_id_desc_sorted.
  - now apply increasing_by_rev.
Qed.

(** X20.  With the tables in increasing order of id, the recent list of
    [inward()] is made of the last ten records of the journal, the latest
    first, whatever the engine; it has ten rows at most; and right after
    an Inward append that was stored (the form parsed and its ids were in
    range) its first row is the row of the new record, with the quantity
    as the table holds it.  The same holds of [outward()]. *)
Theorem recent_lists_latest_first (today : date) (f : form) (s : state) :
  ids_increasing (db s) ->
  last_inwards (db s) = firstn 10 (rev (inwards (db s)))
  /\ last_outwards (db s) = firstn 10 (rev (outwards (db s)))
  /\ (length (recent_inward (db s)) <= 10)%nat
  /\ (length (recent_outward (db s)) <= 10)%nat
  /\ (forall i, read_inward_form today f = Ok i ->
        sqlite_int_ok (in_customer_id i) && sqlite_int_ok (in_item_id i) = true ->
        let d' := db (fst (inward_post today f s)) in
        recent_qty (recent_inward_row d' (new_inward (db s) i))
        = store_real (in_qty i)
        /\ exists rest,
             recent_inward d'
             = recent_inward_row d' (new_inward (db s) i) :: rest)
  /\ (forall i, read_outward_form today f = Ok i ->
        sqlite_int_ok (out_customer_id i) && sqlite_int_ok (out_item_id i) = true ->
        let d' := db (fst (outward_post today f s)) in
        recent_qty (recent_outward_row d' (new_outward (db s) i))
        = store_real (out_qty i)
        /\ exists rest,
             recent_outward d'
             = recent_outward_row d' (new_outward (db s) i) :: rest).
Proof.
  intros Hids. pose proof Hids as (Hc & Hi & Hin & Hout).
  assert (last_inwards (db s) = firstn 10 (rev (inwards (db s)))) as E1
    by (unfold last_inwards; now rewrite order_by_id_desc_is_rev).
  assert (last_outwards (db s) = firstn 10 (rev (outwards (db s)))) as E2
    by (unfold last_outwards; now rewrite order_by_id_desc_is_rev).
  split; [exact E1|]. split; [exact E2|].
  split; [unfold recent_inward; rewrite length_map, E1; apply firstn_le_length|].
  split; [unfold recent_outward; rewrite length_map, E2; apply firstn_le_length|].
  split; intros i Hf Hr d'; subst d'; (split; [reflexivity|]).
  - destruct (inward_post_stores today f s i Hf Hr) as (Hdb & _).
    rewrite Hdb. unfold recent_inward, last_inwards.
    rewrite order_by_id_desc_is_rev
      by (cbn; now apply increasing_by_fresh).
    cbn [add_inward inwards]. rewrite rev_app_distr. cbn. eexists. reflexivity.
  - destruct (outward_post_stores today f s i Hf Hr) as (Hdb & _).
    rewrite Hdb. unfold recent_outward, last_outwards.
    rewrite order_by_id_desc_is_rev
      by (cbn; now apply increasing_by_fresh).
    cbn [add_outward outwards]. rewrite rev_app_distr. cbn. eexists. reflexivity.
Qed.


End ReadHandlers.

(* ================================================================== *)
(** * The properties above on the samples *)

Import SampleStates.

Lemma serve_keeps_ids_increasing_witness :
  ids_increasing (db with_journal)
  /\ List.NoDup
       (map Inward.id
          (inwards (db (serve (B:=Runtime.builtins) (R:=sqlite_reals)
                          (P:=Runtime.pandas_eager)
                          [MasterPost add_acme_form; MasterDelete delete_acme_args;
                           InwardPost Sample.march_2 ten_by_five_form]
                          with_journal)))).
Proof.
  assert (ids_increasing (db with_journal)) as H.
  { unfold ids_increasing, increasing_by. cbn.
    repeat split; repeat (constructor; cbn; try lia). }
  split; [exact H|].
  destruct (serve_keeps_ids_increasing (B:=Runtime.builtins) (R:=sqlite_reals)
              (P:=Runtime.pandas_eager)
              [MasterPost add_acme_form; MasterDelete delete_acme_args;
               InwardPost Sample.march_2 ten_by_five_form] with_journal H)
    as (_ & _ & _ & Hin & _).
  exact Hin.
Defined.

Lemma master_add_then_get_witness :
  add_acme_form !! "mode"%string = Some "add_customer"%string
  /\ add_acme_form !! "name"%string = Some "Acme"%string
  /\ get_customer (db (fst (master_post add_acme_form empty_state))) 1
     = Some (Customer.Build 1 "Acme" (Some "29ABCDE1234F1Z5"%string)
               None None None).
Proof.
  assert (add_acme_form !! "mode"%string = Some "add_customer"%string) as H1
    by (vm_compute; reflexivity).
  assert (add_acme_form !! "name"%string = Some "Acme"%string) as H2
    by (vm_compute; reflexivity).
  split; [exact H1|]. split; [exact H2|].
  destruct (master_add_then_get add_acme_form empty_state "Acme") as [Hc _].
  exact (proj1 (Hc H1 H2)).
Defined.

Lemma master_delete_then_get_witness :
  delete_acme_args !! "del"%string = Some "cust"%string
  /\ delete_acme_args !! "id"%string = Some "1"%string
  /\ Py.str_truthy "1" = true
  /\ py_int (PyBuiltins:=Runtime.builtins) "1" = Some 1
  /\ get_customer (db with_journal) 1 = Some Sample.acme
  /\ get_customer
       (db (fst (master_delete (B:=Runtime.builtins) delete_acme_args
                   with_journal))) 1 = None
  /\ inwards (db (fst (master_delete (B:=Runtime.builtins) delete_acme_args
                         with_journal)))
     = inwards (db with_journal).
Proof.
  assert (delete_acme_args !! "del"%string = Some "cust"%string) as H1
    by (vm_compute; reflexivity).
  assert (delete_acme_args !! "id"%string = Some "1"%string) as H2
    by (vm_compute; reflexivity).
  assert (py_int (PyBuiltins:=Runtime.builtins) "1" = Some 1) as H3
    by (vm_compute; reflexivity).
  split; [exact H1|]. split; [exact H2|]. split; [reflexivity|].
  split; [exact H3|]. split; [vm_compute; reflexivity|].
  destruct (master_delete_then_get (B:=Runtime.builtins) delete_acme_args
              with_journal "1" 1 H1 H2 eq_refl H3)
    as (Hgone & _ & _ & Hin & _).
  split; [exact Hgone | exact Hin].
Defined.


Lemma export_failure_keeps_record_witness :
  read_inward_form (B:=Runtime.builtins) Sample.march_1 ten_by_five_form
  = Ok ten_by_five_input
  /\ sqlite_int_ok 1 && sqlite_int_ok 1 = true
  /\ files with_broken_archive
       !! month_filename_for (in_entry_date ten_by_five_input)
            (EXPORT_DIR with_broken_archive) = Some NotZip
  /\ inward_post (B:=Runtime.builtins) (R:=sqlite_reals)
       (P:=Runtime.pandas_eager)
       Sample.march_1 ten_by_five_form with_broken_archive
     = (State
          (add_inward (db with_broken_archive)
             (new_inward (R:=sqlite_reals) (db with_broken_archive)
                ten_by_five_input))
          (files with_broken_archive) (EXPORT_DIR with_broken_archive),
        Raise BadZipFile).
Proof.
  assert (read_inward_form (B:=Runtime.builtins) Sample.march_1 ten_by_five_form
          = Ok ten_by_five_input) as Hf by (vm_compute; reflexivity).
  assert (files with_broken_archive
            !! month_filename_for (in_entry_date ten_by_five_input)
                 (EXPORT_DIR with_broken_archive) = Some NotZip) as Hp
    by (vm_compute; reflexivity).
  split; [exact Hf|]. split; [reflexivity|]. split; [exact Hp|].
  exact (proj1 (export_failure_keeps_record (B:=Runtime.builtins)
                  (R:=sqlite_reals) (P:=Runtime.pandas_eager) Sample.march_1
                  ten_by_five_form with_broken_archive ten_by_five_input
                  Hf eq_refl) Hp).
Defined.

Lemma append_adds_to_its_total_witness :
  read_inward_form (B:=Runtime.builtins) Sample.march_1 ten_by_five_form
  = Ok ten_by_five_input
  /\ sqlite_int_ok 1 && sqlite_int_ok 1 = true
  /\ inward_total
       (db (fst (inward_post (B:=Runtime.builtins) (R:=sqlite_reals)
                   (P:=Runtime.pandas_eager)
                   Sample.march_1 ten_by_five_form with_journal))) "DC1"
     = (inward_total Sample.journal "DC1" + 10)%float.
Proof.
  assert (read_inward_form (B:=Runtime.builtins) Sample.march_1 ten_by_five_form
          = Ok ten_by_five_input) as Hf by (vm_compute; reflexivity).
  split; [exact Hf|]. split; [reflexivity|].
  destruct (append_adds_to_its_total (B:=Runtime.builtins) (R:=sqlite_reals)
              (P:=Runtime.pandas_eager) Sample.march_1 ten_by_five_form
              with_journal) as [Hin _].
  exact (proj1 (Hin ten_by_five_input Hf eq_refl)).
Defined.

Lemma recent_lists_latest_first_witness :
  ids_increasing (db with_journal)
  /\ last_inwards (O:=id_engine) (db with_journal)
     = [Sample.in3; Sample.in2; Sample.in1].
Proof.
  assert (ids_increasing (db with_journal)) as H.
  { unfold ids_increasing, increasing_by. cbn.
    repeat split; repeat (constructor; cbn; try lia). }
  split; [exact H|].
  exact (proj1 (recent_lists_latest_first (B:=Runtime.builtins)
                  (R:=sqlite_reals)
                  (P:=Runtime.pandas_eager) (O:=id_engine) Sample.march_1
                  ten_by_five_form with_journal H)).
Defined.

